(* ===== verification/_CoqProject ===== *)
-Q . S2P
Prelude.v
Preprocess.v
Store.v
Rank.v
Search.v
Rag.v
Chat.v
Chunker.v
Chroma.v
Documents.v
Prompt.v
Stream.v
Router.v
Vector.v
Templates.v
App.v
Embedder.v
