(* ===== verification/Prelude.v ===== *)
(** * A verification development for the llm_medical retrieval back end

    The repository (src/llm) serves a medical question-answering assistant.
    Its one genuine algorithm is the "precise" retrieval channel: a curated
    knowledge base of categories, entries and keywords (SQLAlchemy models in
    src/llm/models/precise_models.py, CRUD in
    src/llm/services/precise_service.py) searched by a depth-bounded
    keyword/entry expansion ([PreciseService.search]).  Its ranked and
    truncated output is merged with the vector channel by
    [RAGService.get_rag_content] (src/llm/services/rag_service.py through
    src/llm/rag/precise_rag.py) and folded into the prompt parameters by
    [ChatService._prepare_chat] (src/llm/services/chat_service.py).
    Documents enter the vector channel through the vector router
    (src/llm/routers/vector_router.py): [VectorService.add_document]
    extracts their text, cuts it into chunks ([_split_text]) and stores them
    in a chromadb collection per namespace through [VectorRAG.add_texts]
    (src/llm/rag/vector_rag.py).  Prompt templates are JSON files written
    through the prompt router (src/llm/routers/prompt_router.py) by
    [PromptManager] (src/llm/prompts/prompt_manager.py), which also formats
    them for [_prepare_chat].

    ** Files, in dependency order

    - [Prelude] (this file): Python [str] as a list of code points
      ([text := list N]) and the operations the code applies to it:
      substring test [py_in] ([p in s]), [py_join] ([sep.join(l)]),
      slices [py_slice_from] and [py_slice] (negative indices included),
      [set_add] ([set.add], insertion-ordered), [py_dict_set]/[py_dict_get]
      (an insertion-ordered [dict]) and [dedup] (an ORM result after
      identity uniquing); a call's [outcome] (returned or raised) and a
      FastAPI [http_response] with [catch_all_500], the handlers' [try ...
      except Exception: raise HTTPException(500, str(e))] and Starlette's
      [str(HTTPException)] ([http_exception_str]); the [py_scope] notations, the [pydb] and
      [pyrw] hint databases, the tactics [invc], [bool_hyps], [decide_goal]
      and the shared lemmas on lists.
    - [Preprocess]: the query filter of [search] (precise_service.py:501),
      [c.isalnum() or c.isspace() or ord(c) > 127]; the Unicode table of
      [str.isalnum] is the interface [PyUnicode], and [cjk_unicode] an
      instance for concrete runs.
    - [Store]: the tables as a record [db]; [create_category],
      [create_entry], [update_category], [update_entry], [delete_category],
      [list_categories], [list_entries] as transactions in the monad
      [tx A := db -> result (A * db)], committed or rolled back by [run_tx];
      SQLite rowid allocation ([next_rowid]); the unique constraints as
      [IntegrityError]; the cascade of [delete_category].  The invariant
      [db_wf] holds on every state [reachable] from the empty tables by any
      sequence of requests ([store_op], [apply_op]).  [headache_db] is the
      example of the specification built by these operations.
    - [Rank]: Python's stable [list.sort(key=..., reverse=True)] on a pair
      key as an insertion sort [sort_desc], in a Section over the key.
    - [Search]: [PreciseService.search] (lines 474-646): [keyword_dict],
      level-1 seeding [initial_matches], the per-level query
      [fetch_entries], [select_new] ([processed_entry_ids]), [discover]
      (next-level keywords), the loop body [level_step] and the [while]
      loop [search_loop], then ranking, truncation and the merged content.
    - [Rag]: [PreciseRAG.search] and [RAGService.get_rag_content]; the vector
      channel is the interface [VectorChannel].
    - [Chat]: each channel's history-aware query ([rag_query_texts]), the
      merged template parameters and the message list of
      [ChatService._prepare_chat]; prompt formatting is the interface
      [PromptFormatter].  [spec_query_text] is the specification's rule.
    - [Chunker]: [VectorService._split_text] with its loop [split_loop].
    - [Prompt]: [PromptManager.get_template], [format_sub_template] and
      [format_selected_templates] (src/llm/prompts/prompt_manager.py) in
      [Module PromptManager], over the template file's content, with
      [str.format] as the interface [PyFormat]; the instance
      [prompt_manager_formatter] of [Chat]'s [PromptFormatter].
    - [Stream]: [ModelService.call_model] and [call_model_stream]
      (model_service.py) over the OpenAI client as the interface
      [ModelClient]; [ChatService.process_chat] and the generator
      [process_stream_chat] (chat_service.py:172-281), a generator being
      the list of what it yields with its [outcome]; the chat endpoints of
      chat_router.py.  Client cancellation is an input: during
      [_prepare_chat] ([CancelledError] inside the generator) or while the
      generator is suspended at the [yield] of its [k]-th frame (closed
      with [GeneratorExit]); [call_model_stream] iterates the synchronous
      OpenAI client, so there is no other suspension point.  [sse_decode]
      is the client's event-stream decoder (HTML standard, LF line ends),
      not repository code: the reference for the framing.
    - [Router]: src/llm/routers/precise_router.py: the Pydantic request
      models with their [Field] bounds ([validate_search], ...), the
      service's error handling ([handled_call] for the methods with
      [try/except], [unhandled_call] for those without), the mapping to
      HTTP statuses ([respond]) and the eight handlers, dispatched by
      [handle]; [serve] runs a sequence of requests.
    - [Chroma]: the chromadb client of [VectorRAG] as an explicit state
      ([chroma_state]: named collections of records with id, document and
      metadata) and the operations of vector_rag.py on it: [get_collection]
      ([get_or_create], [get_existing]), [list_collections],
      [add_texts] with its truncation to 10000 characters and its fallback
      to batches of five ([add_batches]), [delete_by_metadata],
      [delete_collection] and [get_metadata_values]; the failures of
      chromadb's [add] and [delete_collection] are the interface
      [ChromaBackend].
    - [Documents]: [VectorService] (vector_service.py:17-187):
      [add_document], [delete_document], [delete_namespace],
      [create_namespace], [list_namespaces], [list_documents] with their
      [{"error": ...}] results ([vs_result]); text extraction is the
      interface [TextExtractor]; the six endpoints of vector_router.py.
    - [Vector]: [VectorRAG.search] and [_search_sync]
      (src/llm/rag/vector_rag.py) over the chromadb client as the interface
      [ChromaClient]; [vector_rag_channel] is the instance of [Rag]'s
      [VectorChannel] that [RAGService] uses.
    - [Templates]: the template directory of [PromptManager] as an
      association list of JSON objects ([json_template], with an "order"
      absent, [null] or an integer) and [get_template] (its sort raising
      [TypeError] on a [null] order), [add_template], [update_template],
      [delete_template], [list_templates] on it; [prompt_file] is the file
      as [Prompt] reads it; the request models of prompt_router.py with
      their [.dict()] and its five endpoints.
    - [App]: src/llm/main.py: the route table of the application
      ([app_routes]: FastAPI's documentation routes, the four routers
      included under ["/api/v1"], [/health]), Starlette's path matching
      ([tmatch], a path parameter being [[^/]+]) and dispatch ([dispatch]:
      first full match, 405, the [redirect_slashes] retry, 404), the
      [log_requests] middleware (an escaping exception becomes a 500 with
      [str(e)]), the validation-error handler and the health check; the
      chat router's request models ([chat_request_body]) with their field
      defaults and the service call they make ([chat_request_of]).
    - [Embedder]: [SentenceTransformerEmbedder.__call__]
      (vector_rag.py:34-97): the placeholder for blank texts, batches of 32,
      zero vectors for a failing batch; the sentence-transformers model is
      the interface [SentenceModel], floats an abstract type.

    ** What the theorems show

    - Engine (C1-C10): depth-1 results are direct hits; the loop
      terminates; no entry is returned twice; expansion levels are
      disjoint; every result is an enabled entry of the store within the
      category filter at a level in [1, search_depth]; a deeper search only
      appends; level 1 is complete; the output is the first [max_results]
      of the selected entries ranked by descending weight, then descending
      level (deeper first, as the specification's section 4.4 requires,
      against the code comment at line 614), stably, with the blank-line
      join; deleting a category keeps the other categories searchable; a
      keyword holding ASCII punctuation never matches.
    - Store (C11-C13, C17): the invariant on all reachable states; the
      cascade of [delete_category]; the keyword rows of a new entry; what
      [update_entry] assigns.
    - Precise HTTP layer (C14-C16): a failed request changes nothing; a
      validated search is always answered 200; the status of each
      not-found case (404, but 400 for entry creation).
    - Answer stream (C18-C21): cancellation during [_prepare_chat] yields
      the end marker alone, cancellation after the [k]-th frame ends the
      stream after [k] frames without the end marker that the
      specification's section 5 requires (a code bug); an uncancelled
      stream delivers the whole answer and no end marker; the framing
      round-trips through the decoder exactly for chunks without a line
      feed; the error frames.
    - Vector store and documents (C22-C26): on every store reachable by
      calls of the vector service, collection names are unique and every
      record carries its upload's metadata, so [list_documents] sees every
      document; what [add_texts] stores and returns (a sublist of the
      truncated texts, nothing on failure); uploading then deleting a
      document restores the store on every path; an upload reports
      [len(chunks)] while storing possibly fewer; [list_documents] gives
      every document the namespace's first source, against its comment (a
      code bug).
    - Prompt and vector routers, template files (C27-C29): no endpoint of
      the two routers answers 400 or 404, every refusal becomes a 500; a
      template posted without an order, as the repository's tests post
      them, is stored but can never be read (a code bug); adding then
      deleting a template restores the directory.
    - Application and retrieval (C30-C32): no request is matched by two
      routes of the application; [get_rag_content]'s precise channel and
      its [ValueError]; a chat request without search configurations is
      answered as one sending them as [{}].
    - Vector search and embedding (C33-C35): the vector channel's fixed
      message when it finds nothing (never the empty string); the
      embedding has one vector of the model's dimension per text, failing
      batches included; batching by 32 is transparent.
    - Orchestration (C36, C37): refinement of the history rule against the
      specification; the content reaching the prompt.
    - Chunking (C38-C40): termination for [0 <= chunk_overlap < chunk_size],
      divergence otherwise, bounds on the chunks.
    Every theorem with hypotheses has a [_witness] applying it to a concrete
    store, directory or text.  Other theorems of the files (what the query
    filter keeps, weight clamping, [sort_desc] as the only stable
    descending sort, the tie order of equal weights, the specification's
    example, the repeated overlap of a merged chunk, the template sort and
    [_prepare_chat]'s error, the overriding of template parameters, the
    defaulting of sub-template orders, the invariant through the precise
    router, the request models, [Prompt]'s [get_template] as the file
    operation seen through its reading, the routing of the precise
    requests) are proved as well.

    ** Fuel

    [search_loop] gets [search_depth + 1] rounds: each round either breaks
    or raises [current_depth], which starts at 1 and stops past
    [search_depth] ([search_loop_fuel] shows that this is enough and that
    more fuel changes nothing).  [split_loop] gets [len(text) + 1] rounds:
    with [0 <= chunk_overlap < chunk_size] every round moves [start] forward
    by at least one character; with [chunk_size <= chunk_overlap] no fuel is
    enough, and the theorem says so.  The stream needs no fuel: its loop
    runs over the finite list of the client's events.

    ** What is not modelled, and why

    Logging and its configuration, CORS headers, the start-up code of
    main.py (the aiosqlite import that falls back to running pip, the
    try/except around importing and registering the routers, the call of
    [init_db], uvicorn) and the engine and session factories of
    db_tools.py, which hold no request-level logic (the sessions' effect is
    modelled in [Store]: a transaction committed or rolled back, and
    [create_all] on a fresh file gives the empty tables); the neural model
    behind [SentenceTransformerEmbedder] (interface [SentenceModel]) and
    its loading in the constructor, and chromadb's similarity ranking, of which only the query results
    (interface [ChromaClient]) and the failures of [add] and
    [delete_collection] (interface [ChromaBackend]) are used; the decoding
    of .txt, .docx and .pdf uploads (interface [TextExtractor]); the file
    system under the template directory beyond the files' JSON content; the
    network behind the OpenAI client.
    The SQLAlchemy session is modelled by its observable effect: autoflush
    (a keyword created earlier in the same transaction is found by a later
    lookup), commit or rollback, and the uniquing of loaded collections.
    Random uids ([uuid4]) are inputs of the operations (for a document's
    chunks, a function from their position).  SQL returns the
    rows of a query without ORDER BY in an unspecified order; it is modelled
    as table order, which fixes the order of selection within a level.
    Messages of the service are kept by their template, not as text.
*)

From stdpp Require Import base list decidable strings.
From Stdlib Require Import ZArith Lia.

Declare Scope py_scope.
Delimit Scope py_scope with py.
Open Scope py_scope.

(** ** Python strings

    A Python [str] is a sequence of Unicode code points; [text] is the list
    of their numbers.  [txt] reads an ASCII literal, for concrete tests. *)
Abbreviation text := (list N).

Definition txt (s : string) : text :=
  map Ascii.N_of_ascii (String.list_ascii_of_string s).
Arguments txt : simpl never.

(** [starts_with p s]: [s.startswith(p)]. *)
Fixpoint starts_with (p s : text) : bool :=
  match p, s with
  | [], _ => true
  | c :: p', d :: s' => (c =? d)%N && starts_with p' s'
  | _ :: _, [] => false
  end.

(** [py_in p s]: Python's [p in s] on strings, plain substring containment
    (the empty string is in every string). *)
Fixpoint py_in (p s : text) : bool :=
  starts_with p s || match s with [] => false | _ :: s' => py_in p s' end.

Notation "p '∈ₛ' s" := (py_in p s = true) (at level 70) : py_scope.

(** [py_join sep l]: [sep.join(l)]. *)
Fixpoint py_join (sep : text) (l : list text) : text :=
  match l with
  | [] => []
  | [x] => x
  | x :: l' => x ++ sep ++ py_join sep l'
  end.

(** Python's index normalisation for a slice bound on a sequence of length
    [n]: a negative index counts from the end, and the result is clamped to
    [0..n]. *)
Definition py_index (n i : Z) : nat :=
  Z.to_nat (if (i <? 0)%Z then Z.max 0 (n + i) else Z.min i n).

(** [py_slice_from l i]: [l[i:]]. *)
Definition py_slice_from {A} (l : list A) (i : Z) : list A :=
  drop (py_index (Z.of_nat (length l)) i) l.

(** [py_slice l i j]: [l[i:j]]. *)
Definition py_slice {A} (l : list A) (i j : Z) : list A :=
  let n := Z.of_nat (length l) in
  take (py_index n j - py_index n i) (drop (py_index n i) l).

(** [set_add x s]: [s.add(x)] on a Python set, kept as a duplicate-free
    list in insertion order. *)
Definition set_add `{EqDecision A} (x : A) (s : list A) : list A :=
  if decide (x ∈ s) then s else s ++ [x].

(** The distinct elements of a list in first-occurrence order: the rows
    an ORM query returns after identity uniquing ([Result.unique()]). *)
Definition dedup `{EqDecision A} (l : list A) : list A :=
  fold_left (fun s x => set_add x s) l [].

(** [m[k] = v] on a Python dict with string keys, kept as an association
    list in insertion order: an existing key keeps its position and takes
    the new value. *)
Fixpoint py_dict_set {V} (k : text) (v : V) (m : list (text * V)) : list (text * V) :=
  match m with
  | [] => [(k, v)]
  | (k', v') :: m' => if decide (k' = k) then (k, v) :: m' else (k', v') :: py_dict_set k v m'
  end.

(** [m.get(k)]. *)
Fixpoint py_dict_get {V} (k : text) (m : list (text * V)) : option V :=
  match m with
  | [] => None
  | (k', v') :: m' => if decide (k' = k) then Some v' else py_dict_get k m'
  end.

(** ** Python exceptions and HTTP responses *)

(** The outcome of a Python call: a returned value or a raised exception. *)
Inductive outcome (E A : Type) := Returned (a : A) | Raised (e : E).
Arguments Returned {E A} a.
Arguments Raised {E A} e.

(** The response of a FastAPI handler: the returned body (status 200), or
    an [HTTPException(status_code, detail)]. *)
Inductive http_response (D A : Type) := HttpOk (body : A) | HttpError (status : Z) (detail : D).
Arguments HttpOk {D A} body.
Arguments HttpError {D A} status detail.

Definition http_status {D A} (r : http_response D A) : Z :=
  match r with HttpOk _ => 200%Z | HttpError s _ => s end.

(** The decimal digits of a natural number, [str(n)]. *)
Fixpoint digits_fuel (fuel : nat) (n : N) (acc : text) : text :=
  match fuel with
  | O => acc
  | S fuel' =>
      let acc' := (48 + n mod 10)%N :: acc in
      if (n <? 10)%N then acc' else digits_fuel fuel' (n / 10)%N acc'
  end.

Definition py_str_N (n : N) : text := digits_fuel (N.to_nat (N.log2 n) + 1) n [].

(** [str(HTTPException(status_code, detail))] (Starlette):
    [f"{status_code}: {detail}"]. *)
Definition http_exception_str (status : Z) (detail : text) : text :=
  py_str_N (Z.to_N status) ++ txt ": " ++ detail.

(** A handler whose body is wrapped in [try: ... except Exception as e:
    raise HTTPException(status_code=500, detail=str(e))]: an
    [HTTPException] raised in the body is an [Exception] too, and is
    re-raised as a 500 whose detail is its [str]. *)
Definition catch_all_500 {A} (r : http_response text A) : http_response text A :=
  match r with
  | HttpOk a => HttpOk a
  | HttpError s d => HttpError 500 (http_exception_str s d)
  end.

(** ** Tactics and hints *)

Create HintDb pydb.
Create Rewrite HintDb pyrw.

Ltac invc H := inversion H; subst; clear H.

(** Split boolean conjunctions and disjunctions in hypotheses into
    propositions. *)
Ltac bool_hyps :=
  repeat match goal with
  | H : (_ && _)%bool = true |- _ => apply andb_prop in H as [? ?]
  | H : (_ || _)%bool = false |- _ => apply orb_false_elim in H as [? ?]
  | H : negb _ = true |- _ => apply negb_true_iff in H
  | H : negb _ = false |- _ => apply negb_false_iff in H
  end.

(** Prove a decidable proposition about closed, computable data by
    evaluating its decision procedure. *)
Ltac decide_goal := apply (bool_decide_unpack _); vm_compute; reflexivity.

(** ** Generic lemmas *)

Lemma starts_with_spec p s : starts_with p s = true <-> exists r, s = p ++ r.
Proof.
  revert s; induction p as [|c p IH]; intros s; simpl.
  - split; eauto.
  - destruct s as [|d s].
    + split; [discriminate | intros [r Hr]; discriminate].
    + rewrite andb_true_iff, N.eqb_eq, IH. split.
      * intros [-> [r ->]]. eauto.
      * intros [r Hr]. injection Hr as -> ->. eauto.
Qed.

Lemma py_in_spec p s : p ∈ₛ s <-> exists a b, s = a ++ p ++ b.
Proof.
  induction s as [|d s IH]; simpl; rewrite orb_true_iff, starts_with_spec.
  - split.
    + intros [[r Hr] | H]; [exists [], r; done | discriminate].
    + intros [a [b Hab]]. left. exists b.
      destruct a, p; simpl in *; done.
  - rewrite IH. split.
    + intros [[r Hr] | [a [b Hab]]].
      * exists [], r. done.
      * exists (d :: a), b. by rewrite Hab.
    + intros [a [b Hab]]. destruct a as [|x a].
      * left. eauto.
      * right. injection Hab as -> ->. eauto.
Qed.

Lemma py_in_nil s : [] ∈ₛ s.
Proof. destruct s; reflexivity. Qed.

Lemma py_in_refl s : s ∈ₛ s.
Proof. apply py_in_spec. exists [], []. by rewrite app_nil_r. Qed.

Lemma py_in_app_l p s t : p ∈ₛ s -> p ∈ₛ s ++ t.
Proof.
  rewrite !py_in_spec. intros (a & b & ->). exists a, (b ++ t).
  by rewrite <- !app_assoc.
Qed.

Lemma py_in_app_r p s t : p ∈ₛ t -> p ∈ₛ s ++ t.
Proof.
  rewrite !py_in_spec. intros (a & b & ->). exists (s ++ a), b.
  by rewrite <- !app_assoc.
Qed.

Lemma py_join_cons sep x l :
  l <> [] -> py_join sep (x :: l) = x ++ sep ++ py_join sep l.
Proof. destruct l; [done | reflexivity]. Qed.

Lemma py_join_nil sep : py_join sep [] = [].
Proof. reflexivity. Qed.

Lemma elem_of_set_add `{EqDecision A} (x y : A) s :
  y ∈ set_add x s <-> y = x \/ y ∈ s.
Proof.
  unfold set_add. case_decide as Hx; rewrite ?elem_of_app, ?list_elem_of_singleton.
  - split; [auto | intros [->|]; auto].
  - tauto.
Qed.

Lemma set_add_NoDup `{EqDecision A} (x : A) s : NoDup s -> NoDup (set_add x s).
Proof.
  unfold set_add. case_decide; [done|]. intros Hs.
  rewrite NoDup_app. split_and!; [done| |by apply NoDup_singleton].
  intros y Hy ->%list_elem_of_singleton. done.
Qed.

Lemma py_index_le n i : (0 <= n)%Z -> (Z.of_nat (py_index n i) <= n)%Z.
Proof. unfold py_index. intros. destruct (Z.ltb_spec i 0); lia. Qed.

#[export] Hint Resolve py_in_nil py_in_refl py_in_app_l py_in_app_r : pydb.
(** A map injective on the elements involved commutes with [set_add]. *)
Lemma fmap_set_add `{EqDecision A, EqDecision B} (f : A -> B) (x : A) s :
  (forall y, y ∈ s -> f y = f x -> y = x) ->
  f <$> set_add x s = set_add (f x) (f <$> s).
Proof.
  intros Hinj. unfold set_add. case_decide as Hx; case_decide as Hfx.
  - done.
  - exfalso. apply Hfx. by apply list_elem_of_fmap_2.
  - exfalso. apply list_elem_of_fmap in Hfx as (y & Hy & Hyin). apply Hx.
    by rewrite <- (Hinj y Hyin).
  - by rewrite fmap_app.
Qed.

Lemma fmap_fold_set_add `{EqDecision A, EqDecision B} (f : A -> B) (l acc : list A) :
  (forall x y, x ∈ l ++ acc -> y ∈ l ++ acc -> f x = f y -> x = y) ->
  f <$> fold_left (fun s x => set_add x s) l acc =
  fold_left (fun s x => set_add x s) (f <$> l) (f <$> acc).
Proof.
  revert acc. induction l as [|x l IH]; intros acc Hinj; simpl; [done|].
  rewrite IH.
  - rewrite fmap_set_add; [done|]. intros y Hy Hf. apply Hinj; [|by left|done].
    rewrite elem_of_app, elem_of_cons. auto.
  - intros y z Hy Hz. apply Hinj; revert Hy Hz; rewrite !elem_of_app, !elem_of_set_add, !elem_of_cons;
      intuition.
Qed.

Lemma Forall2_elem_l {A B} (P : A -> B -> Prop) l1 l2 x :
  Forall2 P l1 l2 -> x ∈ l1 -> exists y, y ∈ l2 /\ P x y.
Proof.
  induction 1 as [|a b l1 l2 Hab _ IH]; [by intros ?%elem_of_nil|].
  rewrite elem_of_cons. intros [->|Hx].
  - exists b. split; [by left|done].
  - destruct (IH Hx) as (y & Hy & Hxy). exists y. split; [by right|done].
Qed.

Lemma omap_fmap_total {A B} (f : A -> option B) (g : A -> B) (l : list A) :
  (forall x, x ∈ l -> f x = Some (g x)) -> omap f l = g <$> l.
Proof.
  induction l as [|x l IH]; intros Hf; simpl; [done|].
  rewrite (Hf x) by (by left). f_equal. apply IH. intros y Hy. apply Hf. by right.
Qed.

Lemma elem_of_dedup `{EqDecision A} (x : A) l : x ∈ dedup l <-> x ∈ l.
Proof.
  unfold dedup. cut (forall acc, x ∈ fold_left (fun s x => set_add x s) l acc <-> x ∈ acc \/ x ∈ l).
  { intros H. rewrite H, elem_of_nil. tauto. }
  induction l as [|y l IH]; intros acc; simpl; [rewrite elem_of_nil; tauto|].
  rewrite IH, elem_of_set_add, elem_of_cons. tauto.
Qed.

Lemma fmap_dedup `{EqDecision A, EqDecision B} (f : A -> B) (l : list A) :
  (forall x y, x ∈ l -> y ∈ l -> f x = f y -> x = y) -> f <$> dedup l = dedup (f <$> l).
Proof.
  intros Hinj. unfold dedup. rewrite fmap_fold_set_add; [done|].
  rewrite app_nil_r. exact Hinj.
Qed.

#[export] Hint Resolve set_add_NoDup : pydb.
#[export] Hint Rewrite @elem_of_set_add py_join_nil : pyrw.

(** ** Lists with keys *)

Lemma NoDup_fmap_filter {A B} (f : A -> B) (p : A -> bool) (l : list A) :
  NoDup (f <$> l) -> NoDup (f <$> List.filter p l).
Proof.
  induction l as [|x l IH]; simpl; [done|]. rewrite NoDup_cons. intros [Hx Hl].
  destruct (p x); simpl; [|auto]. rewrite NoDup_cons. split; [|auto].
  intros Hin. apply Hx. apply list_elem_of_fmap in Hin as (y & -> & Hy).
  apply list_elem_of_fmap. exists y. split; [done|].
  apply list_elem_of_In in Hy. apply filter_In in Hy as [Hy _].
  by apply list_elem_of_In.
Qed.

Lemma NoDup_fmap_inj_on {A B} (f : A -> B) (l : list A) x y :
  NoDup (f <$> l) -> x ∈ l -> y ∈ l -> f x = f y -> x = y.
Proof.
  induction l as [|z l IH]; simpl; [intros _ Hx; by apply elem_of_nil in Hx|].
  rewrite NoDup_cons, !elem_of_cons. intros [Hz Hl] Hx Hy Hf.
  destruct Hx as [->|Hx], Hy as [->|Hy]; auto.
  - exfalso. apply Hz. rewrite Hf. by apply list_elem_of_fmap_2.
  - exfalso. apply Hz. rewrite <- Hf. by apply list_elem_of_fmap_2.
Qed.

(** Replacing the elements whose key is [k] by [y] leaves a projection [f]
    unchanged when [y] agrees with the replaced elements on [f]. *)
Lemma fmap_replace_same {A B} (key : A -> nat) (f : A -> B) (k : nat) (y : A)
    (l : list A) :
  (forall x, x ∈ l -> key x = k -> f x = f y) ->
  f <$> ((fun x => if decide (key x = k) then y else x) <$> l) = f <$> l.
Proof.
  induction l as [|x l IH]; intros Hl; simpl; [done|].
  f_equal.
  - case_decide; [symmetry; apply Hl; [apply elem_of_cons; by left | done]|done].
  - apply IH. intros z Hz. apply Hl. apply elem_of_cons. by right.
Qed.

Lemma find_bd_some {A B} `{EqDecision B} (f : A -> B) (v : B) (l : list A) x :
  List.find (fun y => bool_decide (f y = v)) l = Some x -> x ∈ l /\ f x = v.
Proof.
  intros H. apply find_some in H as [Hin Hf].
  apply bool_decide_eq_true in Hf. split; [by apply list_elem_of_In | done].
Qed.

Lemma find_bd_none {A B} `{EqDecision B} (f : A -> B) (v : B) (l : list A) :
  List.find (fun y => bool_decide (f y = v)) l = None -> v ∉ f <$> l.
Proof.
  intros H Hin. apply list_elem_of_fmap in Hin as (x & -> & Hx).
  apply list_elem_of_In in Hx. eapply find_none in H; [|exact Hx].
  by rewrite bool_decide_eq_false in H.
Qed.

Lemma find_bd_unique {A B} `{EqDecision B} (f : A -> B) (l : list A) x :
  NoDup (f <$> l) -> x ∈ l -> List.find (fun y => bool_decide (f y = f x)) l = Some x.
Proof.
  intros Hnd Hx. destruct (List.find _ l) as [y|] eqn:E.
  - apply find_bd_some in E as [Hy Hf]. f_equal. by eapply NoDup_fmap_inj_on.
  - apply find_bd_none in E. exfalso. apply E. by apply list_elem_of_fmap_2.
Qed.

Lemma NoDup_snoc {A} (l : list A) x : NoDup l -> x ∉ l -> NoDup (l ++ [x]).
Proof.
  intros Hl Hx. rewrite NoDup_app. split_and!; [done| |by apply NoDup_singleton].
  intros y Hy ->%list_elem_of_singleton. done.
Qed.

#[export] Hint Resolve NoDup_fmap_filter NoDup_snoc : pydb.

Lemma Forall_list_filter {A} (P : A -> Prop) (p : A -> bool) (l : list A) :
  Forall P l -> Forall P (List.filter p l).
Proof.
  rewrite !Forall_forall. intros H x Hx.
  apply list_elem_of_In, filter_In in Hx as [Hx _]. apply H. by apply list_elem_of_In.
Qed.

Lemma Forall_elem_app {A B} (f : A -> B) (l l' : list B) (xs : list A) :
  Forall (fun x => f x ∈ l) xs -> Forall (fun x => f x ∈ l ++ l') xs.
Proof. intros H. eapply Forall_impl; [exact H|]. intros x Hx. apply elem_of_app. by left. Qed.

Lemma elem_of_list_filter_In {A} (p : A -> bool) (l : list A) x :
  x ∈ List.filter p l <-> x ∈ l /\ p x = true.
Proof. rewrite !list_elem_of_In. apply filter_In. Qed.

(** A key survives a filter when every element carrying it is kept. *)
Lemma elem_of_fmap_filter {A B} (f : A -> B) (p : A -> bool) (l : list A) x :
  x ∈ f <$> l -> (forall y, y ∈ l -> f y = x -> p y = true) ->
  x ∈ f <$> List.filter p l.
Proof.
  intros (y & -> & Hy)%list_elem_of_fmap Hp. apply list_elem_of_fmap_2.
  apply elem_of_list_filter_In. auto.
Qed.

#[export] Hint Resolve Forall_list_filter Forall_elem_app : pydb.

Lemma Forall_elem {A} (P : A -> Prop) (l : list A) x : Forall P l -> x ∈ l -> P x.
Proof. rewrite Forall_forall. auto. Qed.

(** ** Sets built by folding [set.add] *)

Section FoldSetAdd.
Context `{EqDecision A} {B : Type}.

(** [for x in l: if f(x): s.add(g(x))]. *)
Lemma fold_set_add_spec (f : B -> bool) (g : B -> A) (l : list B) acc y :
  y ∈ fold_left (fun s x => if f x then set_add (g x) s else s) l acc <->
  y ∈ acc \/ exists x, x ∈ l /\ f x = true /\ g x = y.
Proof.
  revert acc; induction l as [|x l IH]; intros acc; simpl.
  - split; [auto|]. intros [H|(x & Hx & _)]; [done|]. by apply elem_of_nil in Hx.
  - rewrite IH. setoid_rewrite elem_of_cons.
    destruct (f x) eqn:E; [rewrite elem_of_set_add|]; split.
    + intros [[->|Hy]|(z & Hz & Hf & Hg)]; [right; exists x; auto | auto |].
      right. exists z. auto.
    + intros [Hy|(z & [->|Hz] & Hf & Hg)]; [auto | left; left; congruence |].
      right. exists z. auto.
    + intros [Hy|(z & Hz & Hf & Hg)]; [auto|]. right. exists z. auto.
    + intros [Hy|(z & [->|Hz] & Hf & Hg)]; [auto | congruence |].
      right. exists z. auto.
Qed.

Lemma fold_set_add_NoDup (f : B -> bool) (g : B -> A) (l : list B) acc :
  NoDup acc -> NoDup (fold_left (fun s x => if f x then set_add (g x) s else s) l acc).
Proof.
  revert acc; induction l as [|x l IH]; intros acc Hacc; simpl; [done|].
  apply IH. destruct (f x); [by apply set_add_NoDup | done].
Qed.

(** An outer fold whose step [F x] only adds elements satisfying [P x]. *)
Lemma fold_union_spec (F : B -> list A -> list A) (P : B -> A -> Prop) l acc y :
  (forall x s y, y ∈ F x s <-> y ∈ s \/ P x y) ->
  y ∈ fold_left (fun s x => F x s) l acc <-> y ∈ acc \/ exists x, x ∈ l /\ P x y.
Proof.
  intros HF. revert acc; induction l as [|x l IH]; intros acc; simpl.
  - split; [auto|]. intros [H|(x & Hx & _)]; [done|]. by apply elem_of_nil in Hx.
  - rewrite IH, HF. setoid_rewrite elem_of_cons. naive_solver.
Qed.

Lemma fold_union_NoDup (F : B -> list A -> list A) l acc :
  (forall x s, NoDup s -> NoDup (F x s)) ->
  NoDup acc -> NoDup (fold_left (fun s x => F x s) l acc).
Proof.
  intros HF. revert acc; induction l as [|x l IH]; intros acc Hacc; simpl; auto.
Qed.
End FoldSetAdd.

(** ** Dictionaries *)

Lemma py_dict_set_elem {V} k (v : V) m p : p ∈ py_dict_set k v m -> p = (k, v) \/ p ∈ m.
Proof.
  induction m as [|[k' v'] m IH]; simpl.
  - rewrite list_elem_of_singleton. auto.
  - case_decide; rewrite !elem_of_cons; [naive_solver|].
    intros [->|Hp]; [auto|]. destruct (IH Hp); auto.
Qed.

Lemma py_dict_set_fresh {V} k (v : V) m : k ∉ m.*1 -> py_dict_set k v m = m ++ [(k, v)].
Proof.
  induction m as [|[k' v'] m IH]; simpl; [done|].
  rewrite not_elem_of_cons. intros [Hk Hm].
  rewrite decide_False by congruence. by rewrite IH.
Qed.

Lemma py_dict_set_set {V} k (v v' : V) m :
  py_dict_set k v (py_dict_set k v' m) = py_dict_set k v m.
Proof.
  induction m as [|[k1 v1] m IH]; simpl; [by case_decide|].
  case_decide; simpl; case_decide; congruence.
Qed.

Lemma py_dict_set_id {V} k (v : V) m : py_dict_get k m = Some v -> py_dict_set k v m = m.
Proof.
  induction m as [|[k1 v1] m IH]; simpl; [discriminate|].
  case_decide; [intros [= ->]; by subst|]. intros Hg. by rewrite IH.
Qed.

Lemma py_dict_get_set {V} k k' (v : V) m :
  py_dict_get k' (py_dict_set k v m) = if decide (k = k') then Some v else py_dict_get k' m.
Proof.
  induction m as [|[k1 v1] m IH]; simpl; [by repeat case_decide|].
  repeat case_decide; simpl; repeat case_decide; subst; try done; congruence.
Qed.

(** ** Sublists *)

Lemma sublist_fmap {A B} (f : A -> B) (l1 l2 : list A) :
  l1 `sublist_of` l2 -> (f <$> l1) `sublist_of` (f <$> l2).
Proof. induction 1; simpl; by constructor. Qed.

Lemma Forall_sublist {A} (P : A -> Prop) (l1 l2 : list A) :
  l1 `sublist_of` l2 -> Forall P l2 -> Forall P l1.
Proof.
  intros Hs Hl. apply Forall_forall. intros x Hx.
  apply (Forall_elem _ _ _ Hl). by eapply elem_of_sublist.
Qed.

#[export] Hint Resolve sublist_fmap sublist_inserts_l sublist_app : pydb.

(** ** Filters and deduplication *)

Lemma filter_all {A} (P : A -> Prop) `{forall x, Decision (P x)} (l : list A) :
  Forall P l -> filter P l = l.
Proof. induction 1; [done|]. by rewrite filter_cons_True, IHForall. Qed.

Lemma filter_none {A} (P : A -> Prop) `{forall x, Decision (P x)} (l : list A) :
  Forall (fun x => ~ P x) l -> filter P l = [].
Proof. induction 1; [done|]. by rewrite filter_cons_False. Qed.

Lemma NoDup_dedup `{EqDecision A} (l : list A) : NoDup (dedup l).
Proof.
  unfold dedup. cut (forall acc, NoDup acc -> NoDup (fold_left (fun s x => set_add x s) l acc)).
  { intros Hc. apply Hc. constructor. }
  induction l as [|x l IH]; intros acc Hacc; simpl; auto using set_add_NoDup.
Qed.

#[export] Hint Resolve NoDup_dedup : pydb.

(** ** Keys of a dict *)

Lemma py_dict_get_elem {V} k (v : V) m : py_dict_get k m = Some v -> (k, v) ∈ m.
Proof.
  induction m as [|[k' v'] m IH]; simpl; [done|].
  case_decide; [intros [= <-]; subst; left|intros Hg; right; auto].
Qed.

Lemma py_dict_set_keys {V} k (v : V) m x : x ∈ (py_dict_set k v m).*1 -> x = k \/ x ∈ m.*1.
Proof.
  intros ([x' v'] & -> & Hp)%list_elem_of_fmap. simpl.
  destruct (py_dict_set_elem k v m _ Hp) as [[= -> _]|Hm]; [by left|right].
  apply list_elem_of_fmap. by exists (x', v').
Qed.

Lemma py_dict_set_NoDup {V} k (v : V) m : NoDup m.*1 -> NoDup (py_dict_set k v m).*1.
Proof.
  induction m as [|[k' v'] m IH]; simpl; [intros; apply NoDup_singleton|].
  rewrite NoDup_cons. intros [Hn Hm]. case_decide; subst; simpl; rewrite NoDup_cons; [done|].
  split; [|auto]. intros [->|?]%py_dict_set_keys; [congruence|done].
Qed.

Lemma NoDup_fmap_filter_sub {A B} (f : A -> B) (P : A -> Prop) `{forall x, Decision (P x)} l :
  NoDup (f <$> l) -> NoDup (f <$> filter P l).
Proof. intros Hl. eapply sublist_NoDup; [exact Hl|]. apply sublist_fmap, sublist_filter. Qed.

#[export] Hint Resolve py_dict_set_NoDup NoDup_fmap_filter_sub : pydb.

(** ** Batches *)

(** [[l[i:i + k] for i in range(0, len(l), k)]]. *)
Definition py_batches {A} (k : nat) (l : list A) : list (list A) :=
  (fun i => take k (drop i l)) <$> ((fun j => k * j) <$> seq 0 ((length l + k - 1) / k)).

Lemma py_batches_concat_aux {A} k (l : list A) j m :
  concat ((fun i => take k (drop i l)) <$> ((fun j => k * j) <$> seq j m)) = take (k * m) (drop (k * j) l).
Proof.
  revert j. induction m as [|m IH]; intros j; cbn [seq].
  - by rewrite Nat.mul_0_r.
  - rewrite !fmap_cons. cbn [concat]. rewrite IH.
    replace (k * S j) with (k * j + k) by lia.
    rewrite <- drop_drop, take_take_drop. f_equal. lia.
Qed.

Lemma py_batches_concat {A} k (l : list A) : 0 < k -> concat (py_batches k l) = l.
Proof.
  intros Hk. unfold py_batches. rewrite py_batches_concat_aux, Nat.mul_0_r, drop_0. apply take_ge.
  pose proof (Nat.div_mod (length l + k - 1) k ltac:(lia)).
  pose proof (Nat.mod_upper_bound (length l + k - 1) k ltac:(lia)). nia.
Qed.

(** Batch by batch, a map that keeps lengths keeps the total length. *)
Lemma length_concat_fmap {A B} (g : list A -> list B) (bs : list (list A)) :
  (forall b, b ∈ bs -> length (g b) = length b) -> length (concat (g <$> bs)) = length (concat bs).
Proof.
  induction bs as [|b bs IH]; intros Hg; [done|]. rewrite fmap_cons. cbn [concat].
  rewrite !length_app, (Hg b), IH; [done| |by left]. intros b' Hb'. apply Hg. by right.
Qed.

Lemma concat_fmap_fmap {A B} (f : A -> B) (bs : list (list A)) :
  concat (fmap (M := list) f <$> bs) = f <$> concat bs.
Proof. induction bs as [|b bs IH]; [done|]. rewrite fmap_cons. cbn [concat]. by rewrite IH, fmap_app. Qed.
