(* ===== verification/Preprocess.v ===== *)
(** * Query preprocessing of [PreciseService.search]

    precise_service.py:501:
    [processed_query = ''.join(c for c in query
                               if c.isalnum() or c.isspace() or ord(c) > 127)]

    [str.isspace] is written out in full (the whitespace code points of
    CPython's Unicode database).  [str.isalnum] on ASCII is the digits and
    Latin letters; beyond ASCII it consults the Unicode database, which is
    the interface [PyUnicode].  The filter never depends on that table
    ([preprocess_unicode_independent]), because every code point above 127
    is kept by the third disjunct. *)

From stdpp Require Import base list decidable strings.
From Stdlib Require Import ZArith Lia.
From S2P Require Import Prelude.

Local Open Scope N_scope.

(** The part of Python's Unicode database that [str.isalnum] consults for
    code points above the ASCII range. *)
Class PyUnicode := { unicode_isalnum : N -> bool }.

(** [str.isalnum] on an ASCII code point: [0-9A-Za-z]. *)
Definition ascii_isalnum (c : N) : bool :=
  ((48 <=? c) && (c <=? 57)) || ((65 <=? c) && (c <=? 90))
  || ((97 <=? c) && (c <=? 122)).

Definition py_isalnum `{PyUnicode} (c : N) : bool :=
  if c <=? 127 then ascii_isalnum c else unicode_isalnum c.

(** [str.isspace] on one code point (CPython: bidirectional class WS, B or
    S, or category Zs). *)
Definition py_isspace (c : N) : bool :=
  ((9 <=? c) && (c <=? 13)) || ((28 <=? c) && (c <=? 32))
  || (c =? 133) || (c =? 160) || (c =? 5760)
  || ((8192 <=? c) && (c <=? 8202)) || (c =? 8232) || (c =? 8233)
  || (c =? 8239) || (c =? 8287) || (c =? 12288).

(** The condition of the generator expression. *)
Definition keep_char `{PyUnicode} (c : N) : bool :=
  py_isalnum c || py_isspace c || (127 <? c).

Definition preprocess_query `{PyUnicode} (query : text) : text :=
  List.filter keep_char query.

(** The condition evaluated without the Unicode table. *)
Definition ascii_keep (c : N) : bool :=
  ascii_isalnum c || py_isspace c || (127 <? c).

(** A Unicode database for concrete runs: the CJK Unified Ideographs
    (U+4E00..U+9FFF) are alphanumeric, as in Python's table. *)
Definition cjk_unicode : PyUnicode :=
  {| unicode_isalnum c := (19968 <=? c) && (c <=? 40959) |}.

(** ** Lemmas *)

Lemma keep_char_ascii_keep `{PyUnicode} c : keep_char c = ascii_keep c.
Proof.
  unfold keep_char, ascii_keep, py_isalnum.
  destruct (N.leb_spec c 127).
  - reflexivity.
  - destruct (N.ltb_spec 127 c); [|lia].
    rewrite !orb_true_r.
    unfold ascii_isalnum.
    destruct (N.leb_spec c 57), (N.leb_spec c 90), (N.leb_spec c 122);
      rewrite ?andb_false_r; simpl; try lia; by rewrite !orb_true_r.
Qed.

Lemma filter_idem {A} (f : A -> bool) (l : list A) :
  List.filter f (List.filter f l) = List.filter f l.
Proof.
  induction l as [|x l IH]; simpl; [done|].
  destruct (f x) eqn:E; simpl; rewrite ?E, IH; done.
Qed.

Lemma elem_of_preprocess `{PyUnicode} c q :
  c ∈ preprocess_query q <-> c ∈ q /\ ascii_keep c = true.
Proof.
  unfold preprocess_query. rewrite list_elem_of_In, filter_In, list_elem_of_In.
  by rewrite keep_char_ascii_keep.
Qed.

#[export] Hint Rewrite @keep_char_ascii_keep : pyrw.

(** ** Properties *)

(** Preprocessing is idempotent (spec section 8):
    [preprocess(preprocess(q)) == preprocess(q)]. *)
Theorem preprocess_idempotent `{PyUnicode} q :
  preprocess_query (preprocess_query q) = preprocess_query q.
Proof. apply filter_idem. Qed.

(** The filter does not depend on the Unicode table behind
    [str.isalnum]: two Unicode databases give the same preprocessed query. *)
Theorem preprocess_unicode_independent (U1 U2 : PyUnicode) q :
  @preprocess_query U1 q = @preprocess_query U2 q.
Proof.
  unfold preprocess_query. induction q as [|c q IH]; simpl; [done|].
  by rewrite (@keep_char_ascii_keep U1), (@keep_char_ascii_keep U2), IH.
Qed.

(** What the filter keeps: exactly the code points of the query that
    are ASCII letters or digits, whitespace, or beyond ASCII; in particular
    no ASCII punctuation survives. *)
Theorem preprocess_keeps `{PyUnicode} c q :
  c ∈ preprocess_query q <->
  c ∈ q /\ (ascii_isalnum c = true \/ py_isspace c = true \/ 127 < c).
Proof.
  rewrite elem_of_preprocess. unfold ascii_keep.
  rewrite !orb_true_iff, N.ltb_lt. tauto.
Qed.

(** C10: A keyword that contains an ASCII punctuation character (for
    instance "covid-19") is never a substring of a preprocessed query, so
    it can never seed level 1 of the search. *)
Theorem punctuated_keyword_never_matches `{PyUnicode} k c q :
  c ∈ k -> ascii_keep c = false -> py_in k (preprocess_query q) = false.
Proof.
  intros Hc Hk. destruct (py_in k (preprocess_query q)) eqn:E; [|done].
  apply py_in_spec in E as (a & b & Ha).
  assert (c ∈ preprocess_query q) as Hin.
  { rewrite Ha. apply elem_of_app. right. apply elem_of_app. by left. }
  apply elem_of_preprocess in Hin as [_ Hin]. congruence.
Qed.

(** ** Concrete run *)

(** "covid-19" contains the hyphen (code point 45). *)
Lemma punctuated_keyword_never_matches_witness :
  py_in (txt "covid-19") (@preprocess_query cjk_unicode (txt "covid-19 symptoms")) = false.
Proof.
  apply (@punctuated_keyword_never_matches cjk_unicode (txt "covid-19") 45);
    [decide_goal | vm_compute; reflexivity].
Defined.
