(* ===== verification/Store.v ===== *)
(** * The knowledge store: tables and transactional CRUD

    Models src/llm/models/precise_models.py (the tables [precise_categories],
    [precise_entries], [precise_keywords] and [keyword_entry_association])
    and the mutating operations of src/llm/services/precise_service.py.

    Each operation is one SQLAlchemy session: it reads the tables, stages
    changes and commits.  It is a [tx]: a function from the tables to either
    an error or a value and the tables after commit; [run_tx] commits on
    success and rolls back (keeps the tables it started from) on error.
    Primary keys are SQLite rowids ([INTEGER PRIMARY KEY] without the
    AUTOINCREMENT keyword): a new row gets the largest rowid plus one, so an
    id freed by deleting the largest row is reused.  The unique constraints of
    the schema ([uid] of categories and of entries, [keyword] of keywords) are
    checked at commit and raise an integrity error. *)

From stdpp Require Import base list decidable strings.
From Stdlib Require Import ZArith Lia.
From S2P Require Import Prelude.

(** ** Tables *)

Record PreciseCategory := mkCategory {
  cat_id : nat; cat_name : text; cat_uid : text }.

Record PreciseEntry := mkEntry {
  ent_id : nat; category_id : nat; description : text; content : text;
  weight : Z; is_enabled : bool; ent_uid : text }.

Record PreciseKeyword := mkKeyword { kw_id : nat; keyword : text }.

(** The database: the rows of each table in rowid order, and the rows
    [(keyword_id, entry_id)] of the association table in insertion order. *)
Record db := mkDb {
  precise_categories : list PreciseCategory;
  precise_entries : list PreciseEntry;
  precise_keywords : list PreciseKeyword;
  keyword_entry_association : list (nat * nat) }.

Definition empty_db : db := mkDb [] [] [] [].

#[export] Instance PreciseCategory_eq_dec : EqDecision PreciseCategory.
Proof. solve_decision. Defined.
#[export] Instance PreciseEntry_eq_dec : EqDecision PreciseEntry.
Proof. solve_decision. Defined.
#[export] Instance PreciseKeyword_eq_dec : EqDecision PreciseKeyword.
Proof. solve_decision. Defined.

(** SQLite's rowid for a new row: one more than the largest in use. *)
Definition next_rowid (ids : list nat) : nat := S (foldr Nat.max 0 ids).

(** ** Transactions *)

Inductive store_error :=
| NotFound (uid : text)     (* "大类不存在" / "条目不存在" *)
| IntegrityError.           (* a unique constraint fails at commit *)

Inductive result (A : Type) := Ok (a : A) | Err (e : store_error).
Arguments Ok {A} a.
Arguments Err {A} e.

Definition tx (A : Type) := db -> result (A * db).

Definition tx_ret {A} (a : A) : tx A := fun d => Ok (a, d).
Definition tx_bind {A B} (m : tx A) (k : A -> tx B) : tx B :=
  fun d => match m d with Ok (a, d') => k a d' | Err e => Err e end.
Definition tx_get : tx db := fun d => Ok (d, d).
Definition tx_put (d : db) : tx unit := fun _ => Ok (tt, d).
Definition tx_fail {A} (e : store_error) : tx A := fun _ => Err e.

Declare Scope tx_scope.
Delimit Scope tx_scope with tx.
Notation "x <- m ;; k" := (tx_bind m (fun x => k))
  (at level 100, m at next level, right associativity) : tx_scope.
Notation "m ;; k" := (tx_bind m (fun _ => k))
  (at level 100, right associativity) : tx_scope.
Open Scope tx_scope.

(** Commit or roll back: on error the session is rolled back and the
    tables are those the transaction started from. *)
Definition run_tx {A} (m : tx A) (d : db) : result A * db :=
  match m d with
  | Ok (a, d') => (Ok a, d')
  | Err e => (Err e, d)
  end.

(** ** Queries *)

Definition find_category (uid : text) (d : db) : option PreciseCategory :=
  List.find (fun c => bool_decide (cat_uid c = uid)) (precise_categories d).

Definition find_entry (uid : text) (d : db) : option PreciseEntry :=
  List.find (fun e => bool_decide (ent_uid e = uid)) (precise_entries d).

Definition find_keyword_text (kws : list PreciseKeyword) (k : text)
  : option PreciseKeyword :=
  List.find (fun kw => bool_decide (keyword kw = k)) kws.

(** [[k.keyword for k in entry.keywords]]: the keywords of the entry's
    association rows.  Loading the collection uniquifies the related
    objects, so a keyword linked by two rows is listed once. *)
Definition keyword_of_id (kws : list PreciseKeyword) (i : nat) : option text :=
  keyword <$> List.find (fun kw => bool_decide (kw_id kw = i)) kws.

Definition entry_keywords (d : db) (eid : nat) : list text :=
  omap (keyword_of_id (precise_keywords d))
    (dedup (fst <$> List.filter (fun r => bool_decide (r.2 = eid))
                      (keyword_entry_association d))).

(** ** Operations *)

(** Weight normalisation (precise_service.py:104-107 and 301-304). *)
Definition clamp_weight (w : Z) : Z :=
  if (w <? 0)%Z then 0%Z else if (99 <? w)%Z then 99%Z else w.

(** [create_category(name)] with [uid = f"cat_{uuid4().hex[:8]}"] given. *)
Definition create_category (name uid : text) : tx PreciseCategory :=
  d <- tx_get ;;
  let c := mkCategory (next_rowid (cat_id <$> precise_categories d)) name uid in
  if decide (uid ∈ cat_uid <$> precise_categories d) then tx_fail IntegrityError
  else tx_put {| precise_categories := precise_categories d ++ [c];
                 precise_entries := precise_entries d;
                 precise_keywords := precise_keywords d;
                 keyword_entry_association := keyword_entry_association d |} ;;
       tx_ret c.

(** One iteration of the keyword loop of [create_entry] and [update_entry]:
    find the keyword by its text (autoflush makes a keyword added earlier
    in the same session visible) or add a new one. *)
Definition resolve_keyword (kws : list PreciseKeyword) (k : text)
  : list PreciseKeyword * nat :=
  match find_keyword_text kws k with
  | Some kw => (kws, kw_id kw)
  | None => let kw := mkKeyword (next_rowid (kw_id <$> kws)) k in
            (kws ++ [kw], kw_id kw)
  end.

(** The whole loop: the keyword table after it, and the keyword ids
    appended to [entry.keywords], one per supplied string. *)
Fixpoint resolve_keywords (kws : list PreciseKeyword) (ks : list text)
  : list PreciseKeyword * list nat :=
  match ks with
  | [] => (kws, [])
  | k :: ks' =>
      let '(kws1, i) := resolve_keyword kws k in
      let '(kws2, ids) := resolve_keywords kws1 ks' in
      (kws2, i :: ids)
  end.

(** [create_entry(category_uid, description, content, keywords, weight,
    is_enabled)] with the fresh [uid] given. *)
Definition create_entry (category_uid description content : text)
    (keywords : list text) (weight : Z) (is_enabled : bool) (uid : text)
  : tx (PreciseEntry * list text) :=
  d <- tx_get ;;
  match find_category category_uid d with
  | None => tx_fail (NotFound category_uid)
  | Some cat =>
      let eid := next_rowid (ent_id <$> precise_entries d) in
      let e := mkEntry eid (cat_id cat) description content
                 (clamp_weight weight) is_enabled uid in
      let '(kws, ids) := resolve_keywords (precise_keywords d) keywords in
      if decide (uid ∈ ent_uid <$> precise_entries d) then tx_fail IntegrityError
      else
        let d' := {| precise_categories := precise_categories d;
                     precise_entries := precise_entries d ++ [e];
                     precise_keywords := kws;
                     keyword_entry_association :=
                       keyword_entry_association d ++ ((fun k => (k, eid)) <$> ids) |} in
        tx_put d' ;; tx_ret (e, entry_keywords d' eid)
  end.

(** [update_category(category_uid, new_name)]. *)
Definition update_category (uid new_name : text) : tx PreciseCategory :=
  d <- tx_get ;;
  match find_category uid d with
  | None => tx_fail (NotFound uid)
  | Some c =>
      let c' := mkCategory (cat_id c) new_name (cat_uid c) in
      tx_put {| precise_categories :=
                  (fun x => if decide (cat_id x = cat_id c) then c' else x)
                    <$> precise_categories d;
                precise_entries := precise_entries d;
                precise_keywords := precise_keywords d;
                keyword_entry_association := keyword_entry_association d |} ;;
      tx_ret c'
  end.

(** The optional fields of [update_entry]; [None] is Python's [None]. *)
Record entry_update := mkUpdate {
  upd_description : option text; upd_content : option text;
  upd_keywords : option (list text); upd_weight : option Z;
  upd_is_enabled : option bool }.

(** The field assignments of [update_entry] (precise_service.py:293-308). *)
Definition apply_update (u : entry_update) (e : PreciseEntry) : PreciseEntry :=
  mkEntry (ent_id e) (category_id e)
    (default (description e) (upd_description u))
    (default (content e) (upd_content u))
    (default (weight e) (clamp_weight <$> upd_weight u))
    (default (is_enabled e) (upd_is_enabled u))
    (ent_uid e).

Definition replace_entry (e' : PreciseEntry) (es : list PreciseEntry)
  : list PreciseEntry :=
  (fun x => if decide (ent_id x = ent_id e') then e' else x) <$> es.

(** [update_entry(entry_uid, description, content, keywords, weight,
    is_enabled)]: [entry.keywords = []] drops the entry's association rows,
    then one row is appended per supplied string. *)
Definition update_entry (uid : text) (u : entry_update)
  : tx (PreciseEntry * list text) :=
  d <- tx_get ;;
  match find_entry uid d with
  | None => tx_fail (NotFound uid)
  | Some e =>
      let e' := apply_update u e in
      let '(kws, assoc) :=
        match upd_keywords u with
        | None => (precise_keywords d, keyword_entry_association d)
        | Some ks =>
            let '(kws, ids) := resolve_keywords (precise_keywords d) ks in
            (kws, List.filter (fun r => negb (bool_decide (r.2 = ent_id e)))
                    (keyword_entry_association d)
                  ++ ((fun k => (k, ent_id e)) <$> ids))
        end in
      let d' := {| precise_categories := precise_categories d;
                   precise_entries := replace_entry e' (precise_entries d);
                   precise_keywords := kws;
                   keyword_entry_association := assoc |} in
      tx_put d' ;; tx_ret (e', entry_keywords d' (ent_id e))
  end.

(** [delete_category(category_uid)]: the relationship's
    [cascade="all, delete-orphan"] deletes the category's entries and their
    association rows; keyword rows are kept. *)
Definition delete_category (uid : text) : tx unit :=
  d <- tx_get ;;
  match find_category uid d with
  | None => tx_fail (NotFound uid)
  | Some c =>
      let doomed := ent_id <$> List.filter (fun e => bool_decide (category_id e = cat_id c))
                                  (precise_entries d) in
      tx_put {| precise_categories :=
                  List.filter (fun x => negb (bool_decide (cat_id x = cat_id c)))
                    (precise_categories d);
                precise_entries :=
                  List.filter (fun e => negb (bool_decide (category_id e = cat_id c)))
                    (precise_entries d);
                precise_keywords := precise_keywords d;
                keyword_entry_association :=
                  List.filter (fun r => negb (bool_decide (r.2 ∈ doomed)))
                    (keyword_entry_association d) |}
  end.

(** [list_categories()]. *)
Definition list_categories : tx (list PreciseCategory) :=
  d <- tx_get ;; tx_ret (precise_categories d).

(** [list_entries(category_uid)]: the category and its entries, each with
    its keyword list. *)
Definition list_entries (uid : text)
  : tx (PreciseCategory * list (PreciseEntry * list text)) :=
  d <- tx_get ;;
  match find_category uid d with
  | None => tx_fail (NotFound uid)
  | Some c =>
      tx_ret (c, (fun e => (e, entry_keywords d (ent_id e)))
                   <$> List.filter (fun e => bool_decide (category_id e = cat_id c))
                         (precise_entries d))
  end.

(** ** The store invariant

    Primary keys and unique columns are duplicate-free, weights lie in
    [0, 99], every entry's category exists and every association row links
    an existing keyword to an existing entry. *)
Definition db_wf (d : db) : Prop :=
  NoDup (cat_id <$> precise_categories d) /\
  NoDup (cat_uid <$> precise_categories d) /\
  NoDup (ent_id <$> precise_entries d) /\
  NoDup (ent_uid <$> precise_entries d) /\
  NoDup (kw_id <$> precise_keywords d) /\
  NoDup (keyword <$> precise_keywords d) /\
  Forall (fun e => 0 <= weight e <= 99)%Z (precise_entries d) /\
  Forall (fun e => category_id e ∈ cat_id <$> precise_categories d)
    (precise_entries d) /\
  Forall (fun r => r.1 ∈ kw_id <$> precise_keywords d /\
                   r.2 ∈ ent_id <$> precise_entries d)
    (keyword_entry_association d).

#[export] Instance db_wf_dec d : Decision (db_wf d).
Proof. unfold db_wf. apply _. Defined.

(** ** The store as a state machine

    A step is one committed or rolled-back mutating request. *)
Inductive store_op :=
| OpCreateCategory (name uid : text)
| OpCreateEntry (category_uid description content : text)
    (keywords : list text) (weight : Z) (is_enabled : bool) (uid : text)
| OpUpdateCategory (uid new_name : text)
| OpUpdateEntry (uid : text) (u : entry_update)
| OpDeleteCategory (uid : text).

Definition apply_op (o : store_op) (d : db) : db :=
  match o with
  | OpCreateCategory n u => (run_tx (create_category n u) d).2
  | OpCreateEntry c ds ct ks w en u => (run_tx (create_entry c ds ct ks w en u) d).2
  | OpUpdateCategory u n => (run_tx (update_category u n) d).2
  | OpUpdateEntry u up => (run_tx (update_entry u up) d).2
  | OpDeleteCategory u => (run_tx (delete_category u) d).2
  end.

Inductive reachable : db -> Prop :=
| reachable_empty : reachable empty_db
| reachable_step o d : reachable d -> reachable (apply_op o d).

(** A sequence of requests, in order. *)
Definition run_ops (ops : list store_op) (d : db) : db :=
  fold_left (fun d o => apply_op o d) ops d.

(** An operation preserves a property of the tables when it commits. *)
Definition tx_preserves {A} (P : db -> Prop) (m : tx A) : Prop :=
  forall d a d', P d -> m d = Ok (a, d') -> P d'.

(** ** Concrete stores

    The example of the specification (section 8), built through the
    store's own operations: category "headache"; E1 (weight 85, keywords
    "migraine" and "headache", content given); E2 (weight 80, keyword
    "tension headache", content mentioning "migraine"). *)
Definition headache_db (e1_content : text) : db :=
  run_ops
    [OpCreateCategory (txt "headache") (txt "cat_1");
     OpCreateEntry (txt "cat_1") (txt "E1") e1_content
       [txt "migraine"; txt "headache"] 85 true (txt "ent_1");
     OpCreateEntry (txt "cat_1") (txt "E2") (txt "Unlike a migraine, it is mild.")
       [txt "tension headache"] 80 true (txt "ent_2")] empty_db.

(** The example store with E1 mentioning "tension headache", and a second
    category "fever" whose entry E3 shares the keyword "headache". *)
Definition ex_db : db := headache_db (txt "A migraine is not a tension headache.").

Definition clinic_db : db :=
  run_ops
    [OpCreateCategory (txt "fever") (txt "cat_2");
     OpCreateEntry (txt "cat_2") (txt "E3") (txt "High temperature.")
       [txt "fever"; txt "headache"] 70 true (txt "ent_3")] ex_db.

(** [clinic_db] after deleting the "headache" category. *)
Definition clinic_after_delete : db :=
  Eval cbv in match delete_category (txt "cat_1") clinic_db with
              | Ok (_, d') => d' | Err _ => clinic_db end.

Definition default_category : PreciseCategory := mkCategory 0 [] [].
Definition default_entry : PreciseEntry := mkEntry 0 0 [] [] 0 false [].
Definition default_keyword : PreciseKeyword := mkKeyword 0 [].

(** The rows of [ex_db] used by the examples. *)
Definition entry_E1 : PreciseEntry :=
  Eval cbv in nth 0 (precise_entries ex_db) default_entry.
Definition entry_E2 : PreciseEntry :=
  Eval cbv in nth 1 (precise_entries ex_db) default_entry.
Definition kw_migraine : PreciseKeyword :=
  Eval cbv in nth 0 (precise_keywords ex_db) default_keyword.

(** The rows of [clinic_db] used by the examples. *)
Definition cat_headache : PreciseCategory :=
  Eval cbv in nth 0 (precise_categories clinic_db) default_category.
Definition entry_E3 : PreciseEntry :=
  Eval cbv in nth 2 (precise_entries clinic_db) default_entry.
Definition kw_headache : PreciseKeyword :=
  Eval cbv in nth 1 (precise_keywords clinic_db) default_keyword.

(** An entry created with a repeated keyword. *)
Definition dup_keywords : list text := [txt "migraine"; txt "aura"; txt "migraine"].

Definition ex_create_entry : result ((PreciseEntry * list text) * db) :=
  Eval cbv in create_entry (txt "cat_1") (txt "E4") (txt "Aura") dup_keywords 120 true
                (txt "ent_4") ex_db.

Definition ex_created : PreciseEntry * list text * db :=
  match ex_create_entry with Ok r => r | Err _ => (default_entry, [], ex_db) end.

(** ** Lemmas *)

Lemma next_rowid_gt ids x : x ∈ ids -> x < next_rowid ids.
Proof.
  unfold next_rowid. induction ids as [|y ids IH]; simpl.
  - intros H. by apply elem_of_nil in H.
  - rewrite elem_of_cons. intros [->|H]; [lia|]. specialize (IH H). lia.
Qed.

Lemma next_rowid_fresh ids : next_rowid ids ∉ ids.
Proof. intros H. apply next_rowid_gt in H. lia. Qed.

Lemma clamp_weight_range w : (0 <= clamp_weight w <= 99)%Z.
Proof.
  unfold clamp_weight. destruct (Z.ltb_spec w 0); [lia|].
  destruct (Z.ltb_spec 99 w); lia.
Qed.

Lemma clamp_weight_id w : (0 <= w <= 99)%Z -> clamp_weight w = w.
Proof.
  intros H. unfold clamp_weight.
  destruct (Z.ltb_spec w 0), (Z.ltb_spec 99 w); lia.
Qed.

#[export] Hint Resolve next_rowid_fresh clamp_weight_range : pydb.

Lemma resolve_keyword_spec kws k kws' i :
  NoDup (kw_id <$> kws) -> NoDup (keyword <$> kws) ->
  resolve_keyword kws k = (kws', i) ->
  (exists extra, kws' = kws ++ extra) /\ NoDup (kw_id <$> kws') /\
  NoDup (keyword <$> kws') /\ mkKeyword i k ∈ kws'.
Proof.
  intros Hid Htx. unfold resolve_keyword.
  destruct (find_keyword_text kws k) as [kw|] eqn:E; intros [= <- <-].
  - apply find_bd_some in E as [Hin <-].
    split_and!; [exists []; by rewrite app_nil_r | done | done | by destruct kw].
  - apply find_bd_none in E. rewrite !fmap_app. simpl.
    split_and!; [eauto | apply NoDup_snoc; auto with pydb | by apply NoDup_snoc |].
    apply elem_of_app. right. by apply list_elem_of_singleton.
Qed.

Lemma resolve_keywords_spec ks kws kws' ids :
  NoDup (kw_id <$> kws) -> NoDup (keyword <$> kws) ->
  resolve_keywords kws ks = (kws', ids) ->
  (exists extra, kws' = kws ++ extra) /\ NoDup (kw_id <$> kws') /\
  NoDup (keyword <$> kws') /\ Forall2 (fun i k => mkKeyword i k ∈ kws') ids ks.
Proof.
  revert kws kws' ids.
  induction ks as [|k ks IH]; intros kws kws' ids Hid Htx; simpl.
  - intros [= <- <-].
    split_and!; [exists []; by rewrite app_nil_r | done | done | constructor].
  - destruct (resolve_keyword kws k) as [kws1 i] eqn:E1.
    destruct (resolve_keywords kws1 ks) as [kws2 ids2] eqn:E2. intros [= <- <-].
    destruct (resolve_keyword_spec _ _ _ _ Hid Htx E1) as ([ex1 ->] & Hid1 & Htx1 & Hin1).
    destruct (IH _ _ _ Hid1 Htx1 E2) as ([ex2 ->] & Hid2 & Htx2 & Hall).
    split_and!; [exists (ex1 ++ ex2); by rewrite app_assoc | done | done |].
    constructor; [|done]. apply elem_of_app. by left.
Qed.

Lemma keyword_of_id_mem kws i k :
  NoDup (kw_id <$> kws) -> mkKeyword i k ∈ kws -> keyword_of_id kws i = Some k.
Proof.
  intros Hnd Hin. unfold keyword_of_id.
  by rewrite (find_bd_unique kw_id kws (mkKeyword i k)).
Qed.

(** The keyword ids of an entry whose association rows are exactly the
    appended ones. *)
Lemma entry_rows_appended (old : list (nat * nat)) (eid : nat) ids :
  (forall r, r ∈ old -> r.2 <> eid) ->
  fst <$> List.filter (fun r => bool_decide (r.2 = eid)) (old ++ ((fun k => (k, eid)) <$> ids))
  = ids.
Proof.
  intros Hold. rewrite List.filter_app.
  replace (List.filter _ old) with (@nil (nat * nat)).
  2:{ induction old as [|r old IH]; simpl; [done|].
      rewrite bool_decide_eq_false_2; [|apply Hold, elem_of_cons; by left].
      apply IH. intros r' Hr'. apply Hold, elem_of_cons. by right. }
  simpl. induction ids as [|i ids IH]; simpl; [done|].
  rewrite bool_decide_eq_true_2 by done. simpl. f_equal. exact IH.
Qed.

(** The keyword list read back for those rows: the supplied strings
    without repetitions. *)
Lemma entry_keywords_appended kws ids ks :
  NoDup (kw_id <$> kws) -> NoDup (keyword <$> kws) ->
  Forall2 (fun i k => mkKeyword i k ∈ kws) ids ks ->
  omap (keyword_of_id kws) (dedup ids) = dedup ks.
Proof.
  intros Hid Htx Hall.
  set (g i := default [] (keyword_of_id kws i)).
  assert (Hg : forall i, i ∈ ids -> mkKeyword i (g i) ∈ kws /\ keyword_of_id kws i = Some (g i)).
  { intros i Hi. destruct (Forall2_elem_l _ _ _ _ Hall Hi) as (k & _ & Hik).
    pose proof (keyword_of_id_mem _ _ _ Hid Hik) as E. unfold g. rewrite E. done. }
  assert (Hks : ks = g <$> ids).
  { clear Hg. induction Hall as [|i k ids' ks' Hik _ IH]; [done|].
    simpl. unfold g at 1. by rewrite (keyword_of_id_mem _ _ _ Hid Hik), IH. }
  rewrite Hks, <- (fmap_dedup g ids).
  - apply omap_fmap_total. intros i Hi. exact (proj2 (Hg i (proj1 (elem_of_dedup i ids) Hi))).
  - intros i j Hi Hj Hgij. destruct (Hg i Hi) as [Hi' _], (Hg j Hj) as [Hj' _].
    rewrite Hgij in Hi'.
    assert (mkKeyword i (g j) = mkKeyword j (g j)) as [=]; [|done].
    by apply (NoDup_fmap_inj_on keyword kws).
Qed.

Lemma resolved_ids_in (kws : list PreciseKeyword) (ids : list nat) (ks : list text) i :
  Forall2 (fun i k => mkKeyword i k ∈ kws) ids ks -> i ∈ ids -> i ∈ kw_id <$> kws.
Proof.
  induction 1 as [|j k ids ks Hjk Hall IH]; [by intros ?%elem_of_nil|].
  rewrite elem_of_cons. intros [->|Hi]; [|auto].
  by apply (list_elem_of_fmap_2 kw_id) in Hjk.
Qed.

(** Unfold the transaction combinators. *)
Ltac tx_simpl :=
  unfold tx_bind, tx_get, tx_put, tx_ret, tx_fail in *; simpl in *.

Lemma run_tx_preserves {A} P (m : tx A) d :
  tx_preserves P m -> P d -> P (run_tx m d).2.
Proof. unfold run_tx. intros Hm Hd. destruct (m d) as [[a d']|e] eqn:E; simpl; eauto. Qed.

Lemma create_category_wf name uid : tx_preserves db_wf (create_category name uid).
Proof.
  intros d a d' Hwf. unfold create_category. tx_simpl.
  case_decide as Hu; [discriminate|]. intros [= <- <-].
  destruct Hwf as (H1&H2&H3&H4&H5&H6&H7&H8&H9). unfold db_wf; simpl. rewrite !fmap_app. simpl.
  split_and!; auto with pydb.
Qed.

Lemma create_entry_wf c ds ct ks w en uid :
  tx_preserves db_wf (create_entry c ds ct ks w en uid).
Proof.
  intros d a d' Hwf. unfold create_entry. tx_simpl.
  destruct (find_category c d) as [cat|] eqn:Ecat; [|discriminate].
  destruct (resolve_keywords (precise_keywords d) ks) as [kws ids] eqn:Eres.
  case_decide as Hu; [discriminate|]. intros [= <- <-].
  destruct Hwf as (H1&H2&H3&H4&H5&H6&H7&H8&H9).
  destruct (resolve_keywords_spec _ _ _ _ H5 H6 Eres) as ([ex ->] & Hid & Htx & Hall).
  apply find_bd_some in Ecat as [Hcat _].
  unfold db_wf; simpl.
  split_and!; [done | done | | | done | done | | | ].
  - rewrite fmap_app. simpl. apply NoDup_snoc; auto with pydb.
  - rewrite fmap_app. simpl. by apply NoDup_snoc.
  - apply Forall_app. split; [done|]. apply Forall_singleton, clamp_weight_range.
  - apply Forall_app. split; [done|]. apply Forall_singleton. simpl.
    by apply list_elem_of_fmap_2.
  - apply Forall_app. split.
    + eapply Forall_impl; [exact H9|]. intros r [Hr1 Hr2].
      rewrite !fmap_app. split; apply elem_of_app; by left.
    + apply Forall_fmap, Forall_forall. intros i Hi. simpl. split.
      * by eapply resolved_ids_in.
      * rewrite fmap_app. apply elem_of_app. right. by apply list_elem_of_singleton.
Qed.

Lemma replace_entry_fmap {B} (f : PreciseEntry -> B) e e' es :
  NoDup (ent_id <$> es) -> e ∈ es -> ent_id e' = ent_id e -> f e' = f e ->
  f <$> replace_entry e' es = f <$> es.
Proof.
  intros Hnd He Hid Hf. unfold replace_entry. apply fmap_replace_same.
  intros x Hx Hk. rewrite Hf. f_equal. eapply NoDup_fmap_inj_on; eauto. congruence.
Qed.

Lemma Forall_replace_entry (P : PreciseEntry -> Prop) e' es :
  Forall P es -> P e' -> Forall P (replace_entry e' es).
Proof.
  intros H He. unfold replace_entry. apply Forall_fmap.
  eapply Forall_impl; [exact H|]. intros x Hx. simpl. by case_decide.
Qed.

Lemma replace_entry_elem e e' es :
  e ∈ es -> ent_id e' = ent_id e -> e' ∈ replace_entry e' es.
Proof.
  intros He Hid. unfold replace_entry.
  apply (list_elem_of_fmap_2 (fun x => if decide (ent_id x = ent_id e') then e' else x)) in He.
  by rewrite decide_True in He.
Qed.

Lemma apply_update_weight u e :
  (0 <= weight e <= 99)%Z -> (0 <= weight (apply_update u e) <= 99)%Z.
Proof. destruct (upd_weight u) eqn:Ew; simpl; rewrite Ew; simpl; auto using clamp_weight_range. Qed.

Lemma update_category_wf uid n : tx_preserves db_wf (update_category uid n).
Proof.
  intros d a d' Hwf. unfold update_category. tx_simpl.
  destruct (find_category uid d) as [c|] eqn:Ec; [|discriminate]. intros [= <- <-].
  apply find_bd_some in Ec as [Hc _].
  destruct Hwf as (H1&H2&H3&H4&H5&H6&H7&H8&H9). unfold db_wf; simpl.
  rewrite (fmap_replace_same cat_id cat_id); [|done].
  rewrite (fmap_replace_same cat_id cat_uid).
  - by split_and!.
  - intros x Hx Hk. simpl. by rewrite (NoDup_fmap_inj_on cat_id (precise_categories d) x c).
Qed.

Lemma update_entry_wf uid u : tx_preserves db_wf (update_entry uid u).
Proof.
  intros d a d' Hwf. unfold update_entry. tx_simpl.
  destruct (find_entry uid d) as [e|] eqn:Ee; [|discriminate].
  apply find_bd_some in Ee as [He _].
  destruct Hwf as (H1&H2&H3&H4&H5&H6&H7&H8&H9).
  set (e' := apply_update u e).
  assert (Hw : (0 <= weight e' <= 99)%Z).
  { simpl. destruct (upd_weight u); simpl; [apply clamp_weight_range|].
    exact (Forall_elem _ _ _ H7 He). }
  assert (Hc : category_id e' ∈ cat_id <$> precise_categories d)
    by exact (Forall_elem _ _ _ H8 He).
  pose proof (replace_entry_fmap ent_id e e' _ H3 He eq_refl eq_refl) as Hids.
  pose proof (replace_entry_fmap ent_uid e e' _ H3 He eq_refl eq_refl) as Huids.
  destruct (upd_keywords u) as [ks|].
  - destruct (resolve_keywords (precise_keywords d) ks) as [kws ids] eqn:Eres.
    intros [= <- <-].
    destruct (resolve_keywords_spec _ _ _ _ H5 H6 Eres) as ([ex ->] & Hid & Htx & Hall).
    unfold db_wf; simpl. rewrite Hids, Huids.
    split_and!; try done; try by apply Forall_replace_entry.
    apply Forall_app. split.
    + apply Forall_list_filter. eapply Forall_impl; [exact H9|].
      intros r [Hr1 Hr2]. split; [|done]. rewrite fmap_app. apply elem_of_app. by left.
    + apply Forall_fmap, Forall_forall. intros i Hi. simpl. split.
      * by eapply resolved_ids_in.
      * by apply list_elem_of_fmap_2.
  - intros [= <- <-]. unfold db_wf; simpl. rewrite Hids, Huids.
    split_and!; try done; by apply Forall_replace_entry.
Qed.

Lemma delete_category_wf uid : tx_preserves db_wf (delete_category uid).
Proof.
  intros d a d' Hwf. unfold delete_category. tx_simpl.
  destruct (find_category uid d) as [c|] eqn:Ec; [|discriminate]. intros [= <- <-].
  destruct Hwf as (H1&H2&H3&H4&H5&H6&H7&H8&H9). unfold db_wf; simpl.
  split_and!; auto with pydb.
  - apply Forall_forall. intros e (He & Hp)%elem_of_list_filter_In.
    apply elem_of_fmap_filter; [exact (Forall_elem _ _ _ H8 He)|].
    intros y Hy Hyid. by rewrite Hyid.
  - apply Forall_forall. intros r (Hr & Hp)%elem_of_list_filter_In.
    destruct (Forall_elem _ _ _ H9 Hr) as [Hr1 Hr2]. split; [done|].
    apply elem_of_fmap_filter; [done|]. intros y Hy Hyid.
    apply negb_true_iff, bool_decide_eq_false. intros Hyc.
    apply negb_true_iff, bool_decide_eq_false in Hp. apply Hp. rewrite <- Hyid.
    apply list_elem_of_fmap_2, elem_of_list_filter_In. split; [done|].
    by apply bool_decide_eq_true.
Qed.

(** What a committed [delete_category] keeps: the keyword table, and the
    entries of the other categories. *)
Lemma delete_category_keeps d uid c d' :
  find_category uid d = Some c -> delete_category uid d = Ok (tt, d') ->
  precise_keywords d' = precise_keywords d /\
  (forall e, e ∈ precise_entries d -> category_id e <> cat_id c ->
             e ∈ precise_entries d').
Proof.
  intros Hc. unfold delete_category. tx_simpl. rewrite Hc. intros [= <-]. simpl.
  split; [done|]. intros e He Hne. apply elem_of_list_filter_In. split; [done|].
  by apply negb_true_iff, bool_decide_eq_false.
Qed.

Lemma apply_op_wf o d : db_wf d -> db_wf (apply_op o d).
Proof.
  destruct o; simpl; apply run_tx_preserves;
    auto using create_category_wf, create_entry_wf, update_category_wf,
               update_entry_wf, delete_category_wf.
Qed.

Lemma empty_db_wf : db_wf empty_db.
Proof. unfold db_wf; simpl. split_and!; constructor. Qed.

(** ** Properties *)

(** C11: The store invariant holds in every reachable state: starting from
    empty tables, any sequence of committed or rolled-back requests keeps
    ids and uids unique (per table), keyword texts unique, weights in
    [0, 99], and every entry and association row pointing at existing
    rows. *)
Theorem reachable_wf d : reachable d -> db_wf d.
Proof.
  induction 1; [apply empty_db_wf | by apply apply_op_wf].
Qed.

(** Weight normalisation is the clamp to [0, 99]: [max(0, min(99, w))];
    in particular [clamp(-5) = 0], [clamp(150) = 99], [clamp(50) = 50]. *)
Theorem clamp_weight_spec w : clamp_weight w = Z.max 0 (Z.min 99 w).
Proof.
  unfold clamp_weight. destruct (Z.ltb_spec w 0); [lia|].
  destruct (Z.ltb_spec 99 w); lia.
Qed.

(** [create_entry] under an unknown category uid fails with NotFound
    and leaves every table as it was. *)
Theorem create_entry_not_found d cuid ds ct ks w en uid :
  find_category cuid d = None ->
  run_tx (create_entry cuid ds ct ks w en uid) d = (Err (NotFound cuid), d).
Proof. intros H. unfold run_tx, create_entry. tx_simpl. by rewrite H. Qed.

(** A category uid already in use makes [create_category] fail at
    commit; the transaction is rolled back and the tables are unchanged. *)
Theorem create_category_integrity d name uid :
  uid ∈ cat_uid <$> precise_categories d ->
  run_tx (create_category name uid) d = (Err IntegrityError, d).
Proof. intros H. unfold run_tx, create_category. tx_simpl. by rewrite decide_True. Qed.

(** C13: Keywords of a new entry: the keyword list [create_entry]
    returns is the supplied strings without repetitions, in first-occurrence
    order, while the association table receives one row per supplied string
    (a repeated string gives repeated rows); the keyword table stays
    duplicate-free and contains every supplied string. *)
Theorem create_entry_keywords d cuid ds ct ks w en uid e kl d' :
  db_wf d ->
  create_entry cuid ds ct ks w en uid d = Ok ((e, kl), d') ->
  kl = dedup ks /\
  length (List.filter (fun r => bool_decide (r.2 = ent_id e)) (keyword_entry_association d'))
    = length ks /\
  NoDup (keyword <$> precise_keywords d') /\
  Forall (fun k => k ∈ keyword <$> precise_keywords d') ks.
Proof.
  intros Hwf. unfold create_entry. tx_simpl.
  destruct (find_category cuid d) as [cat|] eqn:Ecat; [|discriminate].
  destruct (resolve_keywords (precise_keywords d) ks) as [kws ids] eqn:Eres.
  case_decide as Hu; [discriminate|]. intros [= <- <- <-].
  destruct Hwf as (H1&H2&H3&H4&H5&H6&H7&H8&H9).
  destruct (resolve_keywords_spec _ _ _ _ H5 H6 Eres) as ([ex ->] & Hid & Htx & Hall).
  assert (Hold : forall r, r ∈ keyword_entry_association d ->
                   r.2 <> next_rowid (ent_id <$> precise_entries d)).
  { intros r Hr Heq. apply (next_rowid_fresh (ent_id <$> precise_entries d)).
    rewrite <- Heq. exact (proj2 (Forall_elem _ _ _ H9 Hr)). }
  pose proof (entry_rows_appended _ _ ids Hold) as Hrows.
  simpl. split_and!; [| |done|].
  - unfold entry_keywords. simpl. rewrite Hrows. by apply entry_keywords_appended.
  - rewrite <- (length_fmap fst), Hrows. exact (Forall2_length _ _ _ Hall).
  - clear -Hall. induction Hall as [|i k ids ks Hik Hall IH]; constructor; [|done].
    by apply (list_elem_of_fmap_2 keyword) in Hik.
Qed.

(** C12: Deleting a category cascades: afterwards no entry belongs to it,
    every entry of another category is still there, and the keyword table
    is untouched. *)
Theorem delete_category_cascade d uid c d' :
  find_category uid d = Some c ->
  delete_category uid d = Ok (tt, d') ->
  (forall e, e ∈ precise_entries d' -> category_id e <> cat_id c) /\
  (forall e, e ∈ precise_entries d -> category_id e <> cat_id c ->
             e ∈ precise_entries d') /\
  precise_keywords d' = precise_keywords d.
Proof.
  intros Hc Hd. destruct (delete_category_keeps _ _ _ _ Hc Hd) as [Hk Hkeep].
  split_and!; [|done|done]. revert Hd.
  unfold delete_category. tx_simpl. rewrite Hc. intros [= <-].
  intros e (_ & Hp)%elem_of_list_filter_In.
  by apply negb_true_iff, bool_decide_eq_false in Hp.
Qed.

(** C17: [update_entry] assigns exactly the fields that are not [None]
    (the weight clamped to [0, 99]), keeps the entry's id, and returns as its
    keyword list the new strings without repetitions when keywords are
    given, and the stored keyword list otherwise. *)
Theorem update_entry_spec d uid u e' kl d' :
  db_wf d -> update_entry uid u d = Ok ((e', kl), d') ->
  exists e, find_entry uid d = Some e /\ e' = apply_update u e /\
    e' ∈ precise_entries d' /\ (0 <= weight e' <= 99)%Z /\
    (forall ks, upd_keywords u = Some ks -> kl = dedup ks) /\
    (upd_keywords u = None -> kl = entry_keywords d (ent_id e)).
Proof.
  intros Hwf. unfold update_entry. tx_simpl.
  destruct (find_entry uid d) as [e|] eqn:Ee; [|discriminate].
  destruct Hwf as (H1&H2&H3&H4&H5&H6&H7&H8&H9).
  pose proof (find_bd_some _ _ _ _ Ee) as [He _].
  destruct (upd_keywords u) as [ks|] eqn:Ek.
  - destruct (resolve_keywords (precise_keywords d) ks) as [kws ids] eqn:Eres.
    intros [= <- <- <-]. exists e. simpl.
    destruct (resolve_keywords_spec _ _ _ _ H5 H6 Eres) as (_ & Hid & Htx & Hall).
    do 2 (split; [done|]). split; [apply (replace_entry_elem e); [done|reflexivity]|].
    split; [apply apply_update_weight, (Forall_elem _ _ _ H7 He)|].
    split; [|intros [=]]. intros ks' [= <-]. unfold entry_keywords. simpl. rewrite entry_rows_appended.
    + by apply entry_keywords_appended.
    + intros r (_ & Hr)%elem_of_list_filter_In. by apply negb_true_iff, bool_decide_eq_false in Hr.
  - intros [= <- <- <-]. exists e. simpl.
    do 2 (split; [done|]). split; [apply (replace_entry_elem e); [done|reflexivity]|].
    split; [apply apply_update_weight, (Forall_elem _ _ _ H7 He)|].
    split; [intros ? [=]|done].
Qed.

(** ** Concrete runs of the properties *)

Lemma reachable_wf_witness : reachable clinic_db /\ db_wf clinic_db.
Proof.
  assert (Hr : reachable clinic_db).
  { unfold clinic_db, ex_db, headache_db, run_ops. cbn [fold_left].
    repeat apply reachable_step. apply reachable_empty. }
  exact (conj Hr (reachable_wf clinic_db Hr)).
Defined.

Lemma create_entry_not_found_witness :
  run_tx (create_entry (txt "cat_9") (txt "E9") (txt "x") [txt "flu"] 50 true (txt "ent_9"))
    ex_db = (Err (NotFound (txt "cat_9")), ex_db).
Proof. apply create_entry_not_found. vm_compute. reflexivity. Defined.

Lemma create_category_integrity_witness :
  run_tx (create_category (txt "other") (txt "cat_1")) ex_db = (Err IntegrityError, ex_db).
Proof. apply create_category_integrity. apply (bool_decide_unpack _). vm_compute. reflexivity. Defined.

Lemma create_entry_keywords_witness :
  create_entry (txt "cat_1") (txt "E4") (txt "Aura") dup_keywords 120 true (txt "ent_4") ex_db
    = Ok ex_created /\
  ex_created.1.2 = dedup dup_keywords /\
  length (List.filter (fun r => bool_decide (r.2 = ent_id ex_created.1.1))
            (keyword_entry_association ex_created.2)) = length dup_keywords /\ NoDup (keyword <$> precise_keywords ex_created.2) /\
  Forall (fun k => k ∈ keyword <$> precise_keywords ex_created.2) dup_keywords.
Proof.
  assert (Hc : create_entry (txt "cat_1") (txt "E4") (txt "Aura") dup_keywords 120 true
                 (txt "ent_4") ex_db = Ok ((ex_created.1.1, ex_created.1.2), ex_created.2))
    by (vm_compute; reflexivity).
  split; [exact Hc|].
  apply (create_entry_keywords ex_db (txt "cat_1") (txt "E4") (txt "Aura") dup_keywords 120 true
           (txt "ent_4") ex_created.1.1 ex_created.1.2 ex_created.2); [|exact Hc].
  apply (bool_decide_unpack _). vm_compute. reflexivity.
Defined.

Lemma delete_category_cascade_witness :
  (forall e, e ∈ precise_entries clinic_after_delete -> category_id e <> cat_id cat_headache) /\
  (forall e, e ∈ precise_entries clinic_db -> category_id e <> cat_id cat_headache ->
             e ∈ precise_entries clinic_after_delete) /\
  precise_keywords clinic_after_delete = precise_keywords clinic_db.
Proof.
  apply (delete_category_cascade clinic_db (txt "cat_1")); vm_compute; reflexivity.
Defined.

Definition ex_update : entry_update :=
  mkUpdate None (Some (txt "Aura first")) (Some dup_keywords) (Some 150%Z) None.

Definition ex_updated : PreciseEntry * list text * db :=
  Eval cbv in match update_entry (txt "ent_1") ex_update ex_db with
              | Ok r => r | Err _ => (default_entry, [], ex_db) end.

Lemma update_entry_spec_witness :
  exists e, find_entry (txt "ent_1") ex_db = Some e /\ ex_updated.1.1 = apply_update ex_update e /\
    ex_updated.1.1 ∈ precise_entries ex_updated.2 /\ (0 <= weight ex_updated.1.1 <= 99)%Z /\
    (forall ks, upd_keywords ex_update = Some ks -> ex_updated.1.2 = dedup ks) /\
    (upd_keywords ex_update = None -> ex_updated.1.2 = entry_keywords ex_db (ent_id e)).
Proof.
  apply (update_entry_spec ex_db (txt "ent_1") ex_update ex_updated.1.1 ex_updated.1.2
           ex_updated.2); [decide_goal|vm_compute; reflexivity].
Defined.
