(* ===== verification/Rank.v ===== *)
(** * The ranker: Python's stable descending sort on a pair key

    precise_service.py:615:
    [results.sort(key=lambda x: (x["entry"]["weight"],
                                 x["entry"]["match_level"]), reverse=True)]

    Python's [list.sort] is stable, also with [reverse=True]: elements with
    equal keys keep their original order.  Tuples compare
    lexicographically.  The sort is modelled as an insertion sort
    [sort_desc] that inserts each element after every element whose key is
    not smaller; [sort_desc_unique] shows that it is the only stable
    descending ordering, so the model agrees with CPython's (Timsort)
    result whatever the algorithm. *)

From stdpp Require Import base list decidable.
From Stdlib Require Import ZArith Lia Sorted Permutation.
From S2P Require Import Prelude.

(** A list of (key, original position) pairs for concrete runs: two
    elements share the key (1, 0). *)
Definition ex_ranking : list ((Z * Z) * nat) :=
  [((1, 0)%Z, 0); ((2, 0)%Z, 1); ((1, 0)%Z, 2)].

Section Rank.
Context {A : Type} (key : A -> Z * Z).

(** Tuple comparison [k1 < k2] on pairs of integers. *)
Definition key_lt (k1 k2 : Z * Z) : bool :=
  (k1.1 <? k2.1)%Z || ((k1.1 =? k2.1)%Z && (k1.2 <? k2.2)%Z).

(** [x] may come before [y] in a descending order. *)
Definition key_ge (x y : A) : Prop := key_lt (key x) (key y) = false.

Fixpoint insert_desc (x : A) (l : list A) : list A :=
  match l with
  | [] => [x]
  | y :: l' => if key_lt (key y) (key x) then x :: y :: l'
               else y :: insert_desc x l'
  end.

Definition sort_desc (l : list A) : list A :=
  fold_left (fun acc x => insert_desc x acc) l [].

(** The elements of [l] with key [k], in order. *)
Definition with_key (k : Z * Z) (l : list A) : list A :=
  List.filter (fun y => bool_decide (key y = k)) l.

(** ** Order lemmas *)

Lemma key_lt_iff k1 k2 :
  key_lt k1 k2 = true <-> (k1.1 < k2.1 \/ (k1.1 = k2.1 /\ k1.2 < k2.2))%Z.
Proof.
  unfold key_lt. rewrite orb_true_iff, andb_true_iff, Z.ltb_lt, Z.eqb_eq, Z.ltb_lt.
  tauto.
Qed.

Lemma key_lt_false k1 k2 :
  key_lt k1 k2 = false <-> (k2.1 < k1.1 \/ (k1.1 = k2.1 /\ k2.2 <= k1.2))%Z.
Proof.
  destruct (key_lt k1 k2) eqn:E.
  - apply key_lt_iff in E. split; [discriminate|lia].
  - split; [|done]. intros _. destruct (key_lt_iff k1 k2) as [_ H].
    destruct (Z.lt_trichotomy k1.1 k2.1) as [?|[?|?]];
      [|destruct (Z.lt_ge_cases k1.2 k2.2)|]; try lia;
      exfalso; rewrite H in E by lia; discriminate.
Qed.

#[local] Instance key_ge_trans : Transitive key_ge.
Proof.
  intros x y z. unfold key_ge. rewrite !key_lt_false.
  destruct (key x), (key y), (key z); simpl; lia.
Qed.

Lemma key_lt_ge x y : key_lt (key y) (key x) = true -> key_ge x y.
Proof.
  unfold key_ge. rewrite key_lt_iff, key_lt_false.
  destruct (key x), (key y); simpl; lia.
Qed.

Lemma key_ge_antisym x y : key_ge x y -> key_ge y x -> key x = key y.
Proof.
  unfold key_ge. rewrite !key_lt_false.
  destruct (key x) as [a b], (key y) as [c e]; simpl. intros. f_equal; lia.
Qed.

(** ** Permutation *)

Lemma insert_desc_perm x l : Permutation (insert_desc x l) (x :: l).
Proof.
  induction l as [|y l IH]; simpl; [done|].
  destruct (key_lt (key y) (key x)); [done|].
  rewrite IH. apply perm_swap.
Qed.

Lemma fold_insert_perm l acc :
  Permutation (fold_left (fun acc x => insert_desc x acc) l acc) (l ++ acc).
Proof.
  revert acc; induction l as [|x l IH]; intros acc; simpl; [done|].
  rewrite IH, insert_desc_perm. symmetry. apply Permutation_middle.
Qed.

Lemma sort_desc_perm l : Permutation (sort_desc l) l.
Proof. unfold sort_desc. rewrite fold_insert_perm. by rewrite app_nil_r. Qed.

(** ** Sortedness *)

Lemma insert_desc_hd y x l :
  HdRel key_ge y l -> key_ge y x -> HdRel key_ge y (insert_desc x l).
Proof.
  destruct l as [|z l]; simpl; intros Hd Hyx; [by constructor|].
  destruct (key_lt (key z) (key x)); constructor; [done|]. by invc Hd.
Qed.

Lemma insert_desc_sorted x l : Sorted key_ge l -> Sorted key_ge (insert_desc x l).
Proof.
  induction l as [|y l IH]; simpl; intros Hs; [by repeat constructor|].
  destruct (key_lt (key y) (key x)) eqn:E.
  - constructor; [done|]. constructor. by apply key_lt_ge.
  - invc Hs. constructor; [auto|]. by apply insert_desc_hd.
Qed.

Lemma fold_insert_sorted l acc :
  Sorted key_ge acc -> Sorted key_ge (fold_left (fun acc x => insert_desc x acc) l acc).
Proof.
  revert acc; induction l as [|x l IH]; intros acc Hs; simpl; [done|].
  by apply IH, insert_desc_sorted.
Qed.

Lemma sort_desc_sorted l : Sorted key_ge (sort_desc l).
Proof. apply fold_insert_sorted. constructor. Qed.

(** ** Stability *)

Lemma sorted_below x y l :
  Sorted key_ge (y :: l) -> key_lt (key y) (key x) = true ->
  forall z, z ∈ y :: l -> key z <> key x.
Proof.
  intros Hs Hyx z Hz Hzx.
  apply Sorted_StronglySorted in Hs; [|apply key_ge_trans].
  apply elem_of_cons in Hz as [->|Hz].
  - rewrite Hzx in Hyx. apply key_lt_iff in Hyx. lia.
  - invc Hs. apply list_elem_of_In in Hz.
    pose proof (proj1 (Forall_forall _ _) H2 z Hz) as Hyz.
    unfold key_ge in Hyz. rewrite Hzx in Hyz. congruence.
Qed.

Lemma with_key_nil k l : (forall z, z ∈ l -> key z <> k) -> with_key k l = [].
Proof.
  induction l as [|z l IH]; intros H; simpl; [done|].
  rewrite bool_decide_eq_false_2; [|apply H, elem_of_cons; by left].
  apply IH. intros w Hw. apply H, elem_of_cons. by right.
Qed.

Lemma with_key_insert k x l :
  Sorted key_ge l ->
  with_key k (insert_desc x l) =
    if bool_decide (key x = k) then with_key k l ++ [x] else with_key k l.
Proof.
  induction l as [|y l IH]; intros Hs; cbn [insert_desc].
  { unfold with_key. simpl. by case_bool_decide. }
  destruct (key_lt (key y) (key x)) eqn:E.
  - case_bool_decide as Hx.
    + subst k.
      assert (Hn : with_key (key x) (y :: l) = [])
        by (apply with_key_nil; intros z Hz; by apply (sorted_below x y l)).
      rewrite Hn. unfold with_key in *. simpl in *.
      rewrite bool_decide_eq_true_2 by done. by rewrite Hn.
    + unfold with_key. simpl. by rewrite (bool_decide_eq_false_2 (key x = k)).
  - invc Hs. unfold with_key in *. simpl. rewrite IH by done.
    destruct (bool_decide (key y = k)), (bool_decide (key x = k)); done.
Qed.

Lemma with_key_fold k l acc :
  Sorted key_ge acc ->
  with_key k (fold_left (fun acc x => insert_desc x acc) l acc) =
    with_key k acc ++ with_key k l.
Proof.
  revert acc; induction l as [|x l IH]; intros acc Hs; simpl.
  - by rewrite app_nil_r.
  - rewrite IH by (by apply insert_desc_sorted). rewrite with_key_insert by done.
    case_bool_decide; [by rewrite <- app_assoc | done].
Qed.

Lemma sort_desc_with_key k l : with_key k (sort_desc l) = with_key k l.
Proof. unfold sort_desc. by rewrite with_key_fold by constructor. Qed.

(** ** Uniqueness of the stable descending order *)

Lemma with_key_self y l : y ∈ l -> y ∈ with_key (key y) l.
Proof.
  intros Hy. apply elem_of_list_filter_In. split; [done|]. by apply bool_decide_eq_true.
Qed.

Lemma with_key_elem k y l : y ∈ with_key k l -> y ∈ l /\ key y = k.
Proof.
  intros (Hy & Hk)%elem_of_list_filter_In. by apply bool_decide_eq_true in Hk.
Qed.

(** The head of a descending list is above every element of it. *)
Lemma sorted_head_ge x l z :
  Sorted key_ge (x :: l) -> z ∈ x :: l -> key_ge x z.
Proof.
  intros Hs Hz. apply Sorted_StronglySorted in Hs; [|apply key_ge_trans].
  apply elem_of_cons in Hz as [->|Hz].
  - unfold key_ge. apply key_lt_false. lia.
  - invc Hs. apply list_elem_of_In in Hz. exact (proj1 (Forall_forall _ _) H2 z Hz).
Qed.

Lemma sorted_same_keys_eq l1 l2 :
  Sorted key_ge l1 -> Sorted key_ge l2 ->
  (forall k, with_key k l1 = with_key k l2) -> l1 = l2.
Proof.
  revert l2. induction l1 as [|x r1 IH]; intros l2 Hs1 Hs2 Hk.
  - destruct l2 as [|y r2]; [done|]. exfalso.
    pose proof (with_key_self y (y :: r2) ltac:(by apply elem_of_cons; left)) as Hy.
    rewrite <- Hk in Hy. simpl in Hy. by apply elem_of_nil in Hy.
  - destruct l2 as [|y r2].
    { exfalso. pose proof (with_key_self x (x :: r1) ltac:(by apply elem_of_cons; left)) as Hx.
      rewrite Hk in Hx. simpl in Hx. by apply elem_of_nil in Hx. }
    assert (Hxy : key x = key y).
    { apply key_ge_antisym.
      - apply (sorted_head_ge x r1); [done|].
        pose proof (with_key_self y (y :: r2) ltac:(by apply elem_of_cons; left)) as Hy.
        rewrite <- Hk in Hy. by apply with_key_elem in Hy as [? _].
      - apply (sorted_head_ge y r2); [done|].
        pose proof (with_key_self x (x :: r1) ltac:(by apply elem_of_cons; left)) as Hx.
        rewrite Hk in Hx. by apply with_key_elem in Hx as [? _]. }
    pose proof (Hk (key x)) as Hkx. simpl in Hkx.
    rewrite !bool_decide_eq_true_2 in Hkx by done. injection Hkx as <- Hr.
    f_equal. apply IH; [by invc Hs1 | by invc Hs2|].
    intros k. pose proof (Hk k) as Hkk. simpl in Hkk.
    destruct (bool_decide (key x = k)) eqn:E; [|done].
    apply bool_decide_eq_true in E. subst k. done.
Qed.

(** Every element of a prefix of a descending list is above every
    element of the rest. *)
Lemma sorted_app_ge l1 l2 x y :
  Sorted key_ge (l1 ++ l2) -> x ∈ l1 -> y ∈ l2 -> key_ge x y.
Proof.
  induction l1 as [|z l1 IH]; simpl; intros Hs Hx Hy; [by apply elem_of_nil in Hx|].
  apply elem_of_cons in Hx as [->|Hx].
  - apply (sorted_head_ge z (l1 ++ l2)); [done|].
    apply elem_of_cons. right. apply elem_of_app. by right.
  - apply IH; [by apply Sorted_inv in Hs as [? _] | done | done].
Qed.

Lemma sorted_app_l l1 l2 : Sorted key_ge (l1 ++ l2) -> Sorted key_ge l1.
Proof.
  induction l1 as [|z l1 IH]; simpl; intros Hs; [constructor|].
  apply Sorted_inv in Hs as [Hs Hd]. constructor; [auto|].
  destruct l1 as [|w l1]; [constructor|]. simpl in Hd. apply HdRel_inv in Hd.
  by constructor.
Qed.

Lemma with_key_filter k (p : A -> bool) l :
  with_key k (List.filter p l) = List.filter p (with_key k l).
Proof.
  unfold with_key. induction l as [|x l IH]; simpl; [done|].
  destruct (p x) eqn:Ep, (bool_decide (key x = k)) eqn:Ek; simpl;
    rewrite ?Ep, ?Ek, IH; reflexivity.
Qed.

(** Sorting a filtered sorted list is sorting the filtered list. *)
Lemma sort_desc_filter_sort (p : A -> bool) l :
  sort_desc (List.filter p (sort_desc l)) = sort_desc (List.filter p l).
Proof.
  apply sorted_same_keys_eq; [apply sort_desc_sorted..|]. intros k.
  by rewrite !sort_desc_with_key, !with_key_filter, sort_desc_with_key.
Qed.

(** ** Properties *)

(** The ranking is a stable descending sort: the result is a
    permutation of the input, it is sorted by descending key, and the
    elements with any one key appear in their original order. *)
Theorem sort_desc_stable_sorted l :
  Permutation (sort_desc l) l /\ Sorted key_ge (sort_desc l) /\
  (forall k, with_key k (sort_desc l) = with_key k l).
Proof.
  split_and!; [apply sort_desc_perm | apply sort_desc_sorted | intros k; apply sort_desc_with_key].
Qed.

(** Reference characterisation: any list that is sorted by descending
    key and keeps the original order within each key is [sort_desc l];
    so the model is the result of Python's [sort(key, reverse=True)]. *)
Theorem sort_desc_unique l l' :
  Sorted key_ge l' -> (forall k, with_key k l' = with_key k l) ->
  l' = sort_desc l.
Proof.
  intros Hs Hk. apply sorted_same_keys_eq; [done|apply sort_desc_sorted|].
  intros k. by rewrite Hk, sort_desc_with_key.
Qed.
End Rank.

Arguments key_ge {A} key x y /.

(** ** Concrete run *)

Lemma sort_desc_unique_witness :
  [((2, 0)%Z, 1); ((1, 0)%Z, 0); ((1, 0)%Z, 2)] = sort_desc fst ex_ranking.
Proof.
  apply sort_desc_unique.
  - repeat (constructor || reflexivity).
  - intros k. unfold with_key. simpl.
    repeat case_bool_decide; subst; try reflexivity; congruence.
Defined.
