(* ===== verification/Search.v ===== *)
(** * The expansion engine, ranker and aggregator of [PreciseService.search]

    precise_service.py:474-646.  The search reads one snapshot [d] of the
    tables.  It preprocesses the query ([Preprocess]), builds the keyword
    dictionary [{kw.keyword: kw.id}], seeds level 1 with the keywords that
    are substrings of the query, and then runs the [while] loop of lines
    547-611: at each level it fetches the enabled entries linked to the
    level's keyword ids (within the category filter), keeps those not
    selected before, and, below the maximal depth, scans the new entries'
    content for keywords not matched at any level so far, which seed the
    next level.  The selected entries are ranked by [(weight, match_level)]
    descending ([Rank]), truncated to [max_results] when it is positive, and
    their contents joined with a blank line.

    The loop state [loop_state] holds the Python variables
    [all_matched_ids_by_level] (as the list of levels), [current_depth],
    [processed_entry_ids] and [results].  [search_loop] runs the [while]
    with fuel; [search_loop_fuel] shows that [search_depth + 1] rounds of
    fuel always suffice and that more fuel changes nothing, so the search
    never runs out of fuel. *)

From stdpp Require Import base list decidable strings sets.
From Stdlib Require Import ZArith Lia Sorted Permutation.
From S2P Require Import Prelude Preprocess Store Rank.

(** A selected entry and the level at which it was reached. *)
Record hit := mkHit { hit_entry : PreciseEntry; match_level : Z }.

(** The [entry_data] dictionary of lines 573-585. *)
Record entry_data := mkEntryData {
  ed_category_name : text; ed_category_uid : text;
  ed_uid : text; ed_description : text; ed_content : text;
  ed_weight : Z; ed_match_level : Z }.

(** The outcome of [search]: success with the merged content and the
    entries; the early return when no requested category exists (lines
    519-526: success, an empty [entries], no [precise_content]); or the
    [except] branch (success [False], empty entries). *)
Inductive search_result :=
| SearchOk (query precise_content : text) (entries : list entry_data)
| SearchNoCategory
| SearchFailed.

#[export] Instance hit_eq_dec : EqDecision hit.
Proof. solve_decision. Defined.
#[export] Instance entry_data_eq_dec : EqDecision entry_data.
Proof. solve_decision. Defined.

Record loop_state := mkLoop {
  ls_levels : list (list nat);   (* all_matched_ids_by_level[1..] *)
  ls_depth : Z;                  (* current_depth *)
  ls_visited : list nat;         (* processed_entry_ids *)
  ls_results : list hit }.       (* results, before sorting *)

Section Engine.
Context `{PyUnicode}.
Variable d : db.

(** [keyword_dict = {kw.keyword: kw.id for kw in all_keywords}]
    (lines 529-530). *)
Definition keyword_dict : list (text * nat) :=
  fold_left (fun m kw => py_dict_set (keyword kw) (kw_id kw) m) (precise_keywords d) [].

(** Level-1 seeding (lines 533-538). *)
Definition initial_matches (processed_query : text) : list nat :=
  fold_left (fun s kv => if py_in kv.1 processed_query then set_add kv.2 s else s)
    keyword_dict [].

(** The ids of the requested categories (lines 514-517). *)
Definition category_ids (category_uids : list text) : list nat :=
  cat_id <$> List.filter (fun c => bool_decide (cat_uid c ∈ category_uids))
               (precise_categories d).

(** The per-level query (lines 552-565): enabled entries joined with a
    keyword whose id is in [ids], within the category filter. *)
Definition fetch_entries (category_filter : option (list nat)) (ids : list nat)
  : list PreciseEntry :=
  List.filter (fun e =>
      existsb (fun r => bool_decide (r.2 = ent_id e) && bool_decide (r.1 ∈ ids))
        (keyword_entry_association d)
      && match category_filter with
         | None => true
         | Some cids => bool_decide (category_id e ∈ cids)
         end
      && is_enabled e)
    (precise_entries d).

(** Lines 570-587: keep the entries not processed before, marking them. *)
Fixpoint select_new (visited : list nat) (es : list PreciseEntry)
  : list nat * list PreciseEntry :=
  match es with
  | [] => (visited, [])
  | e :: es' =>
      if decide (ent_id e ∈ visited) then select_new visited es'
      else let '(v, news) := select_new (set_add (ent_id e) visited) es' in
           (v, e :: news)
  end.

(** Lines 592-602: keyword ids not matched at any level so far whose text
    occurs in the content of a newly selected entry. *)
Definition discover (news : list PreciseEntry) (seen : list nat) : list nat :=
  fold_left (fun acc e =>
      fold_left (fun acc kv =>
          if bool_decide (kv.2 ∉ seen) && py_in kv.1 (content e)
          then set_add kv.2 acc else acc)
        keyword_dict acc)
    news [].

(** [all_matched_ids_by_level[current_depth]]. *)
Definition current_ids (s : loop_state) : list nat := default [] (last (ls_levels s)).

(** One pass of the loop body (lines 549-611); the boolean is [false] on
    the [break] of line 611. *)
Definition level_step (search_depth : Z) (category_filter : option (list nat))
    (s : loop_state) : loop_state * bool :=
  let '(visited, news) :=
    select_new (ls_visited s) (fetch_entries category_filter (current_ids s)) in
  let results := ls_results s ++ ((fun e => mkHit e (ls_depth s)) <$> news) in
  if (ls_depth s <? search_depth)%Z then
    let next := discover news (concat (ls_levels s)) in
    (mkLoop (ls_levels s ++ [next]) (ls_depth s + 1) visited results, true)
  else (mkLoop (ls_levels s) (ls_depth s) visited results, false).

(** The [while] of line 547, with fuel. *)
Fixpoint search_loop (fuel : nat) (search_depth : Z)
    (category_filter : option (list nat)) (s : loop_state) : option loop_state :=
  match fuel with
  | O => None
  | S fuel' =>
      if bool_decide (ls_depth s <= search_depth)%Z && negb (bool_decide (current_ids s = []))
      then let '(s', continue) := level_step search_depth category_filter s in
           if continue then search_loop fuel' search_depth category_filter s' else Some s'
      else Some s
  end.

Definition category_filter_of (category_uids : list text) : option (list nat) :=
  match category_uids with [] => None | _ => Some (category_ids category_uids) end.

Definition init_state (query : text) : loop_state :=
  mkLoop [initial_matches (preprocess_query query)] 1 [] [].

(** The selected entries with their levels, in selection order. *)
Definition search_hits (query : text) (category_uids : list text) (search_depth : Z)
  : option (list hit) :=
  ls_results <$> search_loop (S (Z.to_nat search_depth)) search_depth
                   (category_filter_of category_uids) (init_state query).

(** [entry_data] of a hit; [entry.category] is the category row of its
    [category_id] (a missing one raises, and the search fails). *)
Definition to_entry_data (h : hit) : option entry_data :=
  match List.find (fun c => bool_decide (cat_id c = category_id (hit_entry h)))
          (precise_categories d) with
  | None => None
  | Some c =>
      let e := hit_entry h in
      Some (mkEntryData (cat_name c) (cat_uid c) (ent_uid e) (description e)
              (content e) (weight e) (match_level h))
  end.
End Engine.

(** The sort key of line 615. *)
Definition result_key (x : entry_data) : Z * Z := (ed_weight x, ed_match_level x).

(** Lines 618-619: [if max_results > 0: results = results[:max_results]]. *)
Definition truncate {A} (max_results : Z) (l : list A) : list A :=
  if (0 <? max_results)%Z then take (Z.to_nat max_results) l else l.

(** ["\n\n".join(...)] of line 622. *)
Definition blank_line : text := [10; 10]%N.

Definition precise_content_of (results : list entry_data) : text :=
  py_join blank_line (ed_content <$> results).

(** [PreciseService.search(query, category_uids, max_results, search_depth)];
    an empty [category_uids] is Python's falsy [None] or [[]]. *)
Definition search `{PyUnicode} (d : db) (query : text) (category_uids : list text)
    (max_results search_depth : Z) : search_result :=
  if bool_decide (category_uids <> []) && bool_decide (category_ids d category_uids = [])
  then SearchNoCategory
  else
    match search_hits d query category_uids search_depth ≫= mapM (to_entry_data d) with
    | None => SearchFailed
    | Some results =>
        let ranked := truncate max_results (sort_desc result_key results) in
        SearchOk query (precise_content_of ranked) ranked
    end.

(** ** Concrete runs

    The example store [ex_db] of [Store] searched for "I have a migraine"
    under the CJK Unicode table; [tie_db] raises E2's weight to E1's
    through [update_entry]. *)
Definition ex_query : text := txt "I have a migraine".

Definition ex_hits (sd : Z) : list hit :=
  default [] (@search_hits cjk_unicode ex_db ex_query [] sd).

Definition ex_state : loop_state :=
  default (@init_state cjk_unicode ex_db ex_query)
    (search_loop ex_db 3 2 None (@init_state cjk_unicode ex_db ex_query)).

Definition ok_entries (r : search_result) : list entry_data :=
  match r with SearchOk _ _ rs => rs | _ => [] end.

Definition tie_db : db :=
  apply_op (OpUpdateEntry (txt "ent_2") (mkUpdate None None None (Some 85%Z) None)) ex_db.

Definition tie_ranked : list entry_data :=
  Eval vm_compute in ok_entries (@search cjk_unicode tie_db ex_query [] 0 2).

Definition ex_ranked : list entry_data :=
  Eval vm_compute in ok_entries (@search cjk_unicode ex_db ex_query [] 1 2).

Definition ex_ranked_all : list entry_data :=
  Eval vm_compute in ok_entries (@search cjk_unicode ex_db ex_query [] 0 2).

Definition default_entry_data : entry_data := mkEntryData [] [] [] [] [] 0 0.

Definition after_query : text := txt "headache since this morning".

(** The uids and levels of a run, for reading the examples. *)
Definition hit_summary (hs : option (list hit)) : option (list (text * Z)) :=
  option_map (List.map (fun h => (ent_uid (hit_entry h), match_level h))) hs.

(** ** Lemmas on the building blocks *)

Lemma truncate_sorted {A} (key : A -> Z * Z) m l :
  Sorted (key_ge key) l -> Sorted (key_ge key) (truncate m l).
Proof.
  unfold truncate. case_match; [|done]. intros Hs.
  apply (sorted_app_l key _ (drop (Z.to_nat m) l)). by rewrite take_drop.
Qed.

Lemma fold_dict_set_elem (l : list PreciseKeyword) acc p :
  p ∈ fold_left (fun m kw => py_dict_set (keyword kw) (kw_id kw) m) l acc ->
  p ∈ acc \/ exists kw, kw ∈ l /\ p = (keyword kw, kw_id kw).
Proof.
  revert acc; induction l as [|kw l IH]; intros acc Hp; simpl in *; [auto|].
  destruct (IH _ Hp) as [Hq|(kw' & Hkw' & ->)].
  - apply py_dict_set_elem in Hq as [->|Hq]; [right; exists kw; split; [by left|done] | auto].
  - right. exists kw'. split; [by right|done].
Qed.

Lemma fold_dict_set_fresh (l : list PreciseKeyword) acc :
  NoDup (acc.*1 ++ (keyword <$> l)) ->
  fold_left (fun m kw => py_dict_set (keyword kw) (kw_id kw) m) l acc =
    acc ++ ((fun kw => (keyword kw, kw_id kw)) <$> l).
Proof.
  revert acc; induction l as [|kw l IH]; intros acc Hnd; simpl; [by rewrite app_nil_r|].
  rewrite py_dict_set_fresh.
  - rewrite IH; [by rewrite <- app_assoc|]. rewrite fmap_app. simpl.
    by rewrite <- app_assoc.
  - intros Hk. simpl in Hnd. apply NoDup_app in Hnd as (_ & Hdis & _).
    apply (Hdis _ Hk). by left.
Qed.

Section EngineLemmas.
Context `{PyUnicode}.
Variable d : db.

(** Every dictionary item is a keyword row. *)
Lemma keyword_dict_sound k i :
  (k, i) ∈ keyword_dict d -> mkKeyword i k ∈ precise_keywords d.
Proof.
  unfold keyword_dict. intros Hp.
  apply fold_dict_set_elem in Hp as [Hp|(kw & Hkw & Heq)]; [by apply elem_of_nil in Hp|].
  injection Heq as -> ->. by destruct kw.
Qed.

(** With unique keyword texts the dictionary lists every keyword row. *)
Lemma keyword_dict_wf :
  NoDup (keyword <$> precise_keywords d) ->
  keyword_dict d = (fun kw => (keyword kw, kw_id kw)) <$> precise_keywords d.
Proof. intros Hnd. unfold keyword_dict. by rewrite fold_dict_set_fresh. Qed.

Lemma initial_matches_spec pq i :
  i ∈ initial_matches d pq <-> exists k, (k, i) ∈ keyword_dict d /\ py_in k pq = true.
Proof.
  unfold initial_matches. rewrite fold_set_add_spec.
  split.
  - intros [Hi|([k j] & Hkj & Hf & Hg)]; [by apply elem_of_nil in Hi|].
    simpl in *. subst. eauto.
  - intros (k & Hk & Hin). right. exists (k, i). auto.
Qed.

Lemma initial_matches_NoDup pq : NoDup (initial_matches d pq).
Proof. apply fold_set_add_NoDup. constructor. Qed.

Lemma discover_spec news seen i :
  i ∈ discover d news seen <->
  i ∉ seen /\ exists e k, e ∈ news /\ (k, i) ∈ keyword_dict d /\ py_in k (content e) = true.
Proof.
  unfold discover. rewrite (fold_union_spec _
    (fun e i => exists k, (k, i) ∈ keyword_dict d /\ i ∉ seen /\ py_in k (content e) = true)).
  - split.
    + intros [Hi|(e & He & k & Hk & Hs & Hc)]; [by apply elem_of_nil in Hi|]. eauto 10.
    + intros (Hs & e & k & He & Hk & Hc). right. eauto 10.
  - intros e acc j. rewrite fold_set_add_spec. split.
    + intros [Hj|([k j'] & Hkj & Hf & Hg)]; [auto|]. simpl in *. subst.
      apply andb_true_iff in Hf as [Hs Hc]. apply bool_decide_eq_true in Hs. eauto.
    + intros [Hj|(k & Hk & Hs & Hc)]; [auto|]. right. exists (k, j). simpl.
      rewrite Hc, andb_true_r. split; [done|]. split; [|done].
      by apply bool_decide_eq_true.
Qed.

Lemma discover_NoDup news seen : NoDup (discover d news seen).
Proof.
  apply fold_union_NoDup; [|constructor]. intros e acc Hacc.
  by apply fold_set_add_NoDup.
Qed.

Lemma fetch_entries_spec filt ids e :
  e ∈ fetch_entries d filt ids <->
  e ∈ precise_entries d /\ is_enabled e = true /\
  (match filt with None => True | Some cids => category_id e ∈ cids end) /\
  exists r, r ∈ keyword_entry_association d /\ r.2 = ent_id e /\ r.1 ∈ ids.
Proof.
  unfold fetch_entries. rewrite elem_of_list_filter_In, !andb_true_iff, existsb_exists.
  setoid_rewrite andb_true_iff. setoid_rewrite bool_decide_eq_true.
  setoid_rewrite <- list_elem_of_In.
  destruct filt; [rewrite bool_decide_eq_true|]; naive_solver.
Qed.

Lemma fetch_entries_mono filt ids ids' e :
  ids ⊆ ids' -> e ∈ fetch_entries d filt ids -> e ∈ fetch_entries d filt ids'.
Proof.
  rewrite !fetch_entries_spec. intros Hsub (He & Hen & Hf & r & Hr & Hr2 & Hr1).
  split_and!; eauto.
Qed.

Lemma select_new_spec v es v' news :
  select_new v es = (v', news) ->
  v' = v ++ (ent_id <$> news) /\ (forall e, e ∈ news -> e ∈ es) /\
  (NoDup v -> NoDup v') /\ (forall e, e ∈ es -> ent_id e ∈ v').
Proof.
  revert v v' news. induction es as [|e es IH]; intros v v' news; simpl.
  - intros [= <- <-]. split_and!; [by rewrite app_nil_r|intros ? Hx; by apply elem_of_nil in Hx
      | done | intros ? Hx; by apply elem_of_nil in Hx].
  - case_decide as Hin.
    + intros Hs. destruct (IH _ _ _ Hs) as (-> & Hsub & Hnd & Hall).
      split_and!; [done| intros x Hx; apply elem_of_cons; right; auto | done |].
      intros x [->|Hx]%elem_of_cons; [|auto]. apply elem_of_app. by left.
    + destruct (select_new (set_add (ent_id e) v) es) as [v1 n1] eqn:Hs.
      intros [= <- <-]. destruct (IH _ _ _ Hs) as (-> & Hsub & Hnd & Hall).
      unfold set_add in *. rewrite decide_False in * by done.
      split_and!.
      * by rewrite <- app_assoc.
      * intros x [->|Hx]%elem_of_cons; apply elem_of_cons; auto.
      * intros Hv. apply Hnd. by apply NoDup_snoc.
      * intros x [->|Hx]%elem_of_cons; [|auto].
        apply elem_of_app. left. apply elem_of_app. right. by left.
Qed.
End EngineLemmas.

(** ** The loop *)

Lemma elem_of_concat_sub {A} (l : list (list A)) x y : x ∈ l -> y ∈ x -> y ∈ concat l.
Proof.
  rewrite !list_elem_of_In. intros Hx Hy. apply in_concat. eauto.
Qed.

Lemma current_ids_sub s : current_ids s ⊆ concat (ls_levels s).
Proof.
  unfold current_ids. destruct (last (ls_levels s)) as [x|] eqn:E; simpl.
  - intros y Hy. eapply elem_of_concat_sub; [|exact Hy]. by apply last_Some_elem_of.
  - intros y Hy. by apply elem_of_nil in Hy.
Qed.

Section LoopLemmas.
Context `{PyUnicode}.
Variable d : db.
Variable filt : option (list nat).

(** The loop invariant: [processed_entry_ids] are the ids of the results,
    levels are disjoint, and every result was fetched at its level. *)
Definition loop_inv (sd : Z) (s : loop_state) : Prop :=
  ls_visited s = ent_id <$> (hit_entry <$> ls_results s) /\
  NoDup (ls_visited s) /\ NoDup (concat (ls_levels s)) /\ (1 <= ls_depth s)%Z /\
  Forall (fun h => (1 <= match_level h <= sd)%Z /\
                   hit_entry h ∈ fetch_entries d filt (concat (ls_levels s)))
    (ls_results s).

(** What one pass of the loop body does. *)
Lemma level_step_shape sd s s' c :
  level_step d sd filt s = (s', c) ->
  exists news,
    select_new (ls_visited s) (fetch_entries d filt (current_ids s)) = (ls_visited s', news) /\
    ls_results s' = ls_results s ++ ((fun e => mkHit e (ls_depth s)) <$> news) /\
    c = (ls_depth s <? sd)%Z /\
    (if c then ls_levels s' = ls_levels s ++ [discover d news (concat (ls_levels s))] /\
               ls_depth s' = (ls_depth s + 1)%Z
     else ls_levels s' = ls_levels s /\ ls_depth s' = ls_depth s).
Proof.
  unfold level_step.
  destruct (select_new _ _) as [v news] eqn:E.
  destruct (Z.ltb_spec (ls_depth s) sd); intros [= <- <-]; exists news; simpl; auto.
Qed.

(** The pass does not depend on the depth bound except in whether the
    loop goes on. *)
Lemma level_step_bound_indep sd sd' s :
  ((level_step d sd filt s).1).(ls_results) = ((level_step d sd' filt s).1).(ls_results) /\
  ((level_step d sd filt s).2 = true -> (level_step d sd' filt s).2 = true ->
   (level_step d sd filt s).1 = (level_step d sd' filt s).1).
Proof.
  unfold level_step. destruct (select_new _ _).
  destruct (ls_depth s <? sd)%Z, (ls_depth s <? sd')%Z; simpl; split; congruence.
Qed.

Lemma level_step_inv sd s s' c :
  loop_inv sd s -> (ls_depth s <= sd)%Z -> level_step d sd filt s = (s', c) ->
  loop_inv sd s'.
Proof.
  intros (Hv & Hnv & Hnl & Hd & Hr) Hsd Hstep.
  destruct (level_step_shape _ _ _ _ Hstep) as (news & Hsel & Hres & Hc & Hlev).
  destruct (select_new_spec _ _ _ _ Hsel) as (Hv' & Hsub & Hnd' & _).
  assert (Hlevsub : concat (ls_levels s) ⊆ concat (ls_levels s')).
  { destruct c; destruct Hlev as [-> _]; [rewrite concat_app|]; set_solver. }
  split_and!.
  - rewrite Hv', Hres, Hv, !fmap_app. f_equal. clear.
    induction news as [|e news IH]; simpl; f_equal; auto.
  - auto.
  - destruct c; destruct Hlev as [-> _]; [|done].
    rewrite concat_app. simpl. rewrite app_nil_r. apply NoDup_app.
    split_and!; [done| |apply discover_NoDup].
    intros i Hi Hi'. by apply discover_spec in Hi' as [? _].
  - destruct c; destruct Hlev as [_ ->]; lia.
  - rewrite Hres. apply Forall_app. split.
    + eapply Forall_impl; [exact Hr|]. intros h [Hl Hf].
      split; [done|]. by eapply fetch_entries_mono.
    + apply Forall_fmap, Forall_forall. intros e He. simpl. split; [lia|].
      eapply fetch_entries_mono; [|by apply Hsub].
      etrans; [apply current_ids_sub|done].
Qed.

Lemma search_loop_inv n sd s s' :
  loop_inv sd s -> search_loop d n sd filt s = Some s' -> loop_inv sd s'.
Proof.
  revert s. induction n as [|n IH]; intros s Hinv; simpl; [discriminate|].
  destruct (bool_decide _ && _) eqn:Hg; [|by intros [= <-]].
  apply andb_true_iff in Hg as [Hg _]. apply bool_decide_eq_true in Hg.
  destruct (level_step d sd filt s) as [s1 c] eqn:Hstep.
  pose proof (level_step_inv _ _ _ _ Hinv Hg Hstep) as Hinv1.
  destruct c; [by apply IH | by intros [= <-]].
Qed.

(** Results only grow along the loop. *)
Lemma search_loop_results_grow n sd s s' :
  search_loop d n sd filt s = Some s' -> ls_results s `prefix_of` ls_results s'.
Proof.
  revert s. induction n as [|n IH]; intros s; simpl; [discriminate|].
  destruct (bool_decide _ && _); [|by intros [= <-]].
  destruct (level_step d sd filt s) as [s1 c] eqn:Hstep.
  destruct (level_step_shape _ _ _ _ Hstep) as (news & _ & Hres & _).
  assert (ls_results s `prefix_of` ls_results s1) by (rewrite Hres; by eexists).
  destruct c; [intros Hl; etrans; [done|]; by apply (IH s1) | by intros [= <-]].
Qed.

(** Termination: [search_depth - current_depth + 1] rounds of fuel
    suffice, and more fuel gives the same result. *)
Lemma search_loop_fuel n m sd s :
  (Z.to_nat (sd - ls_depth s) < n)%nat -> (n <= m)%nat ->
  is_Some (search_loop d n sd filt s) /\ search_loop d m sd filt s = search_loop d n sd filt s.
Proof.
  revert m s. induction n as [|n IH]; intros m s Hn Hm; [lia|].
  destruct m as [|m]; [lia|]. simpl.
  destruct (bool_decide _ && _); [|split; [by eexists|done]].
  destruct (level_step d sd filt s) as [s1 c] eqn:Hstep.
  destruct (level_step_shape _ _ _ _ Hstep) as (news & _ & _ & Hc & Hlev).
  destruct c; [|split; [by eexists|done]].
  symmetry in Hc. apply Z.ltb_lt in Hc. destruct Hlev as [_ Hd].
  apply IH; lia.
Qed.

(** Raising the depth bound by one only appends results. *)
Lemma search_loop_deeper n sd s r1 r2 :
  (Z.to_nat (sd + 1 - ls_depth s) < n)%nat ->
  search_loop d n sd filt s = Some r1 -> search_loop d n (sd + 1) filt s = Some r2 ->
  ls_results r1 `prefix_of` ls_results r2.
Proof.
  revert s. induction n as [|n IH]; intros s Hn; [lia|]. simpl.
  destruct (bool_decide (ls_depth s <= sd)%Z) eqn:Hg1; simpl.
  2:{ intros [= <-] H2. apply (search_loop_results_grow (S n) (sd + 1) s).
      simpl. done. }
  apply bool_decide_eq_true in Hg1.
  rewrite (bool_decide_eq_true_2 (ls_depth s <= sd + 1)%Z) by lia. simpl.
  destruct (negb _); [|intros [= <-] [= <-]; done].
  destruct (level_step_bound_indep sd (sd + 1) s) as [Hres Hsame].
  destruct (level_step d sd filt s) as [s1 c1] eqn:E1.
  destruct (level_step d (sd + 1) filt s) as [s2 c2] eqn:E2. simpl in *.
  destruct (level_step_shape _ _ _ _ E1) as (n1 & _ & _ & Hc1 & Hl1).
  destruct (level_step_shape _ _ _ _ E2) as (n2 & _ & _ & Hc2 & Hl2).
  destruct c1.
  - symmetry in Hc1. apply Z.ltb_lt in Hc1.
    assert (c2 = true) as -> by (rewrite Hc2; apply Z.ltb_lt; lia).
    rewrite <- (Hsame eq_refl eq_refl). destruct Hl1 as [_ Hd1].
    apply IH; lia.
  - intros [= <-].
    assert (c2 = true) as -> by (rewrite Hc2; apply Z.ltb_lt; symmetry in Hc1; apply Z.ltb_ge in Hc1; lia).
    intros Hr2. rewrite Hres. by apply (search_loop_results_grow n (sd + 1) s2).
Qed.
End LoopLemmas.

Section SearchFacts.
Context `{PyUnicode}.
Variable d : db.

Lemma init_inv filt sd q : loop_inv d filt sd (init_state d q).
Proof.
  unfold loop_inv, init_state. simpl. rewrite app_nil_r.
  split_and!; first [done | constructor | apply initial_matches_NoDup | lia].
Qed.

Lemma search_hits_inv q cu sd hits :
  search_hits d q cu sd = Some hits ->
  exists s, search_loop d (S (Z.to_nat sd)) sd (category_filter_of d cu) (init_state d q) = Some s /\
            ls_results s = hits /\ loop_inv d (category_filter_of d cu) sd s.
Proof.
  unfold search_hits. destruct (search_loop _ _ _ _ _) as [s|] eqn:E; [|discriminate].
  intros [= <-]. exists s. split_and!; [done|done|]. eapply search_loop_inv; [|exact E].
  apply init_inv.
Qed.

Lemma category_filter_of_spec cu e :
  (cu <> [] -> category_id e ∈ category_ids d cu) ->
  match category_filter_of d cu with None => True | Some cids => category_id e ∈ cids end.
Proof. destruct cu; simpl; [done|]. intros Hc. apply Hc. discriminate. Qed.

(** ** Properties of the engine *)

Lemma search_hits_some q cu sd : is_Some (search_hits d q cu sd).
Proof.
  unfold search_hits.
  destruct (search_loop_fuel d (category_filter_of d cu) (S (Z.to_nat sd)) (S (Z.to_nat sd))
              sd (init_state d q)) as [[s Hs] _]; try (simpl; lia).
  rewrite Hs. by eexists.
Qed.

(** C2: Termination: the loop never runs out of fuel: [search_depth + 1]
    rounds always reach the [break] or the [while] condition, for every
    query, filter and depth (negative depths included). *)
Theorem search_hits_total q cu sd : is_Some (search_hits d q cu sd).
Proof. apply search_hits_some. Qed.

(** C3: No entry is returned twice: the entry ids of the selected entries
    are pairwise distinct ([processed_entry_ids]). *)
Theorem search_hits_NoDup q cu sd hits :
  search_hits d q cu sd = Some hits -> NoDup (ent_id <$> (hit_entry <$> hits)).
Proof.
  intros (s & _ & <- & Hv & Hnd & _)%search_hits_inv. by rewrite <- Hv.
Qed.

(** C4: No keyword id seeds expansion at two distinct levels: the keyword
    id sets of all levels are pairwise disjoint and duplicate-free. *)
Theorem search_levels_disjoint q cu sd s :
  search_loop d (S (Z.to_nat sd)) sd (category_filter_of d cu) (init_state d q) = Some s ->
  NoDup (concat (ls_levels s)).
Proof.
  intros Hs. eapply search_loop_inv in Hs as (_ & _ & ? & _); [done|]. apply init_inv.
Qed.

(** C5: Every selected entry is an enabled entry of the store, within the
    category filter, linked to a matched keyword, and its [match_level]
    lies in [1, search_depth]. *)
Theorem search_hits_sound q cu sd hits h :
  search_hits d q cu sd = Some hits -> h ∈ hits ->
  (1 <= match_level h <= sd)%Z /\ hit_entry h ∈ precise_entries d /\
  is_enabled (hit_entry h) = true /\
  (cu <> [] -> category_id (hit_entry h) ∈ category_ids d cu).
Proof.
  intros (s & _ & <- & _ & _ & _ & _ & Hall)%search_hits_inv Hh.
  destruct (Forall_elem _ _ _ Hall Hh) as [Hl Hf].
  apply fetch_entries_spec in Hf as (He & Hen & Hc & _).
  refine (conj Hl (conj He (conj Hen _))). intros Hcu. destruct cu; [done|]. exact Hc.
Qed.

Lemma depth1_levels n filt q s :
  search_loop d n 1 filt (init_state d q) = Some s ->
  ls_levels s = [initial_matches d (preprocess_query q)].
Proof.
  destruct n as [|n]; simpl; [discriminate|].
  case_match; [|by intros [= <-]].
  destruct (level_step d 1 filt _) as [s1 c] eqn:E.
  destruct (level_step_shape _ _ _ _ _ _ E) as (nw & _ & _ & -> & Hl). simpl in Hl.
  destruct Hl as [Hl _]. by intros [= <-].
Qed.

(** C1: With [search_depth = 1] every returned entry is a direct hit:
    level 1, and linked to a keyword whose text is a substring of the
    preprocessed query; content scanning never contributes. *)
Theorem search_depth1_direct q cu hits h :
  search_hits d q cu 1 = Some hits -> h ∈ hits ->
  match_level h = 1%Z /\
  exists kw, kw ∈ precise_keywords d /\
             (kw_id kw, ent_id (hit_entry h)) ∈ keyword_entry_association d /\
             py_in (keyword kw) (preprocess_query q) = true.
Proof.
  intros Hs Hh.
  apply search_hits_inv in Hs as (s & Hloop & <- & _ & _ & _ & _ & Hall).
  destruct (Forall_elem _ _ _ Hall Hh) as [[? ?] Hf].
  rewrite (depth1_levels _ _ _ _ Hloop) in Hf. simpl in Hf. rewrite app_nil_r in Hf.
  apply fetch_entries_spec in Hf as (_ & _ & _ & [i j] & Hr & Hj & Hi). simpl in *.
  apply initial_matches_spec in Hi as (k & Hk & Hin).
  split; [lia|]. exists (mkKeyword i k). split_and!; [|by subst|done].
  by apply keyword_dict_sound.
Qed.

(** C6: Monotonic coverage: raising [search_depth] by one only appends
    entries, so the entries found at depth D are found, in the same order
    and at the same levels, at depth D+1. *)
Theorem search_hits_deeper q cu sd h1 h2 :
  search_hits d q cu sd = Some h1 -> search_hits d q cu (sd + 1) = Some h2 ->
  h1 `prefix_of` h2.
Proof.
  unfold search_hits.
  set (filt := category_filter_of d cu). set (n := S (Z.to_nat (sd + 1))).
  destruct (search_loop_fuel d filt (S (Z.to_nat sd)) n sd (init_state d q))
    as [_ Heq1]; try (simpl; lia).
  rewrite <- Heq1.
  destruct (search_loop d n sd filt _) as [r1|] eqn:E1; [|discriminate].
  destruct (search_loop d n (sd + 1) filt _) as [r2|] eqn:E2; [|discriminate].
  intros [= <-] [= <-]. eapply search_loop_deeper; [|exact E1|exact E2]. simpl. lia.
Qed.
End SearchFacts.

Section SearchResults.
Context `{PyUnicode}.
Variable d : db.

Lemma level1_complete q cu sd hits e kw :
  db_wf d -> (1 <= sd)%Z ->
  e ∈ precise_entries d -> is_enabled e = true ->
  (cu <> [] -> category_id e ∈ category_ids d cu) ->
  kw ∈ precise_keywords d -> (kw_id kw, ent_id e) ∈ keyword_entry_association d ->
  py_in (keyword kw) (preprocess_query q) = true ->
  search_hits d q cu sd = Some hits -> mkHit e 1 ∈ hits.
Proof.
  intros Hwf Hsd He Hen Hcat Hkw Hr Hin.
  destruct Hwf as (_&_&Hids&_&_&Htx&_).
  set (filt := category_filter_of d cu).
  assert (Hf : e ∈ fetch_entries d filt (current_ids (init_state d q))).
  { apply fetch_entries_spec. split_and!; [done|done|by apply category_filter_of_spec|].
    exists (kw_id kw, ent_id e). split_and!; [done|done|]. simpl.
    apply initial_matches_spec. exists (keyword kw). split; [|done].
    rewrite keyword_dict_wf by done.
    by apply (list_elem_of_fmap_2 (fun kw => (keyword kw, kw_id kw))). }
  unfold search_hits. destruct (search_loop _ _ _ _ _) as [s|] eqn:Es; [|discriminate].
  intros [= <-]. revert Es. cbn [search_loop].
  rewrite (bool_decide_eq_true_2 (ls_depth (init_state d q) <= sd)%Z) by (simpl; lia).
  rewrite (bool_decide_eq_false_2 (current_ids (init_state d q) = [])).
  2:{ intros Hc. rewrite Hc in Hf. apply fetch_entries_spec in Hf as (_&_&_&r&_&_&Hr1).
      by apply elem_of_nil in Hr1. }
  cbn [negb andb]. fold filt.
  destruct (level_step d sd filt (init_state d q)) as [s1 c] eqn:Estep.
  destruct (level_step_shape _ _ _ _ _ _ Estep) as (news & Hsel & Hres & _).
  destruct (select_new_spec _ _ _ _ Hsel) as (Hv & Hsub & _ & Hall).
  assert (Hin1 : mkHit e 1 ∈ ls_results s1).
  { rewrite Hres. simpl. specialize (Hall e Hf). rewrite Hv in Hall. simpl in Hall.
    apply list_elem_of_fmap in Hall as (e' & Heq & He').
    assert (e' = e) as ->.
    { apply (NoDup_fmap_inj_on ent_id (precise_entries d)); [done| |done|done].
      apply Hsub in He'. by apply fetch_entries_spec in He' as [? _]. }
    by apply (list_elem_of_fmap_2 (fun e => mkHit e 1)). }
  destruct c; intros Hloop.
  - eapply elem_of_prefix; [exact Hin1|].
    by apply (search_loop_results_grow d filt _ _ _ _ Hloop).
  - injection Hloop as Hloop. by subst.
Qed.

(** What a successful [search] returns: the truncated stable ranking of
    the selected entries, the query, and their merged contents. *)
Lemma search_ok_inv q cu m sd q' pc rs :
  search d q cu m sd = SearchOk q' pc rs ->
  exists hits all, search_hits d q cu sd = Some hits /\ mapM (to_entry_data d) hits = Some all /\
    rs = truncate m (sort_desc result_key all) /\ q' = q /\ pc = precise_content_of rs.
Proof.
  unfold search. case_match; [discriminate|].
  destruct (search_hits d q cu sd) as [hits|] eqn:Eh; [|discriminate]. cbn [mbind option_bind].
  destruct (mapM (to_entry_data d) hits) as [all|] eqn:Ea; [|discriminate].
  intros [= <- <- <-]. by exists hits, all.
Qed.


(** C7: Level-1 completeness: with [search_depth >= 1], every enabled
    entry within the category filter that is linked to a keyword whose
    text occurs in the preprocessed query is returned at level 1. *)
Theorem search_level1_complete q cu sd hits e kw :
  db_wf d -> (1 <= sd)%Z ->
  e ∈ precise_entries d -> is_enabled e = true ->
  (cu <> [] -> category_id e ∈ category_ids d cu) ->
  kw ∈ precise_keywords d -> (kw_id kw, ent_id e) ∈ keyword_entry_association d ->
  py_in (keyword kw) (preprocess_query q) = true ->
  search_hits d q cu sd = Some hits -> mkHit e 1 ∈ hits.
Proof. apply level1_complete. Qed.

(** C8: Ranking and truncation (section 4.4 of the specification): the
    returned entries [rs] are the first [max_results] (all of them when
    [max_results <= 0]) of an ordering of the data [all] of the entries the
    level loop selected that is a permutation of [all], sorted by
    descending weight and, among equal weights, by descending
    [match_level] (deeper entries first, as the specification requires and
    against the comment at line 614), and that keeps the selection order
    among entries of equal key; [precise_content] is their contents joined
    by a blank line. *)
Theorem search_top_k q cu m sd q' pc rs :
  search d q cu m sd = SearchOk q' pc rs ->
  exists hits all rest,
    search_hits d q cu sd = Some hits /\ mapM (to_entry_data d) hits = Some all /\
    Permutation (rs ++ rest) all /\ Sorted (key_ge result_key) (rs ++ rest) /\
    (forall k, with_key result_key k (rs ++ rest) = with_key result_key k all) /\
    ((m <= 0)%Z -> rest = []) /\
    ((0 < m)%Z -> length rs = Nat.min (Z.to_nat m) (length all)) /\
    q' = q /\ pc = py_join blank_line (ed_content <$> rs).
Proof.
  intros (hits & all & Hh & Ha & -> & -> & ->)%search_ok_inv.
  destruct (sort_desc_stable_sorted result_key all) as (Hp & Hs & Hk).
  exists hits, all. unfold truncate. destruct (Z.ltb_spec 0 m).
  - exists (drop (Z.to_nat m) (sort_desc result_key all)). rewrite take_drop.
    split_and!; try done; [lia|]. intros _.
    rewrite length_take, (Permutation_length Hp). lia.
  - exists []. rewrite app_nil_r. split_and!; try done; lia.
Qed.

(** Ties in weight are broken by descending [match_level]: among
    returned entries of equal weight, one reached at a deeper level comes
    first (the code comment at line 614 says the opposite). *)
Theorem search_tie_deeper_first q cu m sd q' pc l1 x l2 y :
  search d q cu m sd = SearchOk q' pc (l1 ++ x :: l2) -> y ∈ l2 ->
  ed_weight x = ed_weight y -> (ed_match_level y <= ed_match_level x)%Z.
Proof.
  intros Hs Hy Hw.
  destruct (search_ok_inv _ _ _ _ _ _ _ Hs) as (hits & all & _ & _ & Hrs & _).
  assert (Hsorted : Sorted (key_ge result_key) (l1 ++ x :: l2)).
  { rewrite Hrs. apply truncate_sorted, sort_desc_sorted. }
  assert (Hge : key_ge result_key x y).
  { apply (sorted_app_ge result_key (l1 ++ [x]) l2); [by rewrite <- app_assoc
      | apply elem_of_app; right; by left | done]. }
  unfold key_ge, result_key in Hge. apply key_lt_false in Hge. simpl in Hge. lia.
Qed.
End SearchResults.

Section AfterDelete.
Context `{PyUnicode}.

Lemma delete_category_keeps_row d uid c d' e r :
  db_wf d -> find_category uid d = Some c -> delete_category uid d = Ok (tt, d') ->
  e ∈ precise_entries d -> category_id e <> cat_id c ->
  r ∈ keyword_entry_association d -> r.2 = ent_id e ->
  r ∈ keyword_entry_association d'.
Proof.
  intros (_&_&Hids&_) Hc. unfold delete_category. tx_simpl. rewrite Hc.
  intros [= <-] He Hne Hr Hr2. simpl. apply elem_of_list_filter_In. split; [done|].
  apply negb_true_iff, bool_decide_eq_false. rewrite Hr2.
  intros (y & Hy & Hyin)%list_elem_of_fmap.
  apply elem_of_list_filter_In in Hyin as [Hyin Hyc]. apply bool_decide_eq_true in Hyc.
  assert (y = e) as -> by (by eapply NoDup_fmap_inj_on). done.
Qed.

(** C9: Deleting a category keeps the other categories searchable: an
    enabled entry of another category linked to a keyword occurring in
    the query is still found at level 1 after the deletion (the keyword
    row is shared and survives the cascade). *)
Theorem search_after_delete_category d uid c d' q sd hits e kw :
  db_wf d -> find_category uid d = Some c -> delete_category uid d = Ok (tt, d') ->
  e ∈ precise_entries d -> category_id e <> cat_id c -> is_enabled e = true ->
  kw ∈ precise_keywords d -> (kw_id kw, ent_id e) ∈ keyword_entry_association d ->
  py_in (keyword kw) (preprocess_query q) = true -> (1 <= sd)%Z ->
  search_hits d' q [] sd = Some hits -> mkHit e 1 ∈ hits.
Proof.
  intros Hwf Hc Hdel He Hne Hen Hkw Hr Hin Hsd.
  destruct (delete_category_keeps _ _ _ _ Hc Hdel) as (Hkws & Hkeep).
  apply (level1_complete d' q [] sd hits e kw).
  - exact (delete_category_wf uid d tt d' Hwf Hdel).
  - done.
  - auto.
  - done.
  - done.
  - by rewrite Hkws.
  - by eapply delete_category_keeps_row.
  - done.
Qed.
End AfterDelete.

(** ** The example of the specification (section 8)

    Category "headache"; E1 (weight 85, keywords "migraine", "headache");
    E2 (weight 80, keyword "tension headache", content mentioning
    "migraine"); [headache_db] of [Store]. *)

(** On the specification's example the query "I have a migraine"
    returns E1 alone at depth 1 and also at depth 2: E2 is reached at level
    2 only when E1's content contains E2's keyword "tension headache"; E2's
    own content mentioning "migraine" plays no part. *)
Example spec_headache_example :
  hit_summary (@search_hits cjk_unicode (headache_db (txt "Migraine is a primary headache."))
                 (txt "I have a migraine") [] 1) = Some [(txt "ent_1", 1%Z)] /\
  hit_summary (@search_hits cjk_unicode (headache_db (txt "Migraine is a primary headache."))
                 (txt "I have a migraine") [] 2) = Some [(txt "ent_1", 1%Z)] /\
  hit_summary (@search_hits cjk_unicode (headache_db (txt "A migraine is not a tension headache."))
                 (txt "I have a migraine") [] 2) = Some [(txt "ent_1", 1%Z); (txt "ent_2", 2%Z)].
Proof. split_and!; vm_compute; reflexivity. Qed.

(** ** Concrete runs of the properties *)

Lemma search_depth1_direct_witness :
  match_level (mkHit entry_E1 1) = 1%Z /\
  exists kw, kw ∈ precise_keywords ex_db /\
             (kw_id kw, ent_id entry_E1) ∈ keyword_entry_association ex_db /\
             py_in (keyword kw) (@preprocess_query cjk_unicode ex_query) = true.
Proof.
  apply (@search_depth1_direct cjk_unicode ex_db ex_query [] (ex_hits 1) (mkHit entry_E1 1));
    [vm_compute; reflexivity | decide_goal].
Defined.

Lemma search_hits_NoDup_witness : NoDup (ent_id <$> (hit_entry <$> ex_hits 2)).
Proof.
  apply (@search_hits_NoDup cjk_unicode ex_db ex_query [] 2). vm_compute. reflexivity.
Defined.

Lemma search_levels_disjoint_witness : NoDup (concat (ls_levels ex_state)).
Proof.
  apply (@search_levels_disjoint cjk_unicode ex_db ex_query [] 2). vm_compute. reflexivity.
Defined.

Lemma search_hits_sound_witness :
  (1 <= 2 <= 2)%Z /\ entry_E2 ∈ precise_entries ex_db /\ is_enabled entry_E2 = true /\
  (([] : list text) <> [] -> category_id entry_E2 ∈ @category_ids ex_db []).
Proof.
  apply (@search_hits_sound cjk_unicode ex_db ex_query [] 2 (ex_hits 2) (mkHit entry_E2 2));
    [vm_compute; reflexivity | decide_goal].
Defined.

Lemma search_hits_deeper_witness : ex_hits 1 `prefix_of` ex_hits 2.
Proof.
  apply (@search_hits_deeper cjk_unicode ex_db ex_query [] 1); vm_compute; reflexivity.
Defined.

Lemma search_level1_complete_witness : mkHit entry_E1 1 ∈ ex_hits 2.
Proof.
  apply (@search_level1_complete cjk_unicode ex_db ex_query [] 2 (ex_hits 2) entry_E1
           kw_migraine); first [decide_goal | vm_compute; reflexivity].
Defined.

Lemma search_top_k_witness :
  exists hits all rest,
    @search_hits cjk_unicode ex_db ex_query [] 2 = Some hits /\
    mapM (to_entry_data ex_db) hits = Some all /\
    Permutation (ex_ranked ++ rest) all /\ Sorted (key_ge result_key) (ex_ranked ++ rest) /\
    (forall k, with_key result_key k (ex_ranked ++ rest) = with_key result_key k all) /\
    ((1 <= 0)%Z -> rest = []) /\
    ((0 < 1)%Z -> length ex_ranked = Nat.min (Z.to_nat 1) (length all)) /\
    ex_query = ex_query /\ precise_content_of ex_ranked = py_join blank_line (ed_content <$> ex_ranked).
Proof.
  apply (@search_top_k cjk_unicode ex_db ex_query [] 1 2). vm_compute. reflexivity.
Defined.

Lemma search_tie_deeper_first_witness :
  (ed_match_level (nth 1 tie_ranked default_entry_data) <=
   ed_match_level (nth 0 tie_ranked default_entry_data))%Z.
Proof.
  apply (@search_tie_deeper_first cjk_unicode tie_db ex_query [] 0 2 ex_query
           (precise_content_of tie_ranked) [] (nth 0 tie_ranked default_entry_data)
           [nth 1 tie_ranked default_entry_data]);
    [vm_compute; reflexivity | decide_goal | vm_compute; reflexivity].
Defined.

Lemma search_after_delete_category_witness :
  mkHit entry_E3 1 ∈ default [] (@search_hits cjk_unicode clinic_after_delete after_query [] 2).
Proof.
  apply (@search_after_delete_category cjk_unicode clinic_db (txt "cat_1") cat_headache
           clinic_after_delete after_query 2 _ entry_E3 kw_headache);
    first [decide_goal | vm_compute; reflexivity].
Defined.
