(* ===== verification/Rag.v ===== *)
(** * The retrieval channels: [PreciseRAG.search] and [RAGService]

    src/llm/rag/precise_rag.py (the precise channel: the engine's merged
    content, or the empty string on failure or when nothing was selected)
    and src/llm/services/rag_service.py ([get_rag_content]: the deprecated
    [query] argument as a fallback for both channels, the [ValueError] when
    neither channel has a query, and a channel skipped when its query is
    empty).  The vector channel ([VectorRAG.search] over chromadb) is the
    interface [VectorChannel]: the orchestration theorems hold for every
    implementation of it. *)

From stdpp Require Import base list decidable strings.
From Stdlib Require Import ZArith Lia.
From S2P Require Import Prelude Preprocess Store Rank Search.

(** The vector-search collaborator: [search(query, namespaces, n_results,
    metadata_filter) -> str]. *)
Class VectorChannel := {
  vector_search : text -> option (list text) -> Z -> option (list (text * text)) -> text }.

(** [PreciseRAG.search] (precise_rag.py:9-40). *)
Definition precise_rag_search `{PyUnicode} (d : db) (query : text)
    (category_uids : list text) (max_results search_depth : Z) : text :=
  match search d query category_uids max_results search_depth with
  | SearchOk _ precise_content (_ :: _) => precise_content
  | _ => []
  end.

(** Python's [a or b] on an optional string: [a] when it is a non-empty
    string, else [b]. *)
Definition py_or (a : option text) (b : text) : text :=
  match a with Some (c :: s) => c :: s | _ => b end.

(** Python's truth value of an optional string. *)
Definition py_truthy (a : option text) : bool :=
  match a with Some (_ :: _) => true | _ => false end.

(** The arguments of [get_rag_content]. *)
Record rag_request := mkRagRequest {
  rr_query : option text; rr_vector_query : option text; rr_precise_query : option text;
  rr_namespaces : option (list text); rr_n_results : Z;
  rr_metadata_filter : option (list (text * text));
  rr_precise_categories : list text; rr_precise_max_results : Z;
  rr_precise_search_depth : Z }.

(** [RAGService.get_rag_content] (rag_service.py:10-69); [None] is the
    [ValueError] of line 46. *)
Definition get_rag_content `{PyUnicode} `{VectorChannel} (d : db) (r : rag_request)
  : option (text * text) :=
  let '(vq, pq) :=
    match rr_query r with
    | Some q => (Some (py_or (rr_vector_query r) q), Some (py_or (rr_precise_query r) q))
    | None => (rr_vector_query r, rr_precise_query r)
    end in
  match vq, pq with
  | None, None => None
  | _, _ =>
      let vector_content :=
        match vq with
        | Some q => if py_truthy vq
                    then vector_search q (rr_namespaces r) (rr_n_results r) (rr_metadata_filter r)
                    else []
        | None => []
        end in
      let precise_content :=
        match pq with
        | Some q => if py_truthy pq
                    then precise_rag_search d q (rr_precise_categories r)
                           (rr_precise_max_results r) (rr_precise_search_depth r)
                    else []
        | None => []
        end in
      Some (vector_content, precise_content)
  end.

(** ** Concrete requests *)

(** A vector channel that finds nothing. *)
Definition empty_vector : VectorChannel := {| vector_search _ _ _ _ := [] |}.

Definition ex_rag_request (pq : option text) : rag_request :=
  mkRagRequest None None pq None 5 None [] 5 2.

(** ** Properties *)

Section RagFacts.
Context `{PyUnicode} `{VectorChannel}.

(** The precise channel is empty exactly when the search failed,
    found no requested category, or returned no entry; otherwise it is
    the blank-line join of the returned entries' contents. *)
Theorem precise_rag_search_spec d q cu m sd :
  (exists q' rs, rs <> [] /\ search d q cu m sd = SearchOk q' (precise_content_of rs) rs /\
                 precise_rag_search d q cu m sd = py_join blank_line (ed_content <$> rs)) \/
  (precise_rag_search d q cu m sd = [] /\
   forall q' pc rs, search d q cu m sd = SearchOk q' pc rs -> rs = []).
Proof.
  unfold precise_rag_search.
  destruct (search d q cu m sd) as [q' pc rs| |] eqn:E.
  - destruct (search_ok_inv d _ _ _ _ _ _ _ E) as (_ & _ & _ & _ & _ & _ & Hpc).
    destruct rs as [|x rs].
    + right. split; [done|]. intros ? ? ? [= _ _ <-]. done.
    + left. exists q', (x :: rs). subst pc. split_and!; done.
  - right. split; [done|]. intros ? ? ? [=].
  - right. split; [done|]. intros ? ? ? [=].
Qed.

(** C31: With neither a query nor a channel query, [get_rag_content]
    raises [ValueError]; an empty precise query skips the precise channel
    (its content is the empty string, no search is run); a non-empty one
    yields exactly the engine's channel content. *)
Theorem get_rag_content_precise d r :
  (rr_query r = None -> rr_vector_query r = None -> rr_precise_query r = None ->
   get_rag_content d r = None) /\
  (rr_query r = None -> rr_precise_query r = Some [] ->
   exists v, get_rag_content d r = Some (v, [])) /\
  (forall c s, rr_query r = None -> rr_precise_query r = Some (c :: s) ->
   exists v, get_rag_content d r =
     Some (v, precise_rag_search d (c :: s) (rr_precise_categories r)
                (rr_precise_max_results r) (rr_precise_search_depth r))).
Proof.
  unfold get_rag_content. split_and!.
  - intros -> -> ->. done.
  - intros -> ->. destruct (rr_vector_query r); eauto.
  - intros c s -> ->. destruct (rr_vector_query r); eauto.
Qed.
End RagFacts.

(** ** Concrete run *)

Lemma get_rag_content_precise_witness :
  @get_rag_content cjk_unicode empty_vector ex_db (ex_rag_request None) = None /\
  (exists v, @get_rag_content cjk_unicode empty_vector ex_db (ex_rag_request (Some [])) =
             Some (v, [])) /\
  (exists v, @get_rag_content cjk_unicode empty_vector ex_db
               (ex_rag_request (Some ex_query)) =
             Some (v, @precise_rag_search cjk_unicode ex_db ex_query [] 5 2)).
Proof.
  destruct (@get_rag_content_precise cjk_unicode empty_vector ex_db (ex_rag_request None))
    as (Hnone & _ & _).
  destruct (@get_rag_content_precise cjk_unicode empty_vector ex_db
              (ex_rag_request (Some []))) as (_ & Hempty & _).
  destruct (@get_rag_content_precise cjk_unicode empty_vector ex_db
              (ex_rag_request (Some ex_query))) as (_ & _ & Hsome).
  split_and!; [exact (Hnone eq_refl eq_refl eq_refl) | exact (Hempty eq_refl eq_refl) |].
  exact (Hsome _ _ eq_refl eq_refl).
Defined.
