(* ===== verification/Chat.v ===== *)
(** * The RAG orchestrator: [ChatService._prepare_chat]

    src/llm/services/chat_service.py:14-170.  From the request's search
    configurations (defaults when absent), the retrieval query of each
    channel is built from the message and the trailing conversation turns
    ([rag_query_texts], lines 81-118 and 122-123), both channels are run
    through [get_rag_content] ([Rag]), the template parameters are merged
    ([merged_params], lines 133-138, where caller parameters override the
    three built-in ones), the prompt is formatted by the template
    collaborator [PromptFormatter], and the OpenAI message list is built
    ([chat_messages], lines 152-162).

    [spec_query_text] is the contract of the specification (section 4.6):
    the last [count - 1] turns, "role: content" joined by spaces, then
    " user: " and the message; [rag_query_texts_spec] shows that the
    two-stage slicing of the code implements it for both channels
    independently. *)

From stdpp Require Import base list decidable strings.
From Stdlib Require Import ZArith Lia.
From S2P Require Import Prelude Preprocess Store Rank Search Rag.

(** One history item ([Dict[str, str]]): its "role" and "content" keys. *)
Record chat_msg := mkMsg { msg_role : option text; msg_content : option text }.

Record vector_search_config := mkVectorConfig {
  vs_namespaces : option (list text); vs_n_results : Z;
  vs_metadata_filter : option (list (text * text)); vs_rag_history_count : Z }.

Record precise_search_config := mkPreciseConfig {
  ps_categories : list text; ps_max_results : Z; ps_search_depth : Z;
  ps_rag_history_count : Z }.

(** The defaults of lines 42-45 and 62-65 (and of the Pydantic models of
    chat_router.py). *)
Definition default_vector_config : vector_search_config := mkVectorConfig None 5 None 1.
Definition default_precise_config : precise_search_config := mkPreciseConfig [] 5 2 1.

(** The prompt-template collaborator:
    [format_selected_templates(template_id, sub_template_ids, **params)]. *)
Class PromptFormatter := {
  format_selected_templates : text -> list text -> list (text * text) -> option text }.

Record chat_request := mkChatRequest {
  cr_message : text; cr_history : list chat_msg;
  cr_template_id : text; cr_sub_template_ids : list text;
  cr_params : list (text * text);
  cr_vector_config : option vector_search_config;
  cr_precise_config : option precise_search_config }.

(** [f"{msg.get('role', 'user')}: {msg.get('content', '')}"]. *)
Definition format_turn (m : chat_msg) : text :=
  default (txt "user") (msg_role m) ++ txt ": " ++ default [] (msg_content m).

(** One channel's query text from the relevant history (lines 96-104 and
    106-114). *)
Definition channel_query_text (relevant : list chat_msg) (count : Z) (message : text) : text :=
  if (1 <? count)%Z then
    let k := Z.min (Z.of_nat (length relevant)) (count - 1) in
    if (0 <? k)%Z
    then py_join (txt " ") (format_turn <$> py_slice_from relevant (- k))
           ++ txt " user: " ++ message
    else message
  else message.

(** Lines 81-118, and the choice of lines 122-123. *)
Definition rag_query_texts (message : text) (history : list chat_msg) (vc pc : Z)
  : text * text :=
  let '(vt, pt) :=
    if bool_decide (history <> []) && ((1 <? vc)%Z || (1 <? pc)%Z) then
      let max_history_count := (Z.max vc pc - 1)%Z in
      let relevant :=
        if (max_history_count <? Z.of_nat (length history))%Z
        then py_slice_from history (- max_history_count) else history in
      (channel_query_text relevant vc message, channel_query_text relevant pc message)
    else (message, message) in
  (if (1 <? vc)%Z then vt else message, if (1 <? pc)%Z then pt else message).

(** [{"question": message, "vector_content": ..., "precise_content": ...,
    **params}]. *)
Definition merged_params (message vector_content precise_content : text)
    (params : list (text * text)) : list (text * text) :=
  fold_left (fun m kv => py_dict_set kv.1 kv.2 m) params
    [(txt "question", message); (txt "vector_content", vector_content);
     (txt "precise_content", precise_content)].

(** Lines 152-162: the history items with a non-empty role and content,
    then the formatted prompt as the user's turn. *)
Definition chat_messages (history : list chat_msg) (final_prompt : text)
  : list (text * text) :=
  omap (fun m => let role := default (txt "user") (msg_role m) in
                 let content := default [] (msg_content m) in
                 if bool_decide (role <> []) && bool_decide (content <> [])
                 then Some (role, content) else None) history
  ++ [(txt "user", final_prompt)].

(** [_prepare_chat]: the prompt, the two channel contents and the messages;
    [None] is a raised [ValueError] (no query, or an empty prompt). *)
Definition prepare_chat `{PyUnicode} `{VectorChannel} `{PromptFormatter}
    (d : db) (req : chat_request) : option (text * (text * text) * list (text * text)) :=
  let vcfg := default default_vector_config (cr_vector_config req) in
  let pcfg := default default_precise_config (cr_precise_config req) in
  let '(vq, pq) := rag_query_texts (cr_message req) (cr_history req)
                     (vs_rag_history_count vcfg) (ps_rag_history_count pcfg) in
  match get_rag_content d
          (mkRagRequest None (Some vq) (Some pq) (vs_namespaces vcfg) (vs_n_results vcfg)
             (vs_metadata_filter vcfg) (ps_categories pcfg) (ps_max_results pcfg)
             (ps_search_depth pcfg)) with
  | None => None
  | Some (vector_content, precise_content) =>
      match format_selected_templates (cr_template_id req) (cr_sub_template_ids req)
              (merged_params (cr_message req) vector_content precise_content (cr_params req)) with
      | Some (c :: s) => Some (c :: s, (vector_content, precise_content),
                               chat_messages (cr_history req) (c :: s))
      | _ => None
      end
  end.

(** The contract of the specification for one channel. *)
Definition spec_query_text (message : text) (history : list chat_msg) (count : Z) : text :=
  if (1 <? count)%Z && bool_decide (history <> []) then
    py_join (txt " ")
      (format_turn <$> drop (length history - Z.to_nat (count - 1)) history)
    ++ txt " user: " ++ message
  else message.

(** ** Concrete requests *)

(** A template that appends the precise channel's content to its id. *)
Definition append_precise : PromptFormatter :=
  {| format_selected_templates t _ params :=
       Some (t ++ default [] (py_dict_get (txt "precise_content") params)) |}.

Definition ex_chat : chat_request :=
  mkChatRequest ex_query [mkMsg (Some (txt "assistant")) (Some (txt "Hello"));
                          mkMsg (Some (txt "user")) None]
    (txt "T") [] [] None None.

Definition ex_prepared : text * (text * text) * list (text * text) :=
  Eval vm_compute in
    default ([], ([], []), [])
      (@prepare_chat cjk_unicode empty_vector append_precise ex_db ex_chat).

(** ** Lemmas *)

Lemma py_slice_from_neg {A} (l : list A) k :
  (0 < k)%Z -> py_slice_from l (- k) = drop (length l - Z.to_nat k) l.
Proof.
  intros Hk. unfold py_slice_from, py_index.
  rewrite (proj2 (Z.ltb_lt (- k) 0)) by lia. f_equal. lia.
Qed.

(** The query text of a channel, from the possibly pre-truncated history. *)
Lemma channel_query_text_spec history relevant K count message :
  (1 < count)%Z -> (count - 1 <= K)%Z -> history <> [] ->
  relevant = (if (K <? Z.of_nat (length history))%Z
              then py_slice_from history (- K) else history) ->
  channel_query_text relevant count message = spec_query_text message history count.
Proof.
  intros Hc HK Hh ->. unfold channel_query_text, spec_query_text.
  rewrite (proj2 (Z.ltb_lt 1 count)) by done.
  rewrite (bool_decide_eq_true_2 (history <> [])) by done. cbn [andb].
  assert (Hlen : length history <> 0) by (destruct history; simpl; [done|lia]).
  destruct (Z.ltb_spec K (Z.of_nat (length history))) as [HKl|HKl].
  - rewrite (py_slice_from_neg history K) by lia. rewrite length_drop.
    rewrite (proj2 (Z.ltb_lt 0 _)) by lia.
    rewrite py_slice_from_neg by lia. rewrite length_drop, drop_drop.
    do 3 f_equal. f_equal. lia.
  - rewrite (proj2 (Z.ltb_lt 0 _)) by lia.
    rewrite py_slice_from_neg by lia. do 3 f_equal. f_equal. lia.
Qed.

Lemma merged_params_get k message v p params :
  py_dict_get k (merged_params message v p params) =
  match py_dict_get k (rev params) with
  | Some x => Some x
  | None => py_dict_get k [(txt "question", message); (txt "vector_content", v);
                           (txt "precise_content", p)]
  end.
Proof.
  unfold merged_params.
  generalize [(txt "question", message); (txt "vector_content", v);
              (txt "precise_content", p)] as m.
  induction params as [|[k' x] params IH] using rev_ind; intros m; simpl; [done|].
  rewrite fold_left_app. simpl. rewrite py_dict_get_set, rev_app_distr. simpl.
  case_decide; [done|]. apply IH.
Qed.

(** Both channels' query texts, computed by the two-stage slicing. *)
Lemma rag_query_texts_eq message history vc pc :
  rag_query_texts message history vc pc =
  (spec_query_text message history vc, spec_query_text message history pc).
Proof.
  unfold rag_query_texts.
  destruct (decide (history = [])) as [->|Hh].
  - simpl. unfold spec_query_text. simpl.
    rewrite !andb_false_r. by destruct (1 <? vc)%Z, (1 <? pc)%Z.
  - rewrite (bool_decide_eq_true_2 (history <> [])) by done. simpl.
    destruct (Z.ltb_spec 1 vc), (Z.ltb_spec 1 pc); simpl;
      f_equal; try (apply channel_query_text_spec with (Z.max vc pc - 1)%Z; done || lia);
      unfold spec_query_text; rewrite (proj2 (Z.ltb_ge _ _)) by lia; done.
Qed.

(** ** Properties *)

(** C36: Refinement of the history rule: for every message, history and
    pair of [rag_history_count]s, each channel's query text is the
    specification's: the message alone when the count is at most 1 or the
    history is empty, else the last [count - 1] turns formatted
    "role: content", joined by spaces, then " user: " and the message.  In
    particular each channel depends only on its own count. *)
Theorem rag_query_texts_spec message history vc pc :
  rag_query_texts message history vc pc =
  (spec_query_text message history vc, spec_query_text message history pc).
Proof. apply rag_query_texts_eq. Qed.

(** The caller's template parameters override the built-in ones: the
    value bound to "question" is the caller's "question" parameter when
    there is one (the last binding wins), and the user's message
    otherwise. *)
Theorem merged_params_question message v p params :
  py_dict_get (txt "question") (merged_params message v p params) =
  match py_dict_get (txt "question") (rev params) with
  | Some x => Some x
  | None => Some message
  end.
Proof. rewrite merged_params_get. by destruct (py_dict_get _ (rev params)). Qed.

Section ChatFacts.
Context `{PyUnicode} `{VectorChannel} `{PromptFormatter}.

(** C37: What reaches the prompt: when [_prepare_chat] succeeds, its
    precise content is the precise channel's output on the history-aware
    query of the specification (the empty string when that query is
    empty), and the message list ends with the formatted prompt as the
    user's turn, after the history turns that have a non-empty role and
    content. *)
Theorem prepare_chat_precise d req prompt vcont pcont msgs :
  prepare_chat d req = Some (prompt, (vcont, pcont), msgs) ->
  let pcfg := default default_precise_config (cr_precise_config req) in
  let pq := spec_query_text (cr_message req) (cr_history req) (ps_rag_history_count pcfg) in
  pcont = (if py_truthy (Some pq)
           then precise_rag_search d pq (ps_categories pcfg) (ps_max_results pcfg)
                  (ps_search_depth pcfg)
           else []) /\
  exists earlier, msgs = earlier ++ [(txt "user", prompt)] /\
    Forall (fun rc => rc.1 <> [] /\ rc.2 <> []) earlier.
Proof.
  unfold prepare_chat. rewrite rag_query_texts_eq.
  unfold get_rag_content. simpl.
  match goal with |- context [format_selected_templates _ _ ?mp] =>
    destruct (format_selected_templates _ _ mp) as [[|c s]|] end; try discriminate.
  intros [= <- <- <- <-]. split.
  - destruct (spec_query_text _ _ _); reflexivity.
  - eexists. split; [reflexivity|].
    apply Forall_forall. intros [r c'] Hrc.
    apply list_elem_of_omap in Hrc as (m & _ & Hm).
    cbv zeta in Hm. revert Hm. case_match eqn:Hb; [|discriminate]. intros [= <- <-].
    apply andb_true_iff in Hb as [Hr Hc]. apply bool_decide_eq_true in Hr, Hc. done.
Qed.
End ChatFacts.

(** ** Concrete run *)

Lemma prepare_chat_precise_witness :
  ex_prepared.2 = [(txt "assistant", txt "Hello"); (txt "user", ex_prepared.1.1)] /\
  ex_prepared.1.2.2 =
    (if py_truthy (Some (spec_query_text ex_query (cr_history ex_chat) 1))
     then @precise_rag_search cjk_unicode ex_db (spec_query_text ex_query (cr_history ex_chat) 1)
            [] 5 2
     else []) /\
  exists earlier, ex_prepared.2 = earlier ++ [(txt "user", ex_prepared.1.1)] /\
    Forall (fun rc => rc.1 <> [] /\ rc.2 <> []) earlier.
Proof.
  split; [vm_compute; reflexivity|].
  apply (@prepare_chat_precise cjk_unicode empty_vector append_precise ex_db ex_chat
           ex_prepared.1.1 ex_prepared.1.2.1 ex_prepared.1.2.2 ex_prepared.2).
  vm_compute. reflexivity.
Defined.
