(* ===== verification/Chunker.v ===== *)
(** * Document chunking: [VectorService._split_text]

    src/llm/services/vector_service.py:229-324.  A document's text is cut
    into windows of [chunk_size] characters, each starting [chunk_overlap]
    characters before the end of the previous one; a window that is only
    whitespace is skipped.  When the rest of the text fits in one window it
    becomes the last chunk, unless it is shorter than a quarter of
    [chunk_size] and a chunk already exists: then it is appended to the
    last chunk.  If no chunk was produced from a non-blank text, the text
    (cut to 2000 characters) is the only chunk.

    [split_loop] runs the [while] of line 257 with fuel.  Both parameters
    are user input (the upload form of vector_router.py).  With
    [0 <= chunk_overlap < chunk_size] the loop stops after at most
    [len(text) + 1] rounds ([split_text_total]); with
    [chunk_size <= chunk_overlap] and a text longer than one window it runs
    forever ([split_text_diverges]): no fuel is enough.  The [except]
    branches are not modelled: nothing in the loop raises on a [str]. *)

From stdpp Require Import base list decidable strings.
From Stdlib Require Import ZArith Lia.
From S2P Require Import Prelude Preprocess.

(** [chunk and chunk.strip()]: a non-empty string with a character that
    is not whitespace. *)
Definition py_strip_truthy (c : text) : bool := existsb (fun x => negb (py_isspace x)) c.

(** The variables of the loop: [start] and [chunks]. *)
Record split_state := mkSplit { sp_start : Z; sp_chunks : list text }.

(** The last window (lines 263-279): [chunks.pop()] when the rest is
    shorter than [chunk_size / 4] (true division) and a chunk exists. *)
Definition last_chunk (t : text) (chunk_size : Z) (s : split_state) : list text :=
  let rest := py_slice_from t (sp_start s) in
  let remaining := (Z.of_nat (length t) - sp_start s)%Z in
  let '(chunk, chunks) :=
    match (if (4 * remaining <? chunk_size)%Z then list.last (sp_chunks s) else None) with
    | Some prev => (prev ++ rest, removelast (sp_chunks s))
    | None => (rest, sp_chunks s)
    end in
  if py_strip_truthy chunk then chunks ++ [chunk] else chunks.

(** One pass of the loop body (lines 258-295): [inr] is the [break] of
    line 279 with the final chunks. *)
Definition split_step (t : text) (chunk_size chunk_overlap : Z) (s : split_state)
  : split_state + list text :=
  let n := Z.of_nat (length t) in
  if (n - sp_start s <=? chunk_size)%Z then inr (last_chunk t chunk_size s)
  else
    let end_ := Z.min (sp_start s + chunk_size) n in
    let chunk := py_slice t (sp_start s) end_ in
    inl (mkSplit (end_ - chunk_overlap)
           (if py_strip_truthy chunk then sp_chunks s ++ [chunk] else sp_chunks s)).

(** The [while start < text_length] loop of line 257, with fuel. *)
Fixpoint split_loop (fuel : nat) (t : text) (chunk_size chunk_overlap : Z)
    (s : split_state) : option (list text) :=
  match fuel with
  | O => None
  | S fuel' =>
      if (sp_start s <? Z.of_nat (length t))%Z then
        match split_step t chunk_size chunk_overlap s with
        | inl s' => split_loop fuel' t chunk_size chunk_overlap s'
        | inr chunks => Some chunks
        end
      else Some (sp_chunks s)
  end.

(** The whole function with the given fuel: the early return of line 246
    and the fallback of lines 305-311. *)
Definition split_text_fuel (fuel : nat) (t : text) (chunk_size chunk_overlap : Z)
  : option (list text) :=
  if bool_decide (t = []) then Some []
  else (fun chunks => if bool_decide (chunks = []) && py_strip_truthy t
                      then [take 2000 t] else chunks)
         <$> split_loop fuel t chunk_size chunk_overlap (mkSplit 0 []).

(** [_split_text(text, chunk_size, chunk_overlap)]; [None] is a loop that
    never ends.  [len(text) + 1] rounds suffice whenever the loop ends. *)
Definition split_text (t : text) (chunk_size chunk_overlap : Z) : option (list text) :=
  split_text_fuel (S (length t)) t chunk_size chunk_overlap.

(** ** Invariants *)

(** No character but whitespace. *)
Definition blank (l : text) : Prop := Forall (fun c => py_isspace c = true) l.

(** The chunks are non-blank and at most [chunk_size] long, and no chunk
    has been produced only if the text before [start] is blank. *)
Definition split_inv (t : text) (sz : Z) (s : split_state) : Prop :=
  (0 <= sp_start s)%Z /\
  Forall (fun c => py_strip_truthy c = true /\ (Z.of_nat (length c) <= sz)%Z) (sp_chunks s) /\
  (sp_chunks s = [] -> blank (take (Z.to_nat (sp_start s)) t)).

(** What the [break] returns: non-blank chunks below [5/4 * chunk_size],
    and none only if the text is blank. *)
Definition final_ok (t : text) (sz : Z) (cs : list text) : Prop :=
  Forall (fun c => py_strip_truthy c = true /\ (4 * Z.of_nat (length c) < 5 * sz)%Z) cs /\
  (cs = [] -> blank t).

(** ** Lemmas *)

Lemma strip_truthy_false l : py_strip_truthy l = false <-> blank l.
Proof.
  unfold py_strip_truthy, blank. induction l as [|c l IH]; simpl.
  - split; [constructor|done].
  - rewrite orb_false_iff, negb_false_iff, IH.
    split; [intros [? ?]; by constructor | intros Hf; by inversion Hf].
Qed.

Lemma strip_truthy_app l1 l2 :
  py_strip_truthy (l1 ++ l2) = py_strip_truthy l1 || py_strip_truthy l2.
Proof. apply existsb_app. Qed.

Lemma split_loop_more_fuel n k t sz ov s r :
  split_loop n t sz ov s = Some r -> split_loop (n + k) t sz ov s = Some r.
Proof.
  revert s. induction n as [|n IH]; intros s; simpl; [discriminate|].
  case_match; [|done]. destruct (split_step t sz ov s); [apply IH|done].
Qed.

(** With [0 <= chunk_overlap < chunk_size] every round moves [start]
    forward by [chunk_size - chunk_overlap >= 1]. *)
Lemma split_loop_terminates t sz ov :
  (0 <= ov < sz)%Z ->
  forall fuel s, (Z.to_nat (Z.of_nat (length t) - sp_start s) < fuel)%nat ->
  is_Some (split_loop fuel t sz ov s).
Proof.
  intros Hp fuel. induction fuel as [|fuel IH]; intros s Hf; [lia|]. simpl.
  case_match; [|by eexists]. unfold split_step.
  destruct (Z.leb_spec (Z.of_nat (length t) - sp_start s) sz); [by eexists|].
  apply IH. simpl. lia.
Qed.

(** With [chunk_size <= chunk_overlap] a start at or before 0 never
    moves forward. *)
Lemma split_loop_stuck t sz ov :
  (sz <= ov)%Z -> (Z.max 0 sz < Z.of_nat (length t))%Z ->
  forall fuel s, (sp_start s <= 0)%Z -> split_loop fuel t sz ov s = None.
Proof.
  intros Hp Hn fuel. induction fuel as [|fuel IH]; intros s Hs; [done|]. simpl.
  rewrite (proj2 (Z.ltb_lt _ _)) by lia. unfold split_step.
  rewrite (proj2 (Z.leb_gt _ _)) by lia. apply IH. simpl. lia.
Qed.

Lemma final_ok_weaken sz cs :
  (0 < sz)%Z ->
  Forall (fun c => py_strip_truthy c = true /\ (Z.of_nat (length c) <= sz)%Z) cs ->
  Forall (fun c => py_strip_truthy c = true /\ (4 * Z.of_nat (length c) < 5 * sz)%Z) cs.
Proof.
  intros Hsz H. eapply List.Forall_impl; [|exact H]. intros c [? ?]. split; [done|lia].
Qed.

Lemma py_slice_inside {A} (l : list A) i j :
  (0 <= i <= j)%Z -> (j <= Z.of_nat (length l))%Z ->
  py_slice l i j = take (Z.to_nat (j - i)) (drop (Z.to_nat i) l).
Proof.
  intros Hij Hj. unfold py_slice, py_index.
  rewrite (proj2 (Z.ltb_ge i 0)), (proj2 (Z.ltb_ge j 0)) by lia. f_equal; [lia|f_equal; lia].
Qed.

Lemma py_slice_from_nonneg {A} (l : list A) i :
  (0 <= i)%Z -> py_slice_from l i = drop (Z.to_nat i) l.
Proof.
  intros Hi. unfold py_slice_from, py_index. rewrite (proj2 (Z.ltb_ge i 0)) by lia.
  destruct (Z.le_ge_cases i (Z.of_nat (length l))).
  - f_equal. lia.
  - rewrite !drop_ge; [done|lia..].
Qed.

(** A blank prefix extended by a blank window is a blank prefix. *)
Lemma blank_take_extend (t : text) a k a' :
  blank (take a t) -> blank (take k (drop a t)) -> (a' <= a + k)%nat -> blank (take a' t).
Proof.
  intros H1 H2 Ha'. assert (Hb : blank (take (a + k) t)).
  { rewrite <- take_take_drop. by apply Forall_app. }
  replace a' with (min a' (a + k)) by lia. rewrite <- take_take. by apply Forall_take.
Qed.

Lemma split_step_inv t sz ov s s' :
  (0 <= ov < sz)%Z -> split_inv t sz s -> split_step t sz ov s = inl s' -> split_inv t sz s'.
Proof.
  intros Hp (Hs & Hall & Hbl). unfold split_step.
  case_match eqn:Hr; [discriminate|]. apply Z.leb_gt in Hr. intros [= <-].
  set (n := Z.of_nat (length t)) in *.
  rewrite Z.min_l by lia. rewrite py_slice_inside by lia.
  replace (sp_start s + sz - sp_start s)%Z with sz by lia.
  unfold split_inv; simpl. split; [lia|].
  case_match eqn:Hc.
  - split; [|intros Hn; apply app_eq_nil in Hn as [_ Hn]; discriminate]. apply Forall_app. split; [done|].
    constructor; [|constructor]. split; [done|]. rewrite length_take. lia.
  - split; [done|]. intros Hnil.
    apply (blank_take_extend t (Z.to_nat (sp_start s)) (Z.to_nat sz)); [auto| |lia].
    by apply strip_truthy_false.
Qed.

(** The rest of the text as a chunk of its own (lines 272-277). *)
Lemma rest_chunk_ok t sz s :
  (0 < sz)%Z -> split_inv t sz s ->
  (Z.of_nat (length t) - sp_start s <= sz)%Z ->
  final_ok t sz (let rest := drop (Z.to_nat (sp_start s)) t in
                 if py_strip_truthy rest then sp_chunks s ++ [rest] else sp_chunks s).
Proof.
  intros Hsz (Hs & Hall & Hbl) Hle. simpl.
  case_match eqn:Hr.
  - split; [|intros Hn; apply app_eq_nil in Hn as [_ Hn]; discriminate].
    apply Forall_app. split; [by apply final_ok_weaken|].
    constructor; [|constructor]. split; [done|]. rewrite length_drop. lia.
  - split; [by apply final_ok_weaken|]. intros Hnil.
    rewrite <- (take_drop (Z.to_nat (sp_start s)) t). apply Forall_app.
    split; [by apply Hbl|by apply strip_truthy_false].
Qed.

Lemma last_chunk_ok t sz s :
  (0 < sz)%Z -> split_inv t sz s ->
  (sp_start s < Z.of_nat (length t))%Z -> (Z.of_nat (length t) - sp_start s <= sz)%Z ->
  final_ok t sz (last_chunk t sz s).
Proof.
  intros Hsz (Hs & Hall & Hbl) Hlt Hle. unfold last_chunk.
  rewrite py_slice_from_nonneg by done.
  assert (Hrest : length (drop (Z.to_nat (sp_start s)) t) = Z.to_nat (Z.of_nat (length t) - sp_start s))
    by (rewrite length_drop; lia).
  destruct (_ <? _)%Z eqn:Hq; [destruct (list.last (sp_chunks s)) as [prev|] eqn:Hl|].
  - apply last_Some in Hl as [front Hfront]. rewrite Hfront, removelast_last.
    rewrite Hfront in Hall. apply Forall_app in Hall as [Hfr Hp].
    apply Forall_singleton in Hp as [Hps Hpl]. apply Z.ltb_lt in Hq.
    rewrite strip_truthy_app, Hps. simpl. split; [|intros Hn; apply app_eq_nil in Hn as [_ Hn]; discriminate].
    apply Forall_app. split; [by apply final_ok_weaken|].
    constructor; [|constructor]. split; [by rewrite strip_truthy_app, Hps|].
    rewrite length_app. lia.
  - by apply rest_chunk_ok.
  - by apply rest_chunk_ok.
Qed.

Lemma split_loop_ok t sz ov :
  (0 <= ov < sz)%Z ->
  forall fuel s cs, split_inv t sz s -> split_loop fuel t sz ov s = Some cs -> final_ok t sz cs.
Proof.
  intros Hp fuel. induction fuel as [|fuel IH]; intros s cs Hinv; simpl; [discriminate|].
  case_match eqn:Hlt.
  - destruct (split_step t sz ov s) as [s'|cs'] eqn:E.
    + apply IH. by eapply split_step_inv.
    + intros [= <-]. unfold split_step in E. apply Z.ltb_lt in Hlt.
      case_match eqn:Hr; [|discriminate]. injection E as <-. apply Z.leb_le in Hr.
      apply last_chunk_ok; [lia|done|done|done].
  - intros [= <-]. apply Z.ltb_ge in Hlt. destruct Hinv as (Hs & Hall & Hbl).
    split; [apply final_ok_weaken; [lia|done]|]. intros Hnil.
    rewrite <- (take_ge t (Z.to_nat (sp_start s))) by lia. by apply Hbl.
Qed.

Lemma split_init_inv t sz : split_inv t sz (mkSplit 0 []).
Proof. unfold split_inv. simpl. split_and!; [lia|constructor|]. intros _. constructor. Qed.

(** ** Properties *)

(** C38: Termination: with [0 <= chunk_overlap < chunk_size] the chunking
    loop ends for every text, and any fuel above the text's length gives
    the same chunks, so [split_text] is the Python function. *)
Theorem split_text_total t sz ov :
  (0 <= ov < sz)%Z ->
  exists cs, split_text t sz ov = Some cs /\
             forall fuel, (length t < fuel)%nat -> split_text_fuel fuel t sz ov = Some cs.
Proof.
  intros Hp. unfold split_text, split_text_fuel.
  case_bool_decide; [by exists []|].
  destruct (split_loop_terminates t sz ov Hp (S (length t)) (mkSplit 0 [])) as [cs Hcs];
    [simpl; lia|].
  rewrite Hcs. eexists. split; [done|]. intros fuel Hf.
  replace fuel with (S (length t) + (fuel - S (length t)))%nat by lia.
  by rewrite (split_loop_more_fuel _ _ _ _ _ _ _ Hcs).
Qed.

(** C39: Non-termination: with [chunk_size <= chunk_overlap] and a text
    longer than one window, [start] never moves forward and the loop runs
    forever: no amount of fuel produces a result. *)
Theorem split_text_diverges t sz ov :
  (sz <= ov)%Z -> (Z.max 0 sz < Z.of_nat (length t))%Z ->
  forall fuel, split_text_fuel fuel t sz ov = None.
Proof.
  intros Hp Hn fuel. unfold split_text_fuel.
  rewrite bool_decide_eq_false_2 by (intros ->; simpl in Hn; lia).
  by rewrite split_loop_stuck.
Qed.

(** C40: The chunks: with [0 <= chunk_overlap < chunk_size] every chunk
    has a non-whitespace character and fewer than [5/4 * chunk_size]
    characters, no chunk is produced only from a blank text, and the
    result is the loop's: the 2000-character fallback never applies. *)
Theorem split_text_chunks t sz ov cs :
  (0 <= ov < sz)%Z -> split_text t sz ov = Some cs ->
  Forall (fun c => py_strip_truthy c = true /\ (4 * Z.of_nat (length c) < 5 * sz)%Z) cs /\
  (cs = [] -> blank t) /\
  (t <> [] -> split_loop (S (length t)) t sz ov (mkSplit 0 []) = Some cs).
Proof.
  intros Hp. unfold split_text, split_text_fuel.
  case_bool_decide as Ht.
  - intros [= <-]. subst t. split_and!; [constructor|intros _; constructor|done].
  - destruct (split_loop _ t sz ov _) as [cs0|] eqn:E; [|discriminate]. simpl.
    destruct (split_loop_ok t sz ov Hp _ _ _ (split_init_inv t sz) E) as [Hall Hbl].
    assert (Hfb : (bool_decide (cs0 = []) && py_strip_truthy t)%bool = false).
    { destruct (decide (cs0 = [])) as [Hn|Hn].
      - apply andb_false_intro2, strip_truthy_false, Hbl, Hn.
      - apply andb_false_intro1, bool_decide_eq_false_2, Hn. }
    rewrite Hfb. intros [= <-]. done.
Qed.

(** The merged last chunk repeats the overlap: for
    "abcdefghijklm" with [chunk_size = 12] and [chunk_overlap = 1] the
    rest "lm" (shorter than 12 / 4) is appended to the chunk "abcdefghijkl"
    that already ends with its first character, giving "abcdefghijkllm". *)
Example split_text_repeats_overlap :
  split_text (txt "abcdefghijklm") 12 1 = Some [txt "abcdefghijkllm"].
Proof. vm_compute. reflexivity. Qed.

(** ** Concrete runs *)

Lemma split_text_total_witness :
  exists cs, split_text (txt "abcdefghijklmnopqrstuvwxyz") 10 3 = Some cs /\
    forall fuel, (26 < fuel)%nat ->
      split_text_fuel fuel (txt "abcdefghijklmnopqrstuvwxyz") 10 3 = Some cs.
Proof. apply (split_text_total (txt "abcdefghijklmnopqrstuvwxyz") 10 3). lia. Defined.

Lemma split_text_diverges_witness :
  split_text_fuel 1000 (txt "abcdefghijklm") 4 4 = None.
Proof. apply (split_text_diverges (txt "abcdefghijklm") 4 4); [lia|vm_compute; reflexivity]. Defined.

Lemma split_text_chunks_witness :
  Forall (fun c => py_strip_truthy c = true /\ (4 * Z.of_nat (length c) < 5 * 10)%Z)
    [txt "abcdefghij"; txt "hijklmnopq"; txt "opqrstuvwx"; txt "vwxyz"] /\
  ([txt "abcdefghij"; txt "hijklmnopq"; txt "opqrstuvwx"; txt "vwxyz"] = [] ->
   blank (txt "abcdefghijklmnopqrstuvwxyz")) /\
  (txt "abcdefghijklmnopqrstuvwxyz" <> [] ->
   split_loop 27 (txt "abcdefghijklmnopqrstuvwxyz") 10 3 (mkSplit 0 []) =
     Some [txt "abcdefghij"; txt "hijklmnopq"; txt "opqrstuvwx"; txt "vwxyz"]).
Proof.
  apply (split_text_chunks (txt "abcdefghijklmnopqrstuvwxyz") 10 3); [lia|].
  vm_compute. reflexivity.
Defined.
