(* ===== verification/Chroma.v ===== *)
(** * The vector store: [VectorRAG]'s collections and their mutations

    Models the operations of src/llm/rag/vector_rag.py that change or read
    the persistent chromadb client: [get_collection] (lines 133-172),
    [list_collections] (174-190), [add_texts]/[_add_texts_sync] (192-303)
    with its fallback to batches of five, [delete_by_metadata] (305-319),
    [delete_collection] (321-332) and [get_metadata_values] (334-365).

    The client's state is [chroma_state]: the collections in creation
    order, each with its records (id, document, metadata) in insertion
    order.  What the library decides is the interface [ChromaBackend]:
    whether one [collection.add] call succeeds on the given documents and
    metadatas (the embedding function and chromadb's validation run there)
    and the message of its exception, and the message of
    [client.delete_collection] on a missing collection.  The [uuid4] ids of
    the texts are inputs.  [get_metadata_values] collects into a Python
    [set]; its order is not specified, [dedup] fixes one, and no theorem
    depends on it. *)

From stdpp Require Import base list decidable strings.
From Stdlib Require Import ZArith Lia.
From S2P Require Import Prelude.

(** A metadata dict; [None] for a record stored without metadata. *)
Abbreviation metadata := (list (text * text)).

Record chroma_record := mkRecord {
  rec_id : text; rec_document : text; rec_metadata : option metadata }.

Record chroma_state := mkChroma { chroma_collections : list (text * list chroma_record) }.

#[export] Instance chroma_record_eq_dec : EqDecision chroma_record.
Proof. solve_decision. Defined.

(** An exception of the store: its class and [str(e)]. *)
Inductive chroma_error :=
| ChromaValueError (msg : text)
| ChromaError (msg : text).

Class ChromaBackend := {
  (** [collection.add(documents, ids, metadatas)]: [None] when it
      succeeds, else [str(e)]. *)
  add_error : list (text * option metadata) -> option text;
  (** [str(e)] of [client.delete_collection] on a missing collection. *)
  missing_collection_error : text -> text }.

(** [f"集合 {namespace} 不存在"] (line 167). *)
Definition collection_missing_msg (ns : text) : text :=
  [0x96C6; 0x5408; 0x20]%N ++ ns ++ [0x20; 0x4E0D; 0x5B58; 0x5728]%N.

(** [f"所有批次都添加失败，原始错误: {str(e)}"] (line 297). *)
Definition all_batches_failed_msg (e : text) : text :=
  [0x6240; 0x6709; 0x6279; 0x6B21; 0x90FD; 0x6DFB; 0x52A0; 0x5931; 0x8D25; 0xFF0C;
   0x539F; 0x59CB; 0x9519; 0x8BEF; 0x3A; 0x20]%N ++ e.

(** ** Collections *)

Definition find_collection (ns : text) (st : chroma_state) : option (list chroma_record) :=
  py_dict_get ns (chroma_collections st).

Definition put_collection (ns : text) (recs : list chroma_record) (st : chroma_state)
  : chroma_state :=
  mkChroma (py_dict_set ns recs (chroma_collections st)).

(** [list_collections] (lines 174-190): [[col.name for col in collections]]. *)
Definition list_collection_names (st : chroma_state) : list text := fst <$> chroma_collections st.

(** [get_collection(namespace)] with [create_if_not_exists=True]: a missing
    collection is created empty. *)
Definition get_or_create (ns : text) (st : chroma_state) : chroma_state :=
  match find_collection ns st with
  | Some _ => st
  | None => put_collection ns [] st
  end.

(** [get_collection(namespace, create_if_not_exists=False)]: the
    [ValueError] of line 167 when it is missing. *)
Definition get_existing (ns : text) (st : chroma_state) : list chroma_record + chroma_error :=
  match find_collection ns st with
  | Some recs => inl recs
  | None => inr (ChromaValueError (collection_missing_msg ns))
  end.

(** ** [add_texts] *)

(** [MAX_TEXT_LENGTH = 10000] and [text[:MAX_TEXT_LENGTH]] (lines 249-256). *)
Definition max_text_length : nat := 10000.

Definition truncate_text (t : text) : text :=
  if bool_decide (max_text_length < length t) then take max_text_length t else t.

(** One text to add: its id, its truncated document, its metadata. *)
Definition add_item : Type := text * text * option metadata.

Definition item_record (it : add_item) : chroma_record :=
  mkRecord it.1.1 it.1.2 it.2.

Definition item_view (it : add_item) : text * option metadata := (it.1.2, it.2).

(** A successful [collection.add]: the records are appended. *)
Definition collection_add (ns : text) (items : list add_item) (st : chroma_state) : chroma_state :=
  put_collection ns (default [] (find_collection ns st) ++ (item_record <$> items)) st.

(** [range(0, n, 5)] and [l[i:i+5]]. *)
Definition batch_size : nat := 5.

Definition batch_starts (n : nat) : list nat :=
  (fun k => batch_size * k) <$> seq 0 ((n + batch_size - 1) / batch_size).

Definition batch {A} (i : nat) (l : list A) : list A := take batch_size (drop i l).

Section AddTexts.
Context `{ChromaBackend}.

(** One iteration of the loop of lines 275-291: the batch starting at [i]
    is added on its own, and its ids are collected when it succeeds. *)
Definition add_batch_step (ns : text) (items : list add_item)
    (acc : list text * chroma_state) (i : nat) : list text * chroma_state :=
  let '(ok, st) := acc in
  let b := batch i items in
  match add_error (item_view <$> b) with
  | None => (ok ++ ((fun it : add_item => it.1.1) <$> b), collection_add ns b st)
  | Some _ => (ok, st)
  end.

Definition add_batches (ns : text) (items : list add_item) (st : chroma_state)
  : list text * chroma_state :=
  fold_left (add_batch_step ns items) (batch_starts (length items)) ([], st).

(** [_add_texts_sync(texts, namespace, metadata)] with the drawn [ids]:
    the collection is created if needed, every text is truncated, one
    [add] of all texts is tried (with [metadatas=None] when [metadata] is
    falsy), and on failure the batches of five (with a [{}] for a missing
    metadata); the ids of what was added, or the exception of line 297. *)
Definition add_texts (texts : list text) (ns : text) (md : option metadata) (ids : list text)
    (st : chroma_state) : outcome chroma_error (list text) * chroma_state :=
  let st1 := get_or_create ns st in
  let meta_truthy := match md with Some (_ :: _) => true | _ => false end in
  let docs := truncate_text <$> texts in
  let full := zip (zip ids docs) (replicate (length texts)
                                    (if meta_truthy then md else None)) in
  let batched := zip (zip ids docs) (replicate (length texts)
                                       (Some (if meta_truthy then default [] md else []))) in
  match add_error (item_view <$> full) with
  | None => (Returned ids, collection_add ns full st1)
  | Some e =>
      let '(ok, st2) := add_batches ns batched st1 in
      if bool_decide (ok = []) then (Raised (ChromaError (all_batches_failed_msg e)), st2)
      else (Returned ok, st2)
  end.

End AddTexts.

(** ** Deleting and reading *)

(** [where={field: value}]: the record's metadata has that value. *)
Definition meta_matches (field value : text) (r : chroma_record) : bool :=
  match rec_metadata r with
  | Some md => bool_decide (py_dict_get field md = Some value)
  | None => false
  end.

(** [delete_by_metadata] (lines 305-319). *)
Definition delete_by_metadata (ns field value : text) (st : chroma_state)
  : outcome chroma_error unit * chroma_state :=
  match get_existing ns st with
  | inr e => (Raised e, st)
  | inl recs =>
      (Returned tt, put_collection ns (filter (fun r => meta_matches field value r = false) recs) st)
  end.

(** [delete_collection] (lines 321-332). *)
Definition delete_collection `{ChromaBackend} (ns : text) (st : chroma_state)
  : outcome chroma_error unit * chroma_state :=
  match find_collection ns st with
  | None => (Raised (ChromaValueError (missing_collection_error ns)), st)
  | Some _ => (Returned tt, mkChroma (filter (fun c => bool_decide (c.1 <> ns)) (chroma_collections st)))
  end.

(** [get_metadata_values] (lines 334-365): the distinct values of the field;
    [[]] when the collection is missing or empty, and also when a record has
    no metadata ([metadata_field in None] raises [TypeError], caught by the
    [except] of line 364). *)
Definition get_metadata_values (ns field : text) (st : chroma_state) : list text :=
  match find_collection ns st with
  | None => []
  | Some recs =>
      match mapM rec_metadata recs with
      | None => []
      | Some mds => dedup (omap (py_dict_get field) mds)
      end
  end.

(** ** Concrete stores *)

(** A backend whose embedding fails on any batch holding the text "bad". *)
Definition reject_bad : ChromaBackend := {|
  add_error items := if bool_decide (txt "bad" ∈ items.*1) then Some (txt "embedding failed") else None;
  missing_collection_error ns := txt "Collection " ++ ns ++ txt " does not exist." |}.

Definition empty_chroma_state : chroma_state := mkChroma [].

(** Seven chunks, the sixth of which the backend rejects. *)
Definition ex_chunks : list text :=
  [txt "c1"; txt "c2"; txt "c3"; txt "c4"; txt "c5"; txt "bad"; txt "c7"].
Definition ex_ids : list text :=
  [txt "i1"; txt "i2"; txt "i3"; txt "i4"; txt "i5"; txt "i6"; txt "i7"].
Definition ex_md : metadata := [(txt "source", txt "guide.txt"); (txt "doc_id", txt "d1")].

Definition ex_add_run : outcome chroma_error (list text) * chroma_state :=
  @add_texts reject_bad ex_chunks (txt "guides") (Some ex_md) ex_ids empty_chroma_state.

(** ** Lemmas *)

Lemma find_put ns ns' recs st :
  find_collection ns' (put_collection ns recs st) =
    if decide (ns = ns') then Some recs else find_collection ns' st.
Proof. apply py_dict_get_set. Qed.

Lemma find_collection_add ns ns' items st :
  find_collection ns' (collection_add ns items st) =
    if decide (ns = ns') then Some (default [] (find_collection ns st) ++ (item_record <$> items))
    else find_collection ns' st.
Proof. apply find_put. Qed.

Lemma find_get_or_create ns ns' st :
  find_collection ns' (get_or_create ns st) =
    if decide (ns = ns') then Some (default [] (find_collection ns st)) else find_collection ns' st.
Proof.
  unfold get_or_create. destruct (find_collection ns st) as [recs|] eqn:E.
  - case_decide; subst; auto.
  - rewrite find_put. by case_decide.
Qed.

Lemma truncate_text_length t : length (truncate_text t) <= max_text_length.
Proof.
  unfold truncate_text. case_bool_decide; [rewrite length_take|]; lia.
Qed.

(** The batches of [range(0, n, 5)] cut the list into consecutive slices. *)
Lemma batches_concat {A} (l : list A) j m :
  concat ((fun i => batch i l) <$> ((fun k => batch_size * k) <$> seq j m)) =
    take (batch_size * m) (drop (batch_size * j) l).
Proof.
  revert j. induction m as [|m IH]; intros j; cbn [seq].
  - by rewrite Nat.mul_0_r.
  - rewrite !fmap_cons. cbn [concat]. rewrite IH. unfold batch.
    replace (batch_size * S j) with (batch_size * j + batch_size) by lia.
    rewrite <- drop_drop, take_take_drop. f_equal. lia.
Qed.

Lemma batch_starts_concat {A} (l : list A) :
  concat ((fun i => batch i l) <$> batch_starts (length l)) = l.
Proof.
  unfold batch_starts. rewrite batches_concat, Nat.mul_0_r, drop_0. apply take_ge.
  unfold batch_size. pose proof (Nat.div_mod (length l + 5 - 1) 5 ltac:(lia)).
  pose proof (Nat.mod_upper_bound (length l + 5 - 1) 5 ltac:(lia)). lia.
Qed.

Section AddLemmas.
Context `{ChromaBackend}.

(** What the batch loop adds: a selection of whole batches, appended in
    order, whose ids are the ones it returns. *)
Lemma add_batches_fold ns items S ok st base ok' st' :
  find_collection ns st = Some base ->
  fold_left (add_batch_step ns items) S (ok, st) = (ok', st') ->
  exists added,
    st' = put_collection ns (base ++ added) st /\
    find_collection ns st' = Some (base ++ added) /\
    (forall ns', ns' <> ns -> find_collection ns' st' = find_collection ns' st) /\
    ok' = ok ++ (rec_id <$> added) /\
    added `sublist_of` (item_record <$> concat ((fun i => batch i items) <$> S)).
Proof.
  revert ok st base. induction S as [|i S IH]; intros ok st base Hb Hf; cbn [fold_left] in Hf.
  - injection Hf as <- <-. exists []. rewrite !app_nil_r. split_and!; try done.
    unfold put_collection. rewrite py_dict_set_id by done. by destruct st.
  - rewrite fmap_cons. cbn [concat]. rewrite fmap_app. unfold add_batch_step in Hf at 2.
    destruct (add_error (item_view <$> batch i items)) eqn:He.
    + destruct (IH _ _ _ Hb Hf) as (added & H0 & H1 & H2 & H3 & H4).
      exists added. split_and!; auto. by apply sublist_inserts_l.
    + assert (Hb' : find_collection ns (collection_add ns (batch i items) st) =
                    Some (base ++ (item_record <$> batch i items)))
        by (rewrite find_collection_add, Hb; by case_decide).
      destruct (IH _ _ _ Hb' Hf) as (added & H0 & H1 & H2 & H3 & H4).
      exists ((item_record <$> batch i items) ++ added). split_and!.
      * rewrite H0. unfold collection_add. rewrite Hb. unfold put_collection. simpl.
        by rewrite py_dict_set_set, app_assoc.
      * by rewrite app_assoc.
      * intros ns' Hne. rewrite H2 by done. rewrite find_collection_add. by case_decide.
      * rewrite H3, fmap_app, <- app_assoc, <- list_fmap_compose. done.
      * by apply sublist_app.
Qed.

(** The id and document of the record of an item. *)
Lemma item_record_view (items : list add_item) :
  (fun rc => (rec_id rc, rec_document rc)) <$> (item_record <$> items) = fst <$> items.
Proof.
  induction items as [|[[a b] c] items IH]; [done|]. by rewrite !fmap_cons, IH.
Qed.

Lemma item_record_ids (items : list add_item) :
  rec_id <$> (item_record <$> items) = fst <$> (fst <$> items).
Proof.
  induction items as [|[[a b] c] items IH]; [done|]. by rewrite !fmap_cons, IH.
Qed.

Lemma zip_items_view (ids docs : list text) (ms : list (option metadata)) :
  length docs <= length ms -> length ids = length docs ->
  fst <$> zip (zip ids docs) ms = zip ids docs.
Proof. intros. apply fst_zip. rewrite length_zip. lia. Qed.

End AddLemmas.

Lemma elem_of_zip_snd {A B} (l : list A) (k : list B) p : p ∈ zip l k -> p.2 ∈ k.
Proof.
  revert k. induction l as [|x l IH]; intros [|y k] Hp; simpl in *; try by apply elem_of_nil in Hp.
  apply elem_of_cons in Hp as [->|Hp]; [left|right; by apply IH].
Qed.

Lemma truncated_pairs_bound (ids texts : list text) :
  Forall (fun p => length p.2 <= max_text_length) (zip ids (truncate_text <$> texts)).
Proof.
  apply Forall_forall. intros p Hp%elem_of_zip_snd.
  apply list_elem_of_fmap in Hp as (t & -> & _). apply truncate_text_length.
Qed.

Section AddShape.
Context `{ChromaBackend}.

(** The shape of what [add_texts] stores: records appended to the
    namespace's collection, a selection of the items built from the ids,
    the truncated texts and one metadata [m] (the given one, when truthy). *)
Lemma add_texts_added texts ns md ids st r st' :
  length ids = length texts ->
  add_texts texts ns md ids st = (r, st') ->
  exists added m,
    (forall md', md = Some md' -> md' <> [] -> m = Some md') /\
    st' = put_collection ns (default [] (find_collection ns st) ++ added) (get_or_create ns st) /\
    find_collection ns st' = Some (default [] (find_collection ns st) ++ added) /\
    (forall ns', ns' <> ns -> find_collection ns' st' = find_collection ns' st) /\
    added `sublist_of`
      (item_record <$> zip (zip ids (truncate_text <$> texts)) (replicate (length texts) m)) /\
    match r with Returned ok => ok = rec_id <$> added | Raised _ => added = [] end.
Proof.
  intros Hlen Hadd.
  set (base := default [] (find_collection ns st)).
  assert (Hb : find_collection ns (get_or_create ns st) = Some base)
    by (rewrite find_get_or_create; by case_decide).
  assert (Ho : forall ns', ns' <> ns ->
                 find_collection ns' (get_or_create ns st) = find_collection ns' st)
    by (intros ns' Hne; rewrite find_get_or_create; by case_decide).
  unfold add_texts in Hadd. fold base in Hb.
  destruct (add_error _) as [e|] eqn:He.
  - destruct (add_batches ns _ (get_or_create ns st)) as [ok st2] eqn:Hab.
    unfold add_batches in Hab.
    destruct (add_batches_fold _ _ _ _ _ _ _ _ Hb Hab) as (added & H0 & H1 & H2 & H3 & H4).
    rewrite batch_starts_concat in H4.
    exists added, (Some (if match md with Some (_ :: _) => true | _ => false end
                         then default [] md else [])).
    split_and!; [| | | | exact H4 |].
    + intros md' -> Hne. by destruct md' as [|??].
    + case_bool_decide; injection Hadd as <- <-; done.
    + case_bool_decide; injection Hadd as <- <-; done.
    + case_bool_decide; injection Hadd as <- <-; intros ns' Hne; by rewrite H2, Ho.
    + simpl in H3. subst ok. case_bool_decide as Hok; injection Hadd as <- <-; [|done].
      by apply fmap_nil_inv in Hok.
  - injection Hadd as <- <-.
    exists (item_record <$> zip (zip ids (truncate_text <$> texts))
                                (replicate (length texts)
                                   (if match md with Some (_ :: _) => true | _ => false end
                                    then md else None))),
           (if match md with Some (_ :: _) => true | _ => false end then md else None).
    split_and!; [| | | | done |].
    + intros md' -> Hne. by destruct md' as [|??].
    + unfold collection_add. by rewrite Hb.
    + rewrite find_collection_add, Hb. by case_decide.
    + intros ns' Hne. rewrite find_collection_add. case_decide; [congruence|]. by apply Ho.
    + rewrite item_record_ids, zip_items_view, fst_zip; try done;
        rewrite ?length_replicate, ?length_fmap; lia.
Qed.

End AddShape.

(** ** Theorems *)

Section AddTheorems.
Context `{ChromaBackend}.

(** C23: What [add_texts] stores: the namespace's collection (created when
    missing) gets new records appended after its old ones, and no other
    collection changes; their ids and documents are, in order, a selection
    of the pairs (id, text truncated to 10000 characters), so no stored
    document is longer than 10000 characters; the ids returned are exactly
    those of the stored records, and when the exception is raised nothing
    was stored. *)
Theorem add_texts_spec texts ns md ids st r st' :
  length ids = length texts ->
  add_texts texts ns md ids st = (r, st') ->
  exists added,
    find_collection ns st' = Some (default [] (find_collection ns st) ++ added) /\
    (forall ns', ns' <> ns -> find_collection ns' st' = find_collection ns' st) /\
    ((fun rc => (rec_id rc, rec_document rc)) <$> added) `sublist_of`
      zip ids (truncate_text <$> texts) /\
    Forall (fun rc => length (rec_document rc) <= max_text_length) added /\
    match r with Returned ok => ok = rec_id <$> added | Raised _ => added = [] end.
Proof.
  intros Hlen Hadd.
  destruct (add_texts_added _ _ _ _ _ _ _ Hlen Hadd) as (added & m & _ & _ & H1 & H2 & H3 & H4).
  apply (sublist_fmap (fun rc => (rec_id rc, rec_document rc))) in H3.
  rewrite item_record_view, zip_items_view in H3 by (rewrite ?length_replicate, ?length_fmap; lia).
  exists added. split_and!; try done.
  pose proof (Forall_sublist _ _ _ H3 (truncated_pairs_bound ids texts)) as Hf.
  apply Forall_fmap in Hf. revert Hf. apply List.Forall_impl. done.
Qed.

End AddTheorems.

(** ** Witnesses *)

Lemma add_texts_spec_witness :
  exists added,
    find_collection (txt "guides") ex_add_run.2 =
      Some (default [] (find_collection (txt "guides") empty_chroma_state) ++ added) /\
    (forall ns', ns' <> txt "guides" ->
       find_collection ns' ex_add_run.2 = find_collection ns' empty_chroma_state) /\
    ((fun rc => (rec_id rc, rec_document rc)) <$> added) `sublist_of`
      zip ex_ids (truncate_text <$> ex_chunks) /\
    Forall (fun rc => length (rec_document rc) <= max_text_length) added /\
    match ex_add_run.1 with Returned ok => ok = rec_id <$> added | Raised _ => added = [] end.
Proof.
  apply (@add_texts_spec reject_bad ex_chunks (txt "guides") (Some ex_md) ex_ids
           empty_chroma_state ex_add_run.1 ex_add_run.2); [reflexivity|].
  apply surjective_pairing.
Defined.
