(* ===== verification/Documents.v ===== *)
(** * Document ingestion: [VectorService] and the vector router

    Models src/llm/services/vector_service.py ([add_document],
    [delete_document], [delete_namespace], [create_namespace],
    [list_namespaces], [list_documents], lines 17-187) over the store of
    [Chroma], with the chunking of [Chunker], and the six endpoints of
    src/llm/routers/vector_router.py.

    Text extraction from a .txt, .docx or .pdf upload (lines 189-227:
    UTF-8 decoding, python-docx, PyMuPDF) is the interface
    [TextExtractor]: the text, or [str(e)] of its exception.  A service
    method returns a dict that is either [{"error": message}] or its data
    ([vs_result]); the [uuid4] of the document and of each chunk are
    inputs.  [add_document] returns [None] when [_split_text] never ends
    (see [Chunker.split_text_diverges]).  Every endpoint wraps its body in
    [try ... except Exception] and so turns its own 400 into a 500
    ([catch_all_500]).  [vs_reachable] are the stores a sequence of calls
    ([vs_op]) leads to from an empty directory; [chroma_inv] is their
    invariant. *)

From stdpp Require Import base list decidable strings.
From Stdlib Require Import ZArith Lia.
From S2P Require Import Prelude Preprocess Chunker Chroma.

(** ** Messages *)

Definition msg_prefix (p : text) (e : text) : text := p ++ e.

(** [f"提取文本时出错: {str(e)}"] (line 44). *)
Definition extract_error_msg : text -> text :=
  msg_prefix [0x63D0; 0x53D6; 0x6587; 0x672C; 0x65F6; 0x51FA; 0x9519; 0x3A; 0x20]%N.

(** ["文档内容为空或无法处理"] (line 56). *)
Definition empty_document_msg : text :=
  [0x6587; 0x6863; 0x5185; 0x5BB9; 0x4E3A; 0x7A7A; 0x6216; 0x65E0; 0x6CD5; 0x5904; 0x7406]%N.

(** [f"添加到向量数据库时出错: {str(e)}"] (line 72). *)
Definition add_error_msg : text -> text :=
  msg_prefix [0x6DFB; 0x52A0; 0x5230; 0x5411; 0x91CF; 0x6570; 0x636E; 0x5E93; 0x65F6;
              0x51FA; 0x9519; 0x3A; 0x20]%N.

(** [f"删除文档时出错: {str(e)}"] (line 101) and
    [f"删除命名空间时出错: {str(e)}"] (line 117). *)
Definition delete_document_error_msg : text -> text :=
  msg_prefix [0x5220; 0x9664; 0x6587; 0x6863; 0x65F6; 0x51FA; 0x9519; 0x3A; 0x20]%N.
Definition delete_namespace_error_msg : text -> text :=
  msg_prefix [0x5220; 0x9664; 0x547D; 0x540D; 0x7A7A; 0x95F4; 0x65F6; 0x51FA; 0x9519; 0x3A; 0x20]%N.

(** [f"命名空间 {namespace} 已存在"] (line 133). *)
Definition namespace_exists_msg (ns : text) : text :=
  [0x547D; 0x540D; 0x7A7A; 0x95F4; 0x20]%N ++ ns ++ [0x20; 0x5DF2; 0x5B58; 0x5728]%N.

(** ["未知来源"] (line 175). *)
Definition unknown_source : text := [0x672A; 0x77E5; 0x6765; 0x6E90]%N.

Definition chroma_error_str (e : chroma_error) : text :=
  match e with ChromaValueError m | ChromaError m => m end.

(** ** The service *)

(** A service result: its data, or [{"error": message}]. *)
Inductive vs_result (A : Type) := VsOk (a : A) | VsError (msg : text).
Arguments VsOk {A} a.
Arguments VsError {A} msg.

(** The data of a successful [add_document] (lines 74-78). *)
Record added_document := mkAdded {
  ad_namespace : text; ad_metadata : metadata; ad_chunks_count : nat }.

(** [metadata = {"source": file_name, "doc_id": doc_id}] (lines 59-62). *)
Definition doc_metadata (file_name doc_id : text) : metadata :=
  [(txt "source", file_name); (txt "doc_id", doc_id)].

Class TextExtractor := { extract_text : list N -> text -> text + text }.

Section VectorService.
Context `{ChromaBackend} `{TextExtractor}.

(** [add_document(file_content, file_name, namespace, chunk_size,
    chunk_overlap)] with the drawn [doc_id]; [uuid i] is the id
    [_add_texts_sync] draws for the [i]-th chunk (line 226). *)
Definition add_document (content : list N) (file_name ns : text) (chunk_size chunk_overlap : Z)
    (doc_id : text) (uuid : nat -> text) (st : chroma_state)
  : option (vs_result added_document * chroma_state) :=
  match extract_text content file_name with
  | inl e => Some (VsError (extract_error_msg e), st)
  | inr t =>
      match split_text t chunk_size chunk_overlap with
      | None => None
      | Some [] => Some (VsError empty_document_msg, st)
      | Some chunks =>
          let md := doc_metadata file_name doc_id in
          match add_texts chunks ns (Some md) (uuid <$> seq 0 (length chunks)) st with
          | (Returned _, st') => Some (VsOk (mkAdded ns md (length chunks)), st')
          | (Raised e, st') => Some (VsError (add_error_msg (chroma_error_str e)), st')
          end
      end
  end.

(** [delete_document] (lines 86-101): the records whose "doc_id" is the
    given one. *)
Definition delete_document (ns doc_id : text) (st : chroma_state)
  : vs_result unit * chroma_state :=
  match delete_by_metadata ns (txt "doc_id") doc_id st with
  | (Returned _, st') => (VsOk tt, st')
  | (Raised e, st') => (VsError (delete_document_error_msg (chroma_error_str e)), st')
  end.

(** [delete_namespace] (lines 103-117). *)
Definition delete_namespace (ns : text) (st : chroma_state) : vs_result unit * chroma_state :=
  match delete_collection ns st with
  | (Returned _, st') => (VsOk tt, st')
  | (Raised e, st') => (VsError (delete_namespace_error_msg (chroma_error_str e)), st')
  end.

(** [create_namespace] (lines 119-139). *)
Definition create_namespace (ns : text) (st : chroma_state) : vs_result text * chroma_state :=
  if decide (ns ∈ list_collection_names st) then (VsError (namespace_exists_msg ns), st)
  else (VsOk ns, get_or_create ns st).

(** [list_namespaces] (lines 141-153). *)
Definition list_namespaces (st : chroma_state) : vs_result (list text) :=
  VsOk (list_collection_names st).

(** [next((s for s in sources if s), "未知来源")]. *)
Definition first_source (sources : list text) : text :=
  default unknown_source (List.find (fun s => bool_decide (s <> [])) sources).

(** [list_documents] (lines 155-187): for every doc_id, the first
    non-empty value of "source" over the whole namespace. *)
Definition list_documents (ns : text) (st : chroma_state) : vs_result (list (text * text)) :=
  VsOk ((fun doc_id => (doc_id, first_source (get_metadata_values ns (txt "source") st)))
          <$> get_metadata_values ns (txt "doc_id") st).

End VectorService.

(** ** The router *)

(** The [data] of the router's successful responses. *)
Inductive vector_body :=
| VBodyAdded (a : added_document)
| VBodyDocument (ns doc_id : text)
| VBodyNamespace (ns : text)
| VBodyNamespaces (nss : list text)
| VBodyDocuments (ns : text) (docs : list (text * text)).

Definition vector_response := http_response text vector_body.

(** [if "error" in result: raise HTTPException(status_code=400, ...)]. *)
Definition vs_respond {A} (body : A -> vector_body) (r : vs_result A) : vector_response :=
  match r with VsOk a => HttpOk (body a) | VsError m => HttpError 400 m end.

Section VectorRouter.
Context `{ChromaBackend} `{TextExtractor}.

(** [upload_document] (lines 16-54); [None] when the chunking never ends. *)
Definition upload_document (content : list N) (file_name ns : text)
    (chunk_size chunk_overlap : Z) (doc_id : text) (uuid : nat -> text) (st : chroma_state)
  : option (vector_response * chroma_state) :=
  (fun '(r, st') => (catch_all_500 (vs_respond VBodyAdded r), st'))
    <$> add_document content file_name ns chunk_size chunk_overlap doc_id uuid st.

(** [delete_document] (lines 56-77). *)
Definition delete_document_handler (ns doc_id : text) (st : chroma_state)
  : vector_response * chroma_state :=
  let '(r, st') := delete_document ns doc_id st in
  (catch_all_500 (vs_respond (fun _ => VBodyDocument ns doc_id) r), st').

(** [delete_namespace] (lines 79-99). *)
Definition delete_namespace_handler (ns : text) (st : chroma_state)
  : vector_response * chroma_state :=
  let '(r, st') := delete_namespace ns st in
  (catch_all_500 (vs_respond (fun _ => VBodyNamespace ns) r), st').

(** [create_namespace] (lines 101-121). *)
Definition create_namespace_handler (ns : text) (st : chroma_state)
  : vector_response * chroma_state :=
  let '(r, st') := create_namespace ns st in
  (catch_all_500 (vs_respond (fun _ => VBodyNamespace ns) r), st').

(** [list_namespaces] (lines 123-140). *)
Definition list_namespaces_handler (st : chroma_state) : vector_response :=
  catch_all_500 (vs_respond VBodyNamespaces (list_namespaces st)).

(** [list_documents] (lines 142-162). *)
Definition list_documents_handler (ns : text) (st : chroma_state) : vector_response :=
  catch_all_500 (vs_respond (VBodyDocuments ns) (list_documents ns st)).

End VectorRouter.

(** ** Sequences of service calls *)

(** A call of the vector router's state-changing endpoints, i.e. of the
    service methods they forward to. *)
Inductive vs_op :=
| VsUpload (content : list N) (file_name ns : text) (chunk_size chunk_overlap : Z)
    (doc_id : text) (uuid : nat -> text)
| VsDeleteDocument (ns doc_id : text)
| VsDeleteNamespace (ns : text)
| VsCreateNamespace (ns : text).

Section VectorCalls.
Context `{ChromaBackend} `{TextExtractor}.

(** The store after one call; [None] when the upload's chunking never ends. *)
Definition apply_vs_op (o : vs_op) (st : chroma_state) : option chroma_state :=
  match o with
  | VsUpload content fn ns cs co doc_id uuid => snd <$> add_document content fn ns cs co doc_id uuid st
  | VsDeleteDocument ns doc_id => Some (delete_document ns doc_id st).2
  | VsDeleteNamespace ns => Some (delete_namespace ns st).2
  | VsCreateNamespace ns => Some (create_namespace ns st).2
  end.

(** The stores reachable from a new, empty chromadb directory. *)
Inductive vs_reachable : chroma_state -> Prop :=
| vs_reach_init : vs_reachable (mkChroma [])
| vs_reach_step o st st' : vs_reachable st -> apply_vs_op o st = Some st' -> vs_reachable st'.

End VectorCalls.

(** Every record was stored by [add_document]: its metadata is
    [{"source": ..., "doc_id": ...}]. *)
Definition record_ok (rc : chroma_record) : Prop :=
  exists fn doc_id, rec_metadata rc = Some (doc_metadata fn doc_id).

(** The store's invariant: collection names are unique and every record
    carries a document's metadata. *)
Definition chroma_inv (st : chroma_state) : Prop :=
  NoDup (list_collection_names st) /\ Forall (fun c => Forall record_ok c.2) (chroma_collections st).

(** ** Concrete runs *)

(** A [.txt] upload: the content is the text. *)
Definition ex_extractor : TextExtractor := {| extract_text c _ := inr c |}.
Definition ex_uuid (i : nat) : text := txt "u" ++ [N.of_nat (48 + i)].
(** Six chunks of four characters, the last of which [reject_bad] refuses. *)
Definition ex_content : list N := txt "aaaabbbbccccddddeeeebad".
Definition ex_guides : chroma_state := put_collection (txt "guides") [] empty_chroma_state.

Definition ex_upload : vs_result added_document * chroma_state :=
  default (VsError [], ex_guides)
    (@add_document reject_bad ex_extractor ex_content (txt "guide.txt") (txt "guides") 4 0
       (txt "d1") ex_uuid ex_guides).

(** A second document, from another file, into the same namespace. *)
Definition ex_upload2 : vs_result added_document * chroma_state :=
  default (VsError [], ex_upload.2)
    (@add_document reject_bad ex_extractor (txt "zzzz") (txt "faq.txt") (txt "guides") 4 0
       (txt "d2") ex_uuid ex_upload.2).

(** ** Lemmas *)

Lemma doc_metadata_doc_id fn doc_id :
  py_dict_get (txt "doc_id") (doc_metadata fn doc_id) = Some doc_id.
Proof. reflexivity. Qed.

Lemma doc_metadata_matches fn doc_id rc :
  rec_metadata rc = Some (doc_metadata fn doc_id) -> meta_matches (txt "doc_id") doc_id rc = true.
Proof. intros Hm. unfold meta_matches. rewrite Hm, doc_metadata_doc_id. by apply bool_decide_true. Qed.

Lemma item_records_metadata (l : list (text * text)) n m :
  Forall (fun rc => rec_metadata rc = m) (item_record <$> zip l (replicate n m)).
Proof.
  apply Forall_forall. intros rc (it & -> & Hit)%list_elem_of_fmap.
  apply elem_of_zip_snd, elem_of_replicate in Hit. by destruct Hit.
Qed.

Lemma length_item_records (l : list (text * text)) n m :
  length (item_record <$> zip l (replicate n m)) <= n.
Proof. rewrite length_fmap, length_zip_with, length_replicate. lia. Qed.

Lemma put_collection_get_or_create ns recs st :
  put_collection ns recs (get_or_create ns st) = put_collection ns recs st.
Proof.
  unfold get_or_create. destruct (find_collection ns st); [done|].
  unfold put_collection. simpl. by rewrite py_dict_set_set.
Qed.

Lemma put_find_collection ns recs st :
  find_collection ns st = Some recs -> put_collection ns recs st = st.
Proof. destruct st. unfold put_collection, find_collection. simpl. intros Hf. by rewrite (py_dict_set_id _ _ _ Hf). Qed.

Lemma put_put_collection ns recs recs' st :
  put_collection ns recs (put_collection ns recs' st) = put_collection ns recs st.
Proof. unfold put_collection. simpl. by rewrite py_dict_set_set. Qed.

Lemma find_put_same ns recs st : find_collection ns (put_collection ns recs st) = Some recs.
Proof. unfold find_collection, put_collection. simpl. rewrite py_dict_get_set. by case_decide. Qed.

#[export] Hint Rewrite put_collection_get_or_create put_put_collection find_put_same : pyrw.

(** Deleting a document's records from [base ++ added], where [base] holds
    none of them and [added] only them, leaves [base]. *)
Lemma filter_doc_records doc_id fn base added :
  Forall (fun rc => meta_matches (txt "doc_id") doc_id rc = false) base ->
  Forall (fun rc => rec_metadata rc = Some (doc_metadata fn doc_id)) added ->
  filter (fun r => meta_matches (txt "doc_id") doc_id r = false) (base ++ added) = base.
Proof.
  intros Hb Ha. rewrite filter_app, (filter_all _ base Hb), filter_none; [apply app_nil_r|].
  eapply Forall_impl; [exact Ha|]. intros rc Hrc%doc_metadata_matches. by rewrite Hrc.
Qed.

Section DocumentFacts.
Context `{ChromaBackend} `{TextExtractor}.

(** Every run of [add_document] either fails before the store is touched,
    or appends to the namespace at most one record per chunk, each with the
    document's metadata; the store's error leaves nothing appended. *)
Lemma add_document_inv content fn ns cs co doc_id uuid st r st' :
  add_document content fn ns cs co doc_id uuid st = Some (r, st') ->
  (st' = st /\ exists msg, r = VsError msg) \/
  exists t chunks added,
    extract_text content fn = inr t /\ split_text t cs co = Some chunks /\ chunks <> [] /\
    st' = put_collection ns (default [] (find_collection ns st) ++ added) (get_or_create ns st) /\
    Forall (fun rc => rec_metadata rc = Some (doc_metadata fn doc_id)) added /\
    length added <= length chunks /\
    (r = VsOk (mkAdded ns (doc_metadata fn doc_id) (length chunks)) \/
     (added = [] /\ exists e, r = VsError (add_error_msg e))).
Proof.
  unfold add_document. destruct (extract_text content fn) as [e|t]; [intros [= <- <-]; eauto|].
  destruct (split_text t cs co) as [[|c cs']|] eqn:Hsplit; [intros [= <- <-]; eauto| |done].
  set (chunks := c :: cs'). set (ids := uuid <$> seq 0 (length chunks)).
  destruct (add_texts chunks ns (Some (doc_metadata fn doc_id)) ids st) as [r0 st0] eqn:Hadd.
  destruct (add_texts_added chunks ns (Some (doc_metadata fn doc_id)) ids st r0 st0) as (added & m & Hm & Hst & _ & _ & Hsub & Hr);
    [unfold ids; by rewrite length_fmap, length_seq | done |].
  rewrite (Hm _ eq_refl) in Hsub by done.
  intros Hres. right. exists t, chunks, added.
  assert (Hmd : Forall (fun rc => rec_metadata rc = Some (doc_metadata fn doc_id)) added)
    by (eapply Forall_sublist; [exact Hsub | apply item_records_metadata]).
  assert (Hlen : length added <= length chunks)
    by (etransitivity; [apply sublist_length, Hsub | apply length_item_records]).
  destruct r0; injection Hres as <- <-; repeat split; try done; eauto.
Qed.

End DocumentFacts.

Lemma fst_fmap_pair {A B} (b : B) (l : list A) : ((fun a => (a, b)) <$> l).*1 = l.
Proof. induction l as [|a l IH]; [done|]. by rewrite !fmap_cons, IH. Qed.


Lemma py_dict_get_is_Some {V} k (m : list (text * V)) : is_Some (py_dict_get k m) <-> k ∈ m.*1.
Proof.
  induction m as [|[k' v'] m IH]; simpl; [split; [by intros []|intros Hx; by apply elem_of_nil in Hx]|].
  rewrite elem_of_cons. case_decide; subst; [split; eauto|rewrite IH; naive_solver].
Qed.

(** *** The store invariant *)

Lemma put_collection_inv ns recs st :
  chroma_inv st -> Forall record_ok recs -> chroma_inv (put_collection ns recs st).
Proof.
  intros [Hnd Hall] Hrecs. split; [by apply py_dict_set_NoDup|].
  apply Forall_forall. intros c [->|Hc]%py_dict_set_elem; [done|]. by apply (Forall_elem _ _ _ Hall).
Qed.

Lemma find_collection_inv ns st recs :
  chroma_inv st -> find_collection ns st = Some recs -> Forall record_ok recs.
Proof. intros [_ Hall] Hf%py_dict_get_elem. exact (Forall_elem _ _ _ Hall Hf). Qed.

Lemma get_or_create_inv ns st : chroma_inv st -> chroma_inv (get_or_create ns st).
Proof. intros Hi. unfold get_or_create. destruct (find_collection ns st); [done|]. by apply put_collection_inv. Qed.

Lemma default_find_inv ns st : chroma_inv st -> Forall record_ok (default [] (find_collection ns st)).
Proof. intros Hi. destruct (find_collection ns st) eqn:Hf; [by eapply find_collection_inv|constructor]. Qed.

#[export] Hint Resolve put_collection_inv get_or_create_inv default_find_inv : pydb.

Section InvariantSteps.
Context `{ChromaBackend} `{TextExtractor}.

Lemma add_document_inv_preserved content fn ns cs co doc_id uuid st r st' :
  chroma_inv st -> add_document content fn ns cs co doc_id uuid st = Some (r, st') -> chroma_inv st'.
Proof.
  intros Hi Hadd.
  destruct (add_document_inv content fn ns cs co doc_id uuid st r st' Hadd)
    as [[-> _] | (t & chunks & added & _ & _ & _ & -> & Hmd & _ & _)]; [done|].
  apply put_collection_inv; [auto with pydb|]. apply Forall_app; split; [auto with pydb|].
  eapply Forall_impl; [exact Hmd|]. intros rc Hrc. by exists fn, doc_id.
Qed.

Lemma delete_document_inv_preserved ns doc_id st : chroma_inv st -> chroma_inv (delete_document ns doc_id st).2.
Proof.
  intros Hi. unfold delete_document, delete_by_metadata, get_existing.
  destruct (find_collection ns st) as [recs|] eqn:Hf; [|done]. simpl.
  apply put_collection_inv; [done|]. apply Forall_forall. intros rc [_ Hrc]%list_elem_of_filter.
  exact (Forall_elem _ _ _ (find_collection_inv ns st recs Hi Hf) Hrc).
Qed.

Lemma delete_namespace_inv_preserved ns st : chroma_inv st -> chroma_inv (delete_namespace ns st).2.
Proof.
  intros [Hnd Hall]. unfold delete_namespace, delete_collection.
  destruct (find_collection ns st); [|done]. simpl. split.
  - by apply NoDup_fmap_filter_sub.
  - apply Forall_forall. intros c [_ Hc]%list_elem_of_filter. by apply (Forall_elem _ _ _ Hall).
Qed.

Lemma create_namespace_inv_preserved ns st : chroma_inv st -> chroma_inv (create_namespace ns st).2.
Proof. intros Hi. unfold create_namespace. case_decide; simpl; auto with pydb. Qed.

Lemma apply_vs_op_inv o st st' : chroma_inv st -> apply_vs_op o st = Some st' -> chroma_inv st'.
Proof.
  intros Hi. destruct o; simpl.
  - destruct (add_document _ _ _ _ _ _ _ _) as [[r st0]|] eqn:Hadd; intros [= <-].
    by eapply add_document_inv_preserved.
  - intros [= <-]. by apply delete_document_inv_preserved.
  - intros [= <-]. by apply delete_namespace_inv_preserved.
  - intros [= <-]. by apply create_namespace_inv_preserved.
Qed.

Lemma vs_reachable_inv st : vs_reachable st -> chroma_inv st.
Proof.
  induction 1 as [|o st st' _ IH Hstep]; [split; [constructor|constructor]|].
  by eapply apply_vs_op_inv.
Qed.

End InvariantSteps.

(** [list_documents] on a namespace whose records all have metadata. *)
Lemma list_documents_eq ns st recs mds :
  find_collection ns st = Some recs -> mapM rec_metadata recs = Some mds ->
  list_documents ns st =
    VsOk ((fun d => (d, first_source (dedup (omap (py_dict_get (txt "source")) mds))))
            <$> dedup (omap (py_dict_get (txt "doc_id")) mds)).
Proof. intros Hf Hm. unfold list_documents, get_metadata_values. by rewrite Hf, Hm. Qed.

(** ** Theorems *)

Section DocumentTheorems.
Context `{ChromaBackend} `{TextExtractor}.

(** C24: Uploading a document and then deleting it by its [doc_id] gives
    back exactly the store it started from, on every path of
    [add_document] (extraction error, empty document, store error, partial
    or full success), provided the namespace exists and none of its records
    already carries that [doc_id]: every record [add_document] stores has
    the metadata [{"source": file_name, "doc_id": doc_id}] and nothing else
    of the store is touched. *)
Theorem add_delete_roundtrip content fn ns cs co doc_id uuid st base r st' :
  find_collection ns st = Some base ->
  Forall (fun rc => meta_matches (txt "doc_id") doc_id rc = false) base ->
  add_document content fn ns cs co doc_id uuid st = Some (r, st') ->
  delete_document ns doc_id st' = (VsOk tt, st).
Proof.
  intros Hf Hb Hadd. unfold delete_document, delete_by_metadata, get_existing.
  destruct (add_document_inv content fn ns cs co doc_id uuid st r st' Hadd)
    as [[-> _] | (t & chunks & added & _ & _ & _ & -> & Hmd & _ & _)].
  - rewrite Hf, (filter_all _ base Hb). by rewrite put_find_collection.
  - rewrite Hf. simpl. autorewrite with pyrw.
    rewrite (filter_doc_records doc_id fn base added Hb Hmd). by rewrite put_find_collection.
Qed.



(** C22: The store's invariant over every sequence of calls of the vector
    service from an empty chromadb directory (uploads, whose chunking
    terminates, document and namespace deletions, namespace creations):
    collection names stay unique and every record carries the metadata
    [{"source": ..., "doc_id": ...}] of its upload; hence the [TypeError]
    of [get_metadata_values] on a record without metadata never happens
    through the service, and [list_documents] lists the [doc_id] of every
    record of the namespace. *)
Theorem vector_store_invariant st :
  vs_reachable st ->
  chroma_inv st /\
  forall ns recs, find_collection ns st = Some recs ->
    exists docs, list_documents ns st = VsOk docs /\
      forall rc, rc ∈ recs -> exists fn d, rec_metadata rc = Some (doc_metadata fn d) /\ d ∈ docs.*1.
Proof.
  intros Hr. pose proof (vs_reachable_inv st Hr) as Hi. split; [done|].
  intros ns recs Hf. pose proof (find_collection_inv ns st recs Hi Hf) as Hok.
  destruct (mapM_is_Some_2 rec_metadata recs) as [mds Hm].
  { eapply Forall_impl; [exact Hok|]. intros rc (fn & d & Hrc). unfold compose. by rewrite Hrc. }
  rewrite (list_documents_eq ns st recs mds Hf Hm). eexists; split; [reflexivity|].
  intros rc Hrc. destruct (Forall_elem _ _ _ Hok Hrc) as (fn & d & Hmd). exists fn, d. split; [done|].
  rewrite fst_fmap_pair, elem_of_dedup, list_elem_of_omap. exists (doc_metadata fn d).
  split; [|apply doc_metadata_doc_id].
  destruct (Forall2_elem_l _ _ _ rc (mapM_Some_1 _ _ _ Hm) Hrc) as (md & Hin & Hmd').
  rewrite Hmd in Hmd'. by injection Hmd' as ->.
Qed.

End DocumentTheorems.

(** ** Witnesses *)

Lemma add_delete_roundtrip_witness :
  delete_document (txt "guides") (txt "d1") ex_upload.2 = (VsOk tt, ex_guides).
Proof.
  apply (@add_delete_roundtrip reject_bad ex_extractor ex_content (txt "guide.txt") (txt "guides")
           4 0 (txt "d1") ex_uuid ex_guides [] ex_upload.1 ex_upload.2);
    [reflexivity | constructor | vm_compute; reflexivity].
Defined.



Lemma vector_store_invariant_witness :
  chroma_inv ex_upload2.2 /\
  exists docs, list_documents (txt "guides") ex_upload2.2 = VsOk docs /\
    forall rc, rc ∈ default [] (find_collection (txt "guides") ex_upload2.2) ->
      exists fn d, rec_metadata rc = Some (doc_metadata fn d) /\ d ∈ docs.*1.
Proof.
  assert (Hr : @vs_reachable reject_bad ex_extractor ex_upload2.2).
  { apply (vs_reach_step (VsUpload (txt "zzzz") (txt "faq.txt") (txt "guides") 4 0 (txt "d2") ex_uuid)
             ex_upload.2); [|vm_compute; reflexivity].
    apply (vs_reach_step (VsUpload ex_content (txt "guide.txt") (txt "guides") 4 0 (txt "d1") ex_uuid)
             ex_guides); [|vm_compute; reflexivity].
    apply (vs_reach_step (VsCreateNamespace (txt "guides")) (mkChroma []));
      [apply vs_reach_init|vm_compute; reflexivity]. }
  destruct (@vector_store_invariant reject_bad ex_extractor ex_upload2.2 Hr) as [Hi Hdocs].
  split; [exact Hi|]. apply Hdocs. vm_compute. reflexivity.
Defined.
