(* ===== verification/Prompt.v ===== *)
(** * Prompt templates: [PromptManager] formatting

    src/llm/prompts/prompt_manager.py.  A template file holds a JSON object
    whose "sub_templates" key maps names to sub-templates; a sub-template
    may have a "template" string and an "order" (default 999).
    [get_template] (lines 16-55) reorders the sub-templates by "order";
    [format_sub_template] (lines 164-194) formats one of them;
    [format_selected_templates] (lines 196-239) ignores the requested ids,
    formats every sub-template that has a "template", in "order", skipping
    those whose formatting raises, and joins the parts with a blank line.

    The JSON file is an input: [None] is a missing or unreadable file, and
    the sub-templates are kept as an association list in the file's key
    order (Python's dict order).  [str.format] with keyword arguments is the interface
    [PyFormat]: [None] is a raised exception ([KeyError] for a missing
    parameter, [ValueError] for a malformed field).  Python's ascending
    stable [sort(key=...)] is [sort_desc] of [Rank] on the negated key.
    [prompt_manager_formatter] discharges the interface [PromptFormatter]
    that [Chat] states for [_prepare_chat]. *)

From stdpp Require Import base list decidable strings.
From Stdlib Require Import ZArith Lia Sorted Permutation.
From S2P Require Import Prelude Preprocess Store Rank Search Rag Chat.

(** [str.format] with keyword arguments. *)
Class PyFormat := { py_format : text -> list (text * text) -> option text }.

(** One sub-template object: its "template" and "order" keys. *)
Record sub_template := mkSubTemplate { st_template : option text; st_order : option Z }.

(** The loaded JSON object: its "sub_templates" value, if the key exists. *)
Record template_data := mkTemplateData { td_sub_templates : option (list (text * sub_template)) }.

(** [sub_template.get("order", 999)]. *)
Definition order_of (st : sub_template) : Z := default 999%Z (st_order st).

(** [items.sort(key=lambda x: x[2])]: ascending and stable, i.e. the
    descending stable sort on the negated key. *)
Definition sort_by_order {B} (order : B -> Z) (l : list B) : list B :=
  sort_desc (fun x => (- order x, 0)%Z) l.

Definition item_order (it : text * sub_template) : Z := order_of it.2.

(** The methods of [PromptManager], under the class's name space (its
    [format_selected_templates] is also the field of [PromptFormatter]). *)
Module PromptManager.

(** [get_template(template_id)] on the file's content. *)
Definition get_template (file : option template_data) : option template_data :=
  match file with
  | None => None
  | Some td =>
      match td_sub_templates td with
      | Some ((_ :: _) as subs) => Some (mkTemplateData (Some (sort_by_order item_order subs)))
      | _ => Some td
      end
  end.

(** ["template" in sub_template]. *)
Definition has_template (it : text * sub_template) : bool :=
  match st_template it.2 with Some _ => true | None => false end.

(** Format one sub-template; a raised exception is caught and yields no
    part. *)
Definition format_item `{PyFormat} (params : list (text * text)) (it : text * sub_template)
  : option text :=
  match st_template it.2 with Some tpl => py_format tpl params | None => None end.

Definition format_sub_template `{PyFormat} (file : option template_data) (sub_template_id : text)
    (params : list (text * text)) : option text :=
  match get_template file with
  | Some (mkTemplateData (Some subs)) =>
      match py_dict_get sub_template_id subs with
      | Some st => format_item params (sub_template_id, st)
      | None => None
      end
  | _ => None
  end.

Definition format_selected_templates `{PyFormat} (file : option template_data)
    (sub_template_ids : list text) (params : list (text * text)) : option text :=
  match get_template file with
  | Some (mkTemplateData (Some subs)) =>
      let items := sort_by_order item_order (List.filter has_template subs) in
      match omap (format_item params) items with
      | [] => None
      | parts => Some (py_join blank_line parts)
      end
  | _ => None
  end.

End PromptManager.

(** The prompt manager as the formatter [_prepare_chat] calls, over a
    directory of template files. *)
Definition prompt_manager_formatter `{PyFormat} (files : text -> option template_data)
  : PromptFormatter :=
  {| Chat.format_selected_templates t ids params :=
       PromptManager.format_selected_templates (files t) ids params |}.

(** ** Concrete templates *)

(** A formatter for templates without replacement fields. *)
Definition literal_format : PyFormat := {| py_format t _ := Some t |}.

(** Sub-templates in file order: "b" (order 2), "a" (order 1), "c" (no
    order, so 999), "x" (no "template" key), "d" (order 1). *)
Definition ex_template : template_data :=
  mkTemplateData (Some
    [(txt "b", mkSubTemplate (Some (txt "B")) (Some 2%Z));
     (txt "a", mkSubTemplate (Some (txt "A")) (Some 1%Z));
     (txt "c", mkSubTemplate (Some (txt "C")) None);
     (txt "x", mkSubTemplate None (Some 0%Z));
     (txt "d", mkSubTemplate (Some (txt "D")) (Some 1%Z))]).

(** A file whose only sub-template has no "template" key. *)
Definition broken_files (_ : text) : option template_data :=
  Some (mkTemplateData (Some [(txt "intro", mkSubTemplate None (Some 1%Z))])).

(** ** Lemmas *)

Lemma Sorted_iff_rel {B} (R R' : B -> B -> Prop) l :
  (forall x y, R x y <-> R' x y) -> Sorted R l -> Sorted R' l.
Proof.
  intros HR. induction 1 as [|x l Hs IH Hd]; constructor; [done|].
  destruct Hd; constructor. by apply HR.
Qed.

Section Order.
Context {B : Type} (order : B -> Z).

Lemma key_ge_neg x y : key_ge (fun x => (- order x, 0)%Z) x y <-> (order x <= order y)%Z.
Proof.
  simpl. unfold key_lt. simpl. rewrite orb_false_iff, andb_false_iff, Z.ltb_ge, Z.ltb_ge.
  split; [intros [? _]; lia|intros; split; [lia|right; lia]].
Qed.

Lemma key_neg_eq o a b :
  bool_decide ((- o, 0)%Z = (a, b)) = ((b =? 0) && (o =? - a))%Z.
Proof.
  case_bool_decide as E; symmetry.
  - injection E as E1 E2. apply andb_true_iff. split; apply Z.eqb_eq; lia.
  - apply andb_false_iff. destruct (Z.eqb_spec b 0) as [Hb|Hb].
    + right. apply Z.eqb_neq. intros Ho. apply E. f_equal; lia.
    + by left.
Qed.

Lemma with_key_neg a b l :
  with_key (fun x => (- order x, 0)%Z) (a, b) l =
  if (b =? 0)%Z then List.filter (fun x => (order x =? - a)%Z) l else [].
Proof.
  unfold with_key. induction l as [|x l IH]; simpl; [by destruct (b =? 0)%Z|].
  rewrite key_neg_eq, IH. by destruct (b =? 0)%Z.
Qed.
End Order.

Lemma omap_nil_iff {X Y} (f : X -> option Y) l :
  omap f l = [] <-> Forall (fun x => f x = None) l.
Proof.
  induction l as [|x l IH]; simpl; [split; [constructor|done]|].
  rewrite Forall_cons. destruct (f x); [split; [done|intros [[=] _]]|].
  rewrite IH. tauto.
Qed.

Lemma format_item_filter `{PyFormat} params l :
  Forall (fun it => PromptManager.format_item params it = None) (List.filter PromptManager.has_template l) <->
  Forall (fun it => PromptManager.format_item params it = None) l.
Proof.
  induction l as [|it l IH]; simpl; [done|].
  unfold PromptManager.has_template at 1. destruct (st_template it.2) eqn:E.
  - by rewrite !Forall_cons, IH.
  - rewrite Forall_cons, IH. unfold PromptManager.format_item. rewrite E. tauto.
Qed.

Lemma get_template_some subs :
  PromptManager.get_template (Some (mkTemplateData (Some subs))) =
  Some (mkTemplateData (Some (match subs with [] => [] | _ => sort_by_order item_order subs end))).
Proof. destruct subs; reflexivity. Qed.

(** The prompt from the file's sub-templates, sorted once. *)
Lemma format_selected_eq `{PyFormat} subs ids params :
  PromptManager.format_selected_templates (Some (mkTemplateData (Some subs))) ids params =
  match omap (PromptManager.format_item params)
          (sort_by_order item_order (List.filter PromptManager.has_template subs)) with
  | [] => None
  | parts => Some (py_join blank_line parts)
  end.
Proof.
  unfold PromptManager.format_selected_templates. rewrite get_template_some.
  destruct subs as [|it subs]; [reflexivity|]. unfold sort_by_order.
  rewrite (sort_desc_filter_sort _ _ (it :: subs)). reflexivity.
Qed.

(** When no prompt is produced. *)
Lemma format_selected_none_iff `{PyFormat} file ids params :
  PromptManager.format_selected_templates file ids params = None <->
  match file with
  | Some (mkTemplateData (Some subs)) =>
      Forall (fun it => PromptManager.format_item params it = None) subs
  | _ => True
  end.
Proof.
  destruct file as [[[subs|]]|]; [|done..].
  rewrite format_selected_eq, <- format_item_filter.
  transitivity (omap (PromptManager.format_item params)
                  (sort_by_order item_order (List.filter PromptManager.has_template subs)) = []).
  { case_match; split; congruence. }
  rewrite omap_nil_iff. unfold sort_by_order. by rewrite sort_desc_perm.
Qed.

(** ** Properties *)

(** The ordering of sub-templates is Python's stable ascending sort
    on "order": a list is [sort_by_order order l] exactly when it is sorted
    by ascending order and lists the elements of each order value as [l]
    does. *)
Theorem sort_by_order_spec {B} (order : B -> Z) l l' :
  l' = sort_by_order order l <->
  Sorted (fun x y => (order x <= order y)%Z) l' /\
  (forall o, List.filter (fun x => (order x =? o)%Z) l' = List.filter (fun x => (order x =? o)%Z) l).
Proof.
  unfold sort_by_order. split.
  - intros ->. split.
    + eapply Sorted_iff_rel; [|apply sort_desc_sorted]. intros x y. apply key_ge_neg.
    + intros o. pose proof (sort_desc_with_key (fun x => (- order x, 0)%Z) (- o, 0)%Z l) as E.
      rewrite !with_key_neg in E. simpl in E. by rewrite Z.opp_involutive in E.
  - intros [Hs Hk]. apply (sorted_same_keys_eq (fun x => (- order x, 0)%Z));
      [| apply sort_desc_sorted |].
    + eapply Sorted_iff_rel; [|exact Hs]. intros x y. symmetry. apply key_ge_neg.
    + intros [a b]. rewrite sort_desc_with_key, !with_key_neg.
      destruct (b =? 0)%Z; [apply Hk|done].
Qed.

(** Sorting twice is harmless: [format_selected_templates] gives the
    same prompt as formatting the file's sub-templates that have a
    "template", sorted once by "order" in the file's key order; the sort of
    [get_template] has no effect on it. *)
Theorem format_selected_presort `{PyFormat} subs ids params :
  PromptManager.format_selected_templates (Some (mkTemplateData (Some subs))) ids params =
  match omap (PromptManager.format_item params)
          (sort_by_order item_order (List.filter PromptManager.has_template subs)) with
  | [] => None
  | parts => Some (py_join blank_line parts)
  end.
Proof. apply format_selected_eq. Qed.

(** No prompt: [format_selected_templates] returns [None] exactly when
    the file is missing, has no "sub_templates" key, or no sub-template
    formats without raising (those without a "template" count as
    failing). *)
Theorem format_selected_none `{PyFormat} file ids params :
  PromptManager.format_selected_templates file ids params = None <->
  match file with
  | Some (mkTemplateData (Some subs)) =>
      Forall (fun it => PromptManager.format_item params it = None) subs
  | _ => True
  end.
Proof. apply format_selected_none_iff. Qed.

(** [_prepare_chat] raises [ValueError] when the template cannot be
    used: if the template file is missing, has no "sub_templates" key, or
    none of its sub-templates can be formatted whatever the parameters,
    then [_prepare_chat] with the prompt manager fails, whatever the store,
    the history and the retrieved contents. *)
Theorem prepare_chat_template_error `{PyUnicode} `{VectorChannel} `{PyFormat}
    (files : text -> option template_data) d req :
  match files (cr_template_id req) with
  | Some (mkTemplateData (Some subs)) =>
      Forall (fun it => forall params, PromptManager.format_item params it = None) subs
  | _ => True
  end ->
  @prepare_chat _ _ (prompt_manager_formatter files) d req = None.
Proof.
  intros Hf. unfold prepare_chat.
  destruct (rag_query_texts _ _ _ _) as [vq pq]. unfold get_rag_content. simpl.
  match goal with |- context [PromptManager.format_selected_templates ?f ?i ?p] =>
    assert (E : PromptManager.format_selected_templates f i p = None) end.
  { apply format_selected_none_iff. destruct (files (cr_template_id req)) as [[[subs|]]|]; [|done..].
    eapply Forall_impl; [exact Hf|]. intros it Hit. apply Hit. }
  by rewrite E.
Qed.

(** On a concrete file the parts come out by ascending "order", ties
    in file order, the default order 999 last, and a sub-template without
    "template" skipped; the requested ids play no part. *)
Example format_selected_example :
  @PromptManager.format_selected_templates literal_format (Some ex_template) [txt "c"] [] =
  Some (txt "A" ++ blank_line ++ txt "D" ++ blank_line ++ txt "B" ++ blank_line ++ txt "C").
Proof. vm_compute. reflexivity. Qed.

(** ** Concrete run *)

Lemma prepare_chat_template_error_witness :
  @prepare_chat cjk_unicode empty_vector (@prompt_manager_formatter literal_format broken_files)
    ex_db ex_chat = None.
Proof.
  apply (@prepare_chat_template_error cjk_unicode empty_vector literal_format broken_files).
  simpl. repeat constructor.
Defined.
