(* ===== verification/Stream.v ===== *)
(** * Model calls and the answer stream

    Models src/llm/services/model_service.py ([ModelService.call_model],
    [call_model_stream]), the two entry points of
    src/llm/services/chat_service.py built on [_prepare_chat]
    ([process_chat], lines 172-214, and the generator
    [process_stream_chat], lines 216-281) and the chat endpoints of
    src/llm/routers/chat_router.py ([ask_question], [stream_chat]).

    The OpenAI client is the interface [ModelClient]: a completion is a
    content or the text of the exception the client raised; a streamed
    completion is the sequence of [raw_event]s its iterator produces, a
    failure ending it.  A Python generator is modelled by the list of what it
    yields and how it ends ([outcome]: it returns, or raises).  The consumer
    of the stream (Starlette's [StreamingResponse]) may be cancelled when
    the client goes away; [cancel = Some k] says when: [k = 0] while
    [_prepare_chat] is awaited, so the [CancelledError] is raised inside the
    generator; [k >= 1] while the generator is suspended at the [yield] of
    its [k]-th frame, so the generator is closed with [GeneratorExit] at
    that [yield]; [None] that it never happens.  These are the only
    suspension points: [call_model_stream] iterates the synchronous OpenAI
    client and never awaits.

    [sse_decode] is the client's side, not code of the repository: the
    event-stream interpretation of the HTML standard (section 9.2.6) for
    [data] fields and LF line ends, against which the framing of
    [process_stream_chat] is proved to round-trip. *)

From stdpp Require Import base list decidable strings.
From Stdlib Require Import ZArith Lia.
From S2P Require Import Prelude Preprocess Store Rag Chat.

(** ** Exceptions and the model client *)

(** The exceptions raised along the chat path. *)
Inductive py_exception :=
| ValueError (msg : text)
| PyException (msg : text)      (* [Exception(msg)] *)
| CancelledError
| GeneratorExit.                 (* thrown at a [yield] by [aclose()] *)

(** [str(e)]. *)
Definition str_exc (e : py_exception) : text :=
  match e with ValueError m | PyException m => m | CancelledError | GeneratorExit => [] end.

(** [ModelConfig] of chat_router.py:10-14. *)
Record model_config := mkModelConfig {
  model_name : text; api_key : text; base_url : text }.

(** One element of the iterator of [create(stream=True)]: the text of
    [chunk.choices[0].delta.content] ([None] when [choices] is empty or the
    content is [None]), or an exception raised by the client. *)
Inductive raw_event :=
| RawChunk (content : option text)
| RawFailure (e : text).

(** The OpenAI client of [_get_client]: [create(stream=False)] gives the
    message content or raises ([inl] is [str(e)]), [create(stream=True)]
    gives the event iterator. *)
Class ModelClient := {
  complete : model_config -> list (text * text) -> text + text;
  stream_events : model_config -> list (text * text) -> list raw_event }.

(** ** ModelService *)

(** [call_model] (model_service.py:39-79): every failure is re-raised as
    [Exception(f"Model call failed: {str(e)}")]. *)
Definition call_model `{ModelClient} (cfg : model_config) (messages : list (text * text))
  : outcome py_exception text :=
  match complete cfg messages with
  | inr answer => Returned answer
  | inl e => Raised (PyException (txt "Model call failed: " ++ e))
  end.

(** [call_model_stream] (lines 81-123): yields each truthy
    [delta.content]; a failure of the client ends the generator with
    [Exception(f"Model stream call failed: {str(e)}")]. *)
Fixpoint model_chunks (evs : list raw_event) : list text * outcome py_exception unit :=
  match evs with
  | [] => ([], Returned tt)
  | RawChunk (Some (c :: cs)) :: evs' =>
      let '(l, o) := model_chunks evs' in ((c :: cs) :: l, o)
  | RawChunk _ :: evs' => model_chunks evs'
  | RawFailure e :: _ => ([], Raised (PyException (txt "Model stream call failed: " ++ e)))
  end.

Definition call_model_stream `{ModelClient} (cfg : model_config)
    (messages : list (text * text)) : list text * outcome py_exception unit :=
  model_chunks (stream_events cfg messages).

(** ** ChatService *)

Definition lf : N := 10%N.

(** [f"data: {chunk}\n\n"] (chat_service.py:259). *)
Definition sse_frame (chunk : text) : text := txt "data: " ++ chunk ++ [lf; lf].

(** ["data: [DONE]\n\n"] (line 271) and [f"data: [ERROR] {str(e)}\n\n"]
    (line 278). *)
Definition done_frame : text := sse_frame (txt "[DONE]").
Definition error_frame (e : py_exception) : text := sse_frame (txt "[ERROR] " ++ str_exc e).

(** The only exception of [_prepare_chat]: an empty prompt (line 149). *)
Definition prepare_chat_exc (req : chat_request) : py_exception :=
  ValueError (txt "Failed to format templates from " ++ cr_template_id req).

(** The frames a failure of the model stream ends with: the [except
    Exception] branch (lines 274-281) yields the error frame and re-raises. *)
Definition tail_frames (o : outcome py_exception unit) : list text :=
  match o with Returned _ => [] | Raised e => [error_frame e] end.

(** The [async for] loop of lines 251-265 after [n] frames: each chunk is
    framed and yielded.  A cancellation while the generator is suspended at
    that [yield] does not reach the generator's [except
    asyncio.CancelledError] (lines 267-273): the consumer's task is
    cancelled and the generator is closed by [aclose()], which throws
    [GeneratorExit] at the [yield]; neither [except Exception] (lines 262
    and 274) nor [except asyncio.CancelledError] catches it, so the
    generator ends there, without the end marker.  The check
    [asyncio.current_task().cancelled()] of line 254 is [False] in a
    running task and has no effect. *)
Fixpoint forward_chunks (n : nat) (cancel : option nat) (chunks : list text)
    (tail : outcome py_exception unit) : list text * outcome py_exception unit :=
  match chunks with
  | [] => (tail_frames tail, tail)
  | c :: cs =>
      if bool_decide (cancel = Some (S n)) then ([sse_frame c], Raised GeneratorExit)
      else let '(fs, o) := forward_chunks (S n) cancel cs tail in (sse_frame c :: fs, o)
  end.

Section ChatService.
Context `{PyUnicode} `{VectorChannel} `{PromptFormatter} `{ModelClient}.

(** [process_chat] (lines 172-214): the answer and the two channel
    contents, [{"answer": response, **rag_contents}]; any failure is
    re-raised as [Exception(f"Chat processing failed: {str(e)}")]. *)
Definition process_chat (d : db) (cfg : model_config) (req : chat_request)
  : outcome py_exception (list (text * text)) :=
  let fail e := Raised (PyException (txt "Chat processing failed: " ++ str_exc e)) in
  match prepare_chat d req with
  | None => fail (prepare_chat_exc req)
  | Some (_, (vector_content, precise_content), messages) =>
      match call_model cfg messages with
      | Returned answer =>
          Returned [(txt "answer", answer); (txt "vector_content", vector_content);
                    (txt "precise_content", precise_content)]
      | Raised e => fail e
      end
  end.

(** [process_stream_chat] (lines 216-281): the frames it yields and how
    the generator ends.  A cancellation during [_prepare_chat] raises
    [CancelledError] inside the generator; its [except] branch (lines
    267-273) yields the end marker and returns. *)
Definition process_stream_chat (d : db) (cfg : model_config) (req : chat_request)
    (cancel : option nat) : list text * outcome py_exception unit :=
  if bool_decide (cancel = Some 0) then ([done_frame], Returned tt)
  else
    match prepare_chat d req with
    | None => let e := prepare_chat_exc req in ([error_frame e], Raised e)
    | Some (_, _, messages) =>
        let '(chunks, tail) := call_model_stream cfg messages in
        forward_chunks 0 cancel chunks tail
    end.

(** [ask_question] (chat_router.py:51-67): the answer, or status 500 with
    [str(e)]. *)
Definition ask_question (d : db) (cfg : model_config) (req : chat_request)
  : http_response text (list (text * text)) :=
  match process_chat d cfg req with
  | Returned body => HttpOk body
  | Raised e => HttpError 500 (str_exc e)
  end.

(** [stream_chat] (lines 69-87): a [StreamingResponse] over the generator,
    which runs only when the body is sent, after the handler has returned,
    so the handler's [except] never sees a failure of the stream. *)
Definition stream_chat (d : db) (cfg : model_config) (req : chat_request)
    (cancel : option nat) : http_response text (list text * outcome py_exception unit) :=
  HttpOk (process_stream_chat d cfg req cancel).

End ChatService.

(** ** The client's decoding of the event stream *)

(** The complete lines of a text (ended by LF) and the unterminated rest. *)
Fixpoint lines_of (t : text) : list text * text :=
  match t with
  | [] => ([], [])
  | c :: t' =>
      let '(ls, rest) := lines_of t' in
      if (c =? lf)%N then ([] :: ls, rest)
      else match ls with
           | l :: ls' => ((c :: l) :: ls', rest)
           | [] => ([], c :: rest)
           end
  end.

(** The value of a [data] field line ("data:" and an optional space), if
    the line is one. *)
Definition data_field (line : text) : option text :=
  if starts_with (txt "data:") line then
    Some (match drop 5 line with 32%N :: v => v | v => v end)
  else if bool_decide (line = txt "data") then Some [] else None.

(** Field lines accumulate the data buffer ([None]: empty); a blank line
    dispatches it; other lines (comments, other fields) are ignored. *)
Fixpoint dispatch (buf : option text) (ls : list text) : list text :=
  match ls with
  | [] => []
  | [] :: ls' =>
      match buf with Some b => b :: dispatch None ls' | None => dispatch None ls' end
  | l :: ls' =>
      match data_field l with
      | Some v => dispatch (Some (match buf with Some b => b ++ [lf] ++ v | None => v end)) ls'
      | None => dispatch buf ls'
      end
  end.

Definition sse_decode (t : text) : list text := dispatch None (lines_of t).1.

(** The text of the stream's events, as the specification's token stream:
    the content of each chunk, empty for none. *)
Definition delta_text (ev : raw_event) : text :=
  match ev with RawChunk c => default [] c | RawFailure _ => [] end.

(** ** Concrete clients *)

(** A client that answers with the prompt and streams it in two pieces,
    with an empty and a missing delta between them. *)
Definition echo_client : ModelClient := {|
  complete _ msgs := inr (default [] (list.last msgs ≫= fun m => Some m.2));
  stream_events _ _ := [RawChunk (Some (txt "Migraine ")); RawChunk None;
                        RawChunk (Some []); RawChunk (Some (txt "relief"))] |}.


Definition ex_config : model_config := mkModelConfig (txt "m") (txt "k") (txt "u").


(** A model answer spanning two lines. *)
Definition two_lines : text := txt "line1" ++ [lf] ++ txt "line2".

(** ** Lemmas *)

Lemma lines_of_line p t :
  lf ∉ p -> lines_of (p ++ lf :: t) = (p :: (lines_of t).1, (lines_of t).2).
Proof.
  induction p as [|c p IH]; intros Hp; simpl.
  - by destruct (lines_of t).
  - apply not_elem_of_cons in Hp as [Hc Hp]. rewrite IH by done.
    by rewrite (proj2 (N.eqb_neq c lf) (not_eq_sym Hc)).
Qed.

Lemma data_prefix_no_lf : lf ∉ txt "data: ".
Proof. by decide_goal. Qed.

Lemma data_field_data c : data_field (txt "data: " ++ c) = Some c.
Proof. reflexivity. Qed.

Lemma dispatch_field buf l v ls :
  data_field l = Some v ->
  dispatch buf (l :: ls) =
    dispatch (Some (match buf with Some b => b ++ [lf] ++ v | None => v end)) ls.
Proof.
  destruct l as [|n l]; [discriminate|]. simpl. by intros ->.
Qed.

(** A frame whose chunk has no line feed is one data line and a blank
    line. *)
Lemma lines_of_frame c t :
  lf ∉ c ->
  lines_of (sse_frame c ++ t) = ((txt "data: " ++ c) :: [] :: (lines_of t).1, (lines_of t).2).
Proof.
  intros Hc.
  replace (sse_frame c ++ t) with ((txt "data: " ++ c) ++ lf :: lf :: t)
    by (unfold sse_frame; by rewrite <- !app_assoc).
  rewrite lines_of_line.
  - simpl. by destruct (lines_of t).
  - rewrite elem_of_app. intros [?|?]; [by apply data_prefix_no_lf|done].
Qed.

Lemma decode_frames cs t :
  Forall (fun c => lf ∉ c) cs ->
  dispatch None (lines_of (concat (sse_frame <$> cs) ++ t)).1 =
    cs ++ dispatch None (lines_of t).1.
Proof.
  induction 1 as [|c cs Hc _ IH]; [done|].
  change (concat (sse_frame <$> c :: cs)) with (sse_frame c ++ concat (sse_frame <$> cs)).
  rewrite <- app_assoc, lines_of_frame by done. cbn [fst].
  rewrite dispatch_field with (v := c) by apply data_field_data. simpl. by rewrite IH.
Qed.

Lemma model_chunks_ok evs :
  Forall (fun ev => exists c, ev = RawChunk c) evs ->
  model_chunks evs = (filter (fun c : text => c <> []) (delta_text <$> evs), Returned tt).
Proof.
  induction 1 as [|ev evs [c ->] _ IH]; [done|].
  destruct c as [[|x c]|]; simpl; rewrite ?IH; simpl; rewrite ?filter_cons;
    repeat case_decide; naive_solver.
Qed.

Lemma concat_filter_nonempty (l : list text) :
  concat (filter (fun c : text => c <> []) l) = concat l.
Proof.
  induction l as [|x l IH]; [done|]. rewrite filter_cons. simpl.
  case_decide; simpl; rewrite IH; [done|]. destruct x; naive_solver.
Qed.

(** No cancellation inside the remaining chunks: every chunk is framed,
    then the stream's end. *)
Lemma forward_chunks_open n cancel cs t :
  (forall k, cancel = Some k -> k <= n \/ n + length cs < k) ->
  forward_chunks n cancel cs t = ((sse_frame <$> cs) ++ tail_frames t, t).
Proof.
  revert n. induction cs as [|c cs IH]; intros n Hk; [done|]. simpl.
  rewrite bool_decide_false by (intros Hc; specialize (Hk _ Hc); simpl in Hk; lia).
  rewrite IH; [done|]. intros k Hc. specialize (Hk k Hc). simpl in Hk. lia.
Qed.

(** A cancellation at the [k]-th frame: the chunks up to it, and the
    generator is closed there. *)
Lemma forward_chunks_cancel n k cs t :
  n < k <= n + length cs ->
  forward_chunks n (Some k) cs t = (sse_frame <$> take (k - n) cs, Raised GeneratorExit).
Proof.
  revert n. induction cs as [|c cs IH]; intros n Hk; simpl in *; [lia|].
  case_bool_decide as Heq.
  - injection Heq as ->. by rewrite Nat.sub_succ_l, Nat.sub_diag by lia.
  - rewrite IH by (assert (k <> S n) by congruence; lia).
    replace (k - n) with (S (k - S n)) by lia. done.
Qed.

(** Every frame of a chunk without a line feed is decoded to the chunk. *)
Lemma sse_decode_frames cs :
  Forall (fun c => lf ∉ c) cs -> sse_decode (concat (sse_frame <$> cs)) = cs.
Proof.
  intros Hcs. unfold sse_decode.
  rewrite <- (app_nil_r (concat (sse_frame <$> cs))), decode_frames by done.
  apply app_nil_r.
Qed.

Section StreamFacts.
Context `{PyUnicode} `{VectorChannel} `{PromptFormatter} `{ModelClient}.

(** What the generator does once [_prepare_chat] has returned. *)
Lemma process_stream_prepared d cfg req p rc msgs cancel :
  cancel <> Some 0 -> prepare_chat d req = Some (p, rc, msgs) ->
  process_stream_chat d cfg req cancel =
    forward_chunks 0 cancel (call_model_stream cfg msgs).1 (call_model_stream cfg msgs).2.
Proof.
  intros Hc Hp. unfold process_stream_chat. rewrite bool_decide_false, Hp by done.
  by destruct (call_model_stream cfg msgs).
Qed.

End StreamFacts.

(** A line feed inside a chunk ends the data line: the text after it is
    read as a line of its own and, not being a [data] field, dropped. *)
Lemma sse_decode_newline a b :
  lf ∉ a -> lf ∉ b -> data_field b = None ->
  sse_decode (sse_frame (a ++ [lf] ++ b)) = [a].
Proof.
  intros Ha Hb Hf. unfold sse_decode.
  replace (sse_frame (a ++ [lf] ++ b)) with ((txt "data: " ++ a) ++ lf :: (b ++ lf :: [lf]))
    by (unfold sse_frame; by rewrite <- !app_assoc).
  rewrite lines_of_line, lines_of_line by (rewrite ?elem_of_app; intuition auto using data_prefix_no_lf).
  cbn [fst]. rewrite dispatch_field with (v := a) by apply data_field_data.
  destruct b as [|n b]; [done|]. simpl in *. by rewrite Hf.
Qed.

(** ** Theorems *)

(** C20: Round trip of the stream's framing, and where it ends: a client
    that decodes the event stream gets back exactly the chunks that
    [process_stream_chat] framed with [f"data: {chunk}\n\n"], in order,
    when no chunk holds a line feed; a chunk holding one loses the text
    after it (when that text is not itself a [data] field), since the
    frame is not escaped. *)
Theorem sse_roundtrip :
  (forall cs, Forall (fun c => lf ∉ c) cs -> sse_decode (concat (sse_frame <$> cs)) = cs) /\
  (forall a b, lf ∉ a -> lf ∉ b -> data_field b = None ->
     sse_decode (sse_frame (a ++ [lf] ++ b)) = [a]).
Proof. split; [apply sse_decode_frames | apply sse_decode_newline]. Qed.

Section StreamTheorems.
Context `{PyUnicode} `{VectorChannel} `{PromptFormatter} `{ModelClient}.

(** C19: An uncancelled stream whose model deltas hold no line feed
    delivers the whole answer: the generator yields one frame per non-empty
    delta and no end marker, returns normally, and the decoded events
    concatenate to the concatenated deltas. *)
Theorem process_stream_complete d cfg req p rc msgs :
  prepare_chat d req = Some (p, rc, msgs) ->
  Forall (fun ev => exists c, ev = RawChunk c /\ lf ∉ default [] c) (stream_events cfg msgs) ->
  process_stream_chat d cfg req None =
    (sse_frame <$> (call_model_stream cfg msgs).1, Returned tt) /\
  concat (sse_decode (concat (process_stream_chat d cfg req None).1)) =
    concat (delta_text <$> stream_events cfg msgs).
Proof.
  intros Hp Hev. rewrite (process_stream_prepared d cfg req p rc msgs) by done.
  unfold call_model_stream.
  rewrite model_chunks_ok by (eapply List.Forall_impl; [|exact Hev]; naive_solver).
  rewrite forward_chunks_open by done. simpl. rewrite app_nil_r. split; [done|].
  rewrite sse_decode_frames, concat_filter_nonempty; [done|].
  apply Forall_forall. intros c [_ (ev & -> & Hin)%list_elem_of_fmap]%list_elem_of_filter.
  by destruct (Forall_elem _ _ _ Hev Hin) as (c' & -> & Hc).
Qed.

(** C18: Cancellation, against the end marker that section 5 of the
    specification requires exactly once: a client that goes away while
    [_prepare_chat] is awaited ([k = 0]) gets the end marker
    ["data: [DONE]\n\n"] alone and the generator returns; one that goes
    away after the [k]-th frame ([k >= 1]) has been sent exactly the first
    [k] chunk frames, no end marker, and the generator ends with the
    [GeneratorExit] of its closing (chat_service.py:259 and 267-273). *)
Theorem process_stream_cancel d cfg req p rc msgs k :
  prepare_chat d req = Some (p, rc, msgs) ->
  k <= length (call_model_stream cfg msgs).1 ->
  process_stream_chat d cfg req (Some k) =
    if bool_decide (k = 0) then ([done_frame], Returned tt)
    else (sse_frame <$> take k (call_model_stream cfg msgs).1, Raised GeneratorExit).
Proof.
  intros Hp Hk. destruct k as [|k]; [done|].
  rewrite (process_stream_prepared d cfg req p rc msgs) by done.
  rewrite forward_chunks_cancel by lia. done.
Qed.


End StreamTheorems.

(** ** Witnesses *)

Lemma sse_roundtrip_witness :
  sse_decode (concat (sse_frame <$> [txt "Migraine "; txt "relief"])) =
    [txt "Migraine "; txt "relief"] /\
  sse_decode (sse_frame two_lines) = [txt "line1"].
Proof.
  split.
  - apply (proj1 sse_roundtrip). decide_goal.
  - apply (proj2 sse_roundtrip (txt "line1") (txt "line2")); [decide_goal | decide_goal | reflexivity].
Defined.

Lemma process_stream_complete_witness :
  @process_stream_chat cjk_unicode empty_vector append_precise echo_client ex_db ex_config ex_chat None =
    ([sse_frame (txt "Migraine "); sse_frame (txt "relief")], Returned tt) /\
  concat (sse_decode (concat (@process_stream_chat cjk_unicode empty_vector append_precise
                                echo_client ex_db ex_config ex_chat None).1)) =
    txt "Migraine relief".
Proof.
  apply (@process_stream_complete cjk_unicode empty_vector append_precise echo_client ex_db
           ex_config ex_chat ex_prepared.1.1 ex_prepared.1.2 ex_prepared.2).
  - vm_compute. reflexivity.
  - repeat constructor; eexists; (split; [reflexivity | decide_goal]).
Defined.

Lemma process_stream_cancel_witness :
  @process_stream_chat cjk_unicode empty_vector append_precise echo_client ex_db ex_config ex_chat
    (Some 1) = ([sse_frame (txt "Migraine ")], Raised GeneratorExit) /\
  @process_stream_chat cjk_unicode empty_vector append_precise echo_client ex_db ex_config ex_chat
    (Some 0) = ([done_frame], Returned tt).
Proof.
  split; [apply (@process_stream_cancel cjk_unicode empty_vector append_precise echo_client ex_db
                   ex_config ex_chat ex_prepared.1.1 ex_prepared.1.2 ex_prepared.2 1)
         |apply (@process_stream_cancel cjk_unicode empty_vector append_precise echo_client ex_db
                   ex_config ex_chat ex_prepared.1.1 ex_prepared.1.2 ex_prepared.2 0)];
    vm_compute; first [reflexivity | lia].
Defined.

