(* ===== verification/Router.v ===== *)
(** * The HTTP layer of the knowledge store

    Models src/llm/routers/precise_router.py: the Pydantic request models
    and their [Field] constraints (lines 12-36), and the eight handlers
    (lines 53-264), each calling one operation of [PreciseService]
    ([Store], [Search]) and turning a failed result into an
    [HTTPException].  Between them sits the service's own error handling
    (src/llm/services/precise_service.py): [create_category],
    [create_entry], [delete_category], [list_entries] and [search] catch
    every exception and return [{"success": False, "message": ...}];
    [update_category] and [update_entry] catch nothing, so a failed commit
    there escapes the handler and the application's middleware answers
    500.

    A request is a [precise_request]; [handle] serves it on the tables and
    returns the response and the tables after it; [serve] serves a
    sequence.  Messages are kept by their f-string template ([detail]),
    not as Chinese text.  Random uids are inputs, as in [Store]. *)

From stdpp Require Import base list decidable strings.
From Stdlib Require Import ZArith Lia.
From S2P Require Import Prelude Preprocess Store Rank Search.

(** ** Messages and results *)

Inductive store_object := ObjCategory | ObjEntry.

Inductive service_call :=
| CallCreateCategory | CallCreateEntry | CallDeleteCategory | CallUpdateCategory
| CallUpdateEntry | CallListCategories | CallListEntries | CallSearch.

(** The [message] of a failed result, or the [detail] of an error
    response: [f"大类不存在: {uid}"] / [f"条目不存在: {uid}"]; the
    [f"...失败: {str(e)}"] of an [except] branch; the [str(exc)] of a
    validation error (status 422, main.py:67-73); the [str(e)] of an
    exception escaping the handler, which main.py's [log_requests]
    middleware answers with a 500 (main.py:57-64, [App.log_requests]). *)
Inductive detail :=
| NotFoundMsg (what : store_object) (uid : text)
| FailedMsg (c : service_call)
| ValidationFailed
| InternalServerError.

(** A service result: [success] with its data, [success: False] with its
    message, or an exception the service does not catch. *)
Inductive service_result (A : Type) :=
| Success (a : A)
| Failure (msg : detail)
| Unhandled.
Arguments Success {A} a.
Arguments Failure {A} msg.
Arguments Unhandled {A}.

(** The [data] of a successful response. *)
Inductive response_body :=
| BodyCategory (c : PreciseCategory)
| BodyEntry (e : PreciseEntry) (keywords : list text)
| BodyDeleted
| BodyCategories (cs : list PreciseCategory)
| BodyEntries (c : PreciseCategory) (entries : list (PreciseEntry * list text))
| BodySearch (r : search_result).

Definition response := http_response detail response_body.

Definition call_object (c : service_call) : store_object :=
  match c with CallUpdateEntry => ObjEntry | _ => ObjCategory end.

(** A service method whose body is one [try ... except Exception] around
    the session: a missing row is its early [return] with the not-found
    message, any other failure is caught and rolled back. *)
Definition handled_call {A} (c : service_call) (m : tx A) (d : db) : service_result A * db :=
  match run_tx m d with
  | (Ok a, d') => (Success a, d')
  | (Err (NotFound u), d') => (Failure (NotFoundMsg (call_object c) u), d')
  | (Err IntegrityError, d') => (Failure (FailedMsg c), d')
  end.

(** A service method without [try] ([update_category], [update_entry]):
    a failed commit propagates out of the [async with] block, which rolls
    the session back. *)
Definition unhandled_call {A} (c : service_call) (m : tx A) (d : db) : service_result A * db :=
  match run_tx m d with
  | (Ok a, d') => (Success a, d')
  | (Err (NotFound u), d') => (Failure (NotFoundMsg (call_object c) u), d')
  | (Err IntegrityError, d') => (Unhandled, d')
  end.

(** [if not result["success"]: raise HTTPException(status_code, detail=
    result["message"])]; an uncaught exception becomes a 500. *)
Definition respond {A} (status : Z) (body : A -> response_body)
    (r : service_result A * db) : response * db :=
  match r with
  | (Success a, d') => (HttpOk (body a), d')
  | (Failure m, d') => (HttpError status m, d')
  | (Unhandled, d') => (HttpError 500 InternalServerError, d')
  end.

(** ** Request models *)

(** [EntryCreateRequest] as received: absent optional fields are [None]. *)
Record entry_create_body := mkEntryCreateBody {
  ecb_description : text; ecb_content : text; ecb_keywords : list text;
  ecb_weight : option Z; ecb_is_enabled : option bool }.

(** The validated model: [weight] defaults to 50 and [is_enabled] to
    [True]. *)
Record EntryCreateRequest := mkEntryCreateRequest {
  ec_description : text; ec_content : text; ec_keywords : list text;
  ec_weight : Z; ec_is_enabled : bool }.

(** [SearchRequest] as received, and validated ([max_results] defaults to
    5, [search_depth] to 2, [category_uids] to [None]). *)
Record search_body := mkSearchBody {
  sb_query : text; sb_category_uids : option (list text);
  sb_max_results : option Z; sb_search_depth : option Z }.

Record SearchRequest := mkSearchRequest {
  sr_query : text; sr_category_uids : option (list text);
  sr_max_results : Z; sr_search_depth : Z }.

(** [weight: int = Field(50, ge=0, le=99)] (line 22). *)
Definition validate_entry_create (b : entry_create_body) : option EntryCreateRequest :=
  let w := default 50%Z (ecb_weight b) in
  if (0 <=? w)%Z && (w <=? 99)%Z
  then Some (mkEntryCreateRequest (ecb_description b) (ecb_content b) (ecb_keywords b) w
               (default true (ecb_is_enabled b)))
  else None.

(** [EntryUpdateRequest] (lines 25-30): every field optional, a given
    [weight] in [0, 99]. *)
Definition validate_entry_update (u : entry_update) : option entry_update :=
  match upd_weight u with
  | Some w => if (0 <=? w)%Z && (w <=? 99)%Z then Some u else None
  | None => Some u
  end.

(** [max_results: int = Field(5, ge=0)], [search_depth: int = Field(2,
    ge=1, le=3)] (lines 35-36). *)
Definition validate_search (b : search_body) : option SearchRequest :=
  let m := default 5%Z (sb_max_results b) in
  let sd := default 2%Z (sb_search_depth b) in
  if (0 <=? m)%Z && (1 <=? sd)%Z && (sd <=? 3)%Z
  then Some (mkSearchRequest (sb_query b) (sb_category_uids b) m sd)
  else None.

(** ** Handlers *)

Section Handlers.
Context `{PyUnicode}.

(** [PreciseService.search] seen by the router: the [except] branch is a
    failed result. *)
Definition service_search (d : db) (r : SearchRequest) : service_result search_result * db :=
  match search d (sr_query r) (default [] (sr_category_uids r)) (sr_max_results r)
          (sr_search_depth r) with
  | SearchFailed => (Failure (FailedMsg CallSearch), d)
  | res => (Success res, d)
  end.

(** [create_category] (lines 53-71). *)
Definition create_category_handler (name uid : text) (d : db) : response * db :=
  respond 400 BodyCategory (handled_call CallCreateCategory (create_category name uid) d).

(** [create_entry] (lines 73-115): a body outside the model is refused
    with 422 before the handler runs. *)
Definition create_entry_handler (category_uid : text) (b : entry_create_body) (uid : text)
    (d : db) : response * db :=
  match validate_entry_create b with
  | None => (HttpError 422 ValidationFailed, d)
  | Some r =>
      respond 400 (fun '(e, ks) => BodyEntry e ks)
        (handled_call CallCreateEntry
           (create_entry category_uid (ec_description r) (ec_content r) (ec_keywords r)
              (ec_weight r) (ec_is_enabled r) uid) d)
  end.

(** [delete_category] (lines 117-134). *)
Definition delete_category_handler (uid : text) (d : db) : response * db :=
  respond 404 (fun _ => BodyDeleted) (handled_call CallDeleteCategory (delete_category uid) d).

(** [update_category] (lines 136-155). *)
Definition update_category_handler (uid name : text) (d : db) : response * db :=
  respond 404 BodyCategory (unhandled_call CallUpdateCategory (update_category uid name) d).

(** [update_entry] (lines 157-187). *)
Definition update_entry_handler (uid : text) (u : entry_update) (d : db) : response * db :=
  match validate_entry_update u with
  | None => (HttpError 422 ValidationFailed, d)
  | Some u' =>
      respond 404 (fun '(e, ks) => BodyEntry e ks)
        (unhandled_call CallUpdateEntry (update_entry uid u') d)
  end.

(** [list_categories] (lines 189-202): the result is returned unchecked. *)
Definition list_categories_handler (d : db) : response * db :=
  match run_tx list_categories d with
  | (Ok cs, d') => (HttpOk (BodyCategories cs), d')
  | (Err _, d') => (HttpOk (BodyCategories []), d')
  end.

(** [list_entries] (lines 204-223). *)
Definition list_entries_handler (uid : text) (d : db) : response * db :=
  respond 404 (fun '(c, es) => BodyEntries c es)
    (handled_call CallListEntries (list_entries uid) d).

(** [search] (lines 225-264). *)
Definition search_handler (b : search_body) (d : db) : response * db :=
  match validate_search b with
  | None => (HttpError 422 ValidationFailed, d)
  | Some r => respond 400 BodySearch (service_search d r)
  end.

End Handlers.

(** ** The router *)

Inductive precise_request :=
| PostCategory (name uid : text)
| PostEntry (category_uid : text) (body : entry_create_body) (uid : text)
| DeleteCategory (uid : text)
| PutCategory (uid name : text)
| PutEntry (uid : text) (body : entry_update)
| GetCategories
| GetEntries (category_uid : text)
| PostSearch (body : search_body).

Definition handle `{PyUnicode} (r : precise_request) (d : db) : response * db :=
  match r with
  | PostCategory n u => create_category_handler n u d
  | PostEntry c b u => create_entry_handler c b u d
  | DeleteCategory u => delete_category_handler u d
  | PutCategory u n => update_category_handler u n d
  | PutEntry u b => update_entry_handler u b d
  | GetCategories => list_categories_handler d
  | GetEntries u => list_entries_handler u d
  | PostSearch b => search_handler b d
  end.

(** Requests served one after the other. *)
Definition serve `{PyUnicode} (rs : list precise_request) (d : db) : db :=
  fold_left (fun d r => (handle r d).2) rs d.

(** ** Concrete requests *)

Definition missing_uid : text := txt "cat_missing".

Definition ex_search_body : search_body := mkSearchBody (txt "I have a migraine") None None None.

(** ** Lemmas *)

Lemma handled_call_db {A} c (m : tx A) d : (handled_call c m d).2 = (run_tx m d).2.
Proof. unfold handled_call. by destruct (run_tx m d) as [[a|[u|]] d']. Qed.

Lemma unhandled_call_db {A} c (m : tx A) d : (unhandled_call c m d).2 = (run_tx m d).2.
Proof. unfold unhandled_call. by destruct (run_tx m d) as [[a|[u|]] d']. Qed.

Lemma respond_db {A} s (b : A -> response_body) r : (respond s b r).2 = r.2.
Proof. by destruct r as [[a|m|] d']. Qed.

(** A response other than 200 from a service call comes with the tables
    it started from. *)
Lemma respond_handled_fail {A} s b c (m : tx A) d :
  http_status (respond s b (handled_call c m d)).1 <> 200%Z ->
  (respond s b (handled_call c m d)).2 = d.
Proof.
  unfold respond, handled_call, run_tx. by destruct (m d) as [[a d']|[u|]].
Qed.

Lemma respond_unhandled_fail {A} s b c (m : tx A) d :
  http_status (respond s b (unhandled_call c m d)).1 <> 200%Z ->
  (respond s b (unhandled_call c m d)).2 = d.
Proof.
  unfold respond, unhandled_call, run_tx. by destruct (m d) as [[a d']|[u|]].
Qed.

Lemma list_entries_db uid d : (run_tx (list_entries uid) d).2 = d.
Proof. unfold run_tx, list_entries, tx_bind, tx_get. simpl. by destruct (find_category uid d). Qed.

Section RouterLemmas.
Context `{PyUnicode}.

Lemma service_search_db d r : (service_search d r).2 = d.
Proof. unfold service_search. by destruct (search _ _ _ _ _). Qed.

(** Every request either leaves the tables as they were or is one step of
    the store's state machine. *)
Lemma handle_effect r d : (handle r d).2 = d \/ exists o, (handle r d).2 = apply_op o d.
Proof.
  destruct r as [n u|c b u|u|u n|u b| |u|b]; simpl.
  - right. exists (OpCreateCategory n u). unfold create_category_handler.
    by rewrite respond_db, handled_call_db.
  - unfold create_entry_handler. destruct (validate_entry_create b) as [r|]; [|by left].
    right. eexists (OpCreateEntry _ _ _ _ _ _ _). by rewrite respond_db, handled_call_db.
  - right. exists (OpDeleteCategory u). unfold delete_category_handler.
    by rewrite respond_db, handled_call_db.
  - right. exists (OpUpdateCategory u n). unfold update_category_handler.
    by rewrite respond_db, unhandled_call_db.
  - unfold update_entry_handler. destruct (validate_entry_update b) as [u'|]; [|by left].
    right. exists (OpUpdateEntry u u'). by rewrite respond_db, unhandled_call_db.
  - left. unfold list_categories_handler, run_tx. done.
  - left. unfold list_entries_handler. by rewrite respond_db, handled_call_db, list_entries_db.
  - left. unfold search_handler. destruct (validate_search b); [|done].
    by rewrite respond_db, service_search_db.
Qed.

Lemma serve_wf_from rs d : db_wf d -> db_wf (serve rs d).
Proof.
  revert d. induction rs as [|r rs IH]; intros d Hd; [done|]. simpl. apply IH.
  destruct (handle_effect r d) as [->|[o ->]]; [done|]. by apply apply_op_wf.
Qed.

(** Every entry the search selects is a row of the entry table. *)
Lemma search_hits_stored d q cu sd hits h :
  search_hits d q cu sd = Some hits -> h ∈ hits -> hit_entry h ∈ precise_entries d.
Proof.
  intros (s & _ & <- & _ & _ & _ & _ & Hall)%search_hits_inv Hh.
  destruct (Forall_elem _ _ _ Hall Hh) as [_ Hf].
  by apply fetch_entries_spec in Hf as [He _].
Qed.

(** In a well-formed store every selected entry has its category, so
    building the [entry_data] dicts cannot raise. *)
Lemma search_not_failed d q cu m sd : db_wf d -> search d q cu m sd <> SearchFailed.
Proof.
  intros Hwf. unfold search. case_match; [discriminate|].
  destruct (search_hits_some d q cu sd) as [hits Hh]. rewrite Hh. simpl.
  destruct (mapM_is_Some_2 (to_entry_data d) hits) as [rs ->]; [|discriminate].
  apply Forall_forall. intros h Hin%(search_hits_stored d q cu sd hits h Hh).
  destruct Hwf as (_ & _ & _ & _ & _ & _ & _ & Hcat & _).
  apply (Forall_elem _ _ _ Hcat), list_elem_of_fmap in Hin as (c & Hc & Hin).
  unfold to_entry_data. simpl.
  destruct (List.find _ _) eqn:E; [by eexists|].
  eapply find_none in E; [|by apply list_elem_of_In]. by rewrite bool_decide_true in E.
Qed.

End RouterLemmas.

(** ** Theorems *)

(** The request models as types: a search body is accepted exactly
    when, defaults applied, [max_results >= 0] and [1 <= search_depth <= 3],
    and then it is passed on unchanged; an accepted entry body, created or
    updated, carries a weight in [0, 99] (50 when absent), so the weight
    clamp of [PreciseService] never changes a weight that came through the
    router. *)
Theorem request_models_typed :
  (forall b r, validate_search b = Some r <->
     r = mkSearchRequest (sb_query b) (sb_category_uids b)
           (default 5%Z (sb_max_results b)) (default 2%Z (sb_search_depth b)) /\
     (0 <= sr_max_results r)%Z /\ (1 <= sr_search_depth r <= 3)%Z) /\
  (forall b r, validate_entry_create b = Some r ->
     ec_weight r = default 50%Z (ecb_weight b) /\ clamp_weight (ec_weight r) = ec_weight r) /\
  (forall u u', validate_entry_update u = Some u' ->
     u' = u /\ clamp_weight <$> upd_weight u' = upd_weight u').
Proof.
  split_and!.
  - intros b r. unfold validate_search.
    destruct (_ && _ && _) eqn:E.
    + bool_hyps. rewrite !Z.leb_le in *. split; [intros [= <-]; simpl; split_and!; done || lia|].
      by intros (-> & _ & _).
    + split; [discriminate|]. intros (-> & Hm & Hd). simpl in *.
      apply Bool.not_true_iff_false in E. contradict E.
      rewrite !andb_true_iff, !Z.leb_le. lia.
  - intros b r. unfold validate_entry_create.
    destruct (Z.leb_spec 0 (default 50%Z (ecb_weight b))),
             (Z.leb_spec (default 50%Z (ecb_weight b)) 99); simpl; intros Hr; try discriminate.
    injection Hr as <-. simpl. split; [done|]. apply clamp_weight_id. lia.
  - intros u u'. unfold validate_entry_update.
    destruct (upd_weight u) as [w|] eqn:Hw; [|by intros [= <-]; rewrite Hw].
    destruct (Z.leb_spec 0 w), (Z.leb_spec w 99); simpl; intros Hu; try discriminate.
    injection Hu as <-. rewrite Hw. simpl. by rewrite clamp_weight_id by lia.
Qed.

Section RouterTheorems.
Context `{PyUnicode}.

(** Serving any sequence of HTTP requests of the precise router,
    valid or not, from the empty tables keeps the store invariant [db_wf]:
    every request is a validation refusal, a read, or one committed or
    rolled-back operation of [PreciseService]. *)
Theorem serve_wf rs : db_wf (serve rs empty_db).
Proof. apply serve_wf_from, empty_db_wf. Qed.

(** C14: Every response other than 200 (a 4xx refusal, a failed result or
    an unhandled exception) comes with the tables unchanged: no request
    that fails leaves a partial write. *)
Theorem http_error_rollback r d :
  http_status (handle r d).1 <> 200%Z -> (handle r d).2 = d.
Proof.
  destruct r as [n u|c b u|u|u n|u b| |u|b]; simpl.
  - apply respond_handled_fail.
  - unfold create_entry_handler. destruct (validate_entry_create b); [|done].
    apply respond_handled_fail.
  - apply respond_handled_fail.
  - apply respond_unhandled_fail.
  - unfold update_entry_handler. destruct (validate_entry_update b); [|done].
    apply respond_unhandled_fail.
  - unfold list_categories_handler, run_tx. simpl. done.
  - apply respond_handled_fail.
  - unfold search_handler. destruct (validate_search b); [|done].
    intros _. by rewrite respond_db, service_search_db.
Qed.

(** C16: Unknown uids: an unknown category is answered 404 with the
    not-found message by the delete, rename and list handlers, but 400 by
    the entry-creation handler; an unknown entry is answered 404 by the
    entry update; the tables are unchanged in every case. *)
Theorem not_found_status d uid :
  (find_category uid d = None ->
   (forall b euid, is_Some (validate_entry_create b) ->
      create_entry_handler uid b euid d = (HttpError 400 (NotFoundMsg ObjCategory uid), d)) /\
   delete_category_handler uid d = (HttpError 404 (NotFoundMsg ObjCategory uid), d) /\
   (forall n, update_category_handler uid n d = (HttpError 404 (NotFoundMsg ObjCategory uid), d)) /\
   list_entries_handler uid d = (HttpError 404 (NotFoundMsg ObjCategory uid), d)) /\
  (find_entry uid d = None ->
   forall u, is_Some (validate_entry_update u) ->
     update_entry_handler uid u d = (HttpError 404 (NotFoundMsg ObjEntry uid), d)).
Proof.
  split.
  - intros Hf. split_and!.
    + intros b euid [r Hr]. unfold create_entry_handler. rewrite Hr.
      unfold respond, handled_call, run_tx, create_entry, tx_bind, tx_get. by rewrite Hf.
    + unfold delete_category_handler, respond, handled_call, run_tx, delete_category,
        tx_bind, tx_get. by rewrite Hf.
    + intros n. unfold update_category_handler, respond, unhandled_call, run_tx,
        update_category, tx_bind, tx_get. by rewrite Hf.
    + unfold list_entries_handler, respond, handled_call, run_tx, list_entries,
        tx_bind, tx_get. by rewrite Hf.
  - intros Hf u [u' Hu]. unfold update_entry_handler. rewrite Hu.
    unfold respond, unhandled_call, run_tx, update_entry, tx_bind, tx_get. by rewrite Hf.
Qed.

(** C15: On a well-formed store a search request that passes validation
    is always answered 200 with the engine's result, and the [except]
    branch of [PreciseService.search] (and the 400 and 500 of the handler)
    is unreachable; the tables are unchanged. *)
Theorem search_handler_ok d b r :
  db_wf d -> validate_search b = Some r ->
  search_handler b d =
    (HttpOk (BodySearch (search d (sr_query r) (default [] (sr_category_uids r))
                           (sr_max_results r) (sr_search_depth r))), d).
Proof.
  intros Hwf Hr. unfold search_handler, service_search. rewrite Hr.
  destruct (search d _ _ _ _) eqn:E; try done.
  by apply search_not_failed in E.
Qed.

End RouterTheorems.

(** ** Witnesses *)

Lemma not_found_status_witness :
  create_entry_handler missing_uid
     (mkEntryCreateBody (txt "x") (txt "y") [] None None) (txt "ent_x") ex_db =
    (HttpError 400 (NotFoundMsg ObjCategory missing_uid), ex_db) /\
  delete_category_handler missing_uid ex_db =
    (HttpError 404 (NotFoundMsg ObjCategory missing_uid), ex_db) /\
  update_entry_handler missing_uid (mkUpdate None None None None None) ex_db =
    (HttpError 404 (NotFoundMsg ObjEntry missing_uid), ex_db).
Proof.
  destruct (not_found_status ex_db missing_uid) as [Hc He].
  destruct (Hc ltac:(reflexivity)) as (H1 & H2 & _ & _).
  split_and!; [apply H1; by eexists | exact H2 | apply He; [reflexivity | by eexists]].
Defined.

Lemma search_handler_ok_witness :
  @search_handler cjk_unicode ex_search_body ex_db =
    (HttpOk (BodySearch (@search cjk_unicode ex_db (txt "I have a migraine") [] 5 2)), ex_db).
Proof.
  apply (@search_handler_ok cjk_unicode ex_db ex_search_body
           (mkSearchRequest (txt "I have a migraine") None 5 2)).
  - decide_goal.
  - reflexivity.
Defined.

Lemma http_error_rollback_witness :
  (@handle cjk_unicode (PostCategory (txt "dup") (txt "cat_1")) ex_db).2 = ex_db.
Proof.
  apply http_error_rollback. vm_compute. discriminate.
Defined.
