(* ===== verification/Vector.v ===== *)
(** * The vector channel: [VectorRAG.search]

    Models [VectorRAG.search] and [_search_sync]
    (src/llm/rag/vector_rag.py:367-455) and [list_collections]
    (lines 174-190) over the chromadb client, which is the interface
    [ChromaClient]: the names of its collections, and the result of
    [get_collection(namespace, create_if_not_exists=False)] followed by
    [collection.query(...)] on one namespace (a missing collection raises
    the [ValueError] of line 167; any other failure is an exception too;
    both are caught per namespace and the namespace is skipped).  The
    similarity score is a float; the text [f"{1 - score:.2f}"] of a
    document's score is part of the interface's answer.

    [vector_rag_channel] instantiates [Rag]'s [VectorChannel], so the
    orchestration theorems apply to this implementation.  Chinese literals
    are written by their code points. *)

From stdpp Require Import base list decidable strings.
From Stdlib Require Import ZArith Lia.
From S2P Require Import Prelude Preprocess Store Rank Search Rag.

(** ["未找到相关医学知识。"] (lines 392 and 449). *)
Definition no_knowledge_msg : text :=
  [0x672A; 0x627E; 0x5230; 0x76F8; 0x5173; 0x533B; 0x5B66; 0x77E5; 0x8BC6; 0x3002]%N.

(** ["[来源: "] and ["(相关度: "] of lines 436 and 432. *)
Definition source_prefix : text := [0x5B; 0x6765; 0x6E90; 0x3A; 0x20]%N.
Definition relevance_prefix : text := [0x28; 0x76F8; 0x5173; 0x5EA6; 0x3A; 0x20]%N.

(** One document of [results['documents'][0]] with the text of its score
    (when [distances] were returned) and its metadata (when [metadatas]
    were returned; [None] for a document without metadata). *)
Record vector_doc := mkVectorDoc {
  doc_text : text; doc_relevance : option text;
  doc_metadata : option (list (text * text)) }.

Inductive query_result :=
| QueryMissing                     (* ValueError: the collection does not exist *)
| QueryFailed                      (* any other exception of get_collection or query *)
| QueryOk (docs : list vector_doc).

Class ChromaClient := {
  collection_names : list text;
  collection_query : text -> text -> Z -> option (list (text * text)) -> query_result }.

(** [str.strip()]. *)
Fixpoint lstrip (t : text) : text :=
  match t with c :: t' => if py_isspace c then lstrip t' else t | [] => [] end.

Definition py_strip (t : text) : text := reverse (lstrip (reverse (lstrip t))).

Section VectorRAG.
Context `{ChromaClient}.

(** [list_collections] (lines 174-190): the names, [[]] on failure. *)
Definition list_collections : list text := collection_names.

(** The entry of one document (lines 428-438):
    [f"{metadata_text} {score_text}\n{doc.strip()}"]. *)
Definition format_doc (namespace : text) (doc : vector_doc) : text :=
  let score_text :=
    match doc_relevance doc with
    | Some r => relevance_prefix ++ r ++ txt ")"
    | None => []
    end in
  let source :=
    match doc_metadata doc with
    | Some ((_ :: _) as md) => default namespace (py_dict_get (txt "source") md)
    | _ => namespace
    end in
  source_prefix ++ source ++ txt "]" ++ txt " " ++ score_text ++ [10%N] ++ py_strip (doc_text doc).

(** [query_params["where"] = metadata_filter] only when the filter is
    truthy (lines 420-421). *)
Definition where_filter (metadata_filter : option (list (text * text)))
  : option (list (text * text)) :=
  match metadata_filter with Some ((_ :: _) as f) => Some f | _ => None end.

(** The body of the [for] loop of [_search_sync] on one namespace: its
    entries, none when the collection is missing or the query fails. *)
Definition namespace_results (query : text) (n_results : Z)
    (metadata_filter : option (list (text * text))) (namespace : text) : list text :=
  match collection_query namespace query n_results (where_filter metadata_filter) with
  | QueryOk docs => format_doc namespace <$> docs
  | QueryMissing | QueryFailed => []
  end.

(** [_search_sync] (lines 405-455). *)
Definition search_sync (query : text) (namespaces : list text) (n_results : Z)
    (metadata_filter : option (list (text * text))) : text :=
  let all_results := mjoin (namespace_results query n_results metadata_filter <$> namespaces) in
  if bool_decide (all_results = []) then no_knowledge_msg
  else py_join blank_line all_results.

(** The namespaces searched: the given ones, or every collection when none
    is given (lines 385-388). *)
Definition search_namespaces (namespaces : option (list text)) : list text :=
  match namespaces with Some ((_ :: _) as l) => l | _ => list_collections end.

(** [VectorRAG.search] (lines 367-403).  [_search_sync] catches every
    exception of a namespace, so the [except] of lines 400-403 is not
    reached. *)
Definition vector_rag_search (query : text) (namespaces : option (list text))
    (n_results : Z) (metadata_filter : option (list (text * text))) : text :=
  let nss := search_namespaces namespaces in
  if bool_decide (nss = []) then no_knowledge_msg
  else search_sync query nss n_results metadata_filter.

End VectorRAG.

(** [RAGService]'s vector channel. *)
Definition vector_rag_channel `{ChromaClient} : VectorChannel :=
  {| vector_search := vector_rag_search |}.

(** ** Concrete clients *)



(** ** Lemmas *)


Section VectorFacts.
Context `{ChromaClient}.




End VectorFacts.

(** ** Theorems *)

Section VectorTheorems.
Context `{ChromaClient}.


End VectorTheorems.

(** ** Witnesses *)

