(* ===== verification/Templates.v ===== *)
(** * Template files: [PromptManager]'s storage and the prompt router

    Models the file operations of src/llm/prompts/prompt_manager.py
    ([get_template], [add_template], [update_template], [delete_template],
    [list_templates], lines 12-162) on the template directory, and the five
    endpoints of src/llm/routers/prompt_router.py with the request models
    [SubTemplateModel] and [TemplateData] and their [.dict()].

    The directory [llm/prompts/templates] is an association list from
    template ids (the stems of the [*.json] files, in the order [glob]
    yields them) to the JSON objects the files hold, with the keys
    "description" and "sub_templates"; a sub-template's "order" is absent,
    [null] or an integer ([json_order]).  Writing and unlinking a file do
    not fail.  [get_template] sorts the sub-templates by
    [sub_template.get("order", 999)]; with two or more of them and one
    [null] order, Python's sort compares [None] with a value and raises
    [TypeError], which the method turns into [None] (lines 53-55).
    [prompt_file] is the file as [Prompt]'s model of the formatter reads
    it, and [get_template_refines] shows that [Prompt]'s
    [PromptManager.get_template] is this method seen through it. *)

From stdpp Require Import base list decidable strings.
From Stdlib Require Import ZArith Lia.
From S2P Require Import Prelude Preprocess Store Rank Search Rag Chat Prompt Chroma Documents.

(** ** JSON data *)

Inductive json_order := OrderAbsent | OrderNull | OrderInt (z : Z).

(** A sub-template object: "template", "description", "parameters",
    "order" ([None] for an absent key, other than "order"). *)
Record json_sub := mkJsonSub {
  js_template : option text; js_description : option text;
  js_parameters : option (list text); js_order : json_order }.

(** A template file's object. *)
Record json_template := mkJsonTemplate {
  jt_description : option text; jt_sub_templates : option (list (text * json_sub)) }.

Abbreviation template_dir := (list (text * json_template)).

#[global] Instance json_order_eq_dec : EqDecision json_order.
Proof. solve_decision. Defined.
#[global] Instance json_sub_eq_dec : EqDecision json_sub.
Proof.
  intros [a b c d] [a' b' c' d'].
  refine (cast_if_and4 (decide (a = a')) (decide (b = b')) (decide (c = c')) (decide (d = d')));
    abstract naive_solver.
Defined.
#[global] Instance json_template_eq_dec : EqDecision json_template.
Proof.
  intros [a b] [a' b'].
  refine (cast_if_and (decide (a = a')) (decide (b = b'))); abstract naive_solver.
Defined.

(** ** PromptManager: the file operations *)

Definition is_null_order (it : text * json_sub) : bool :=
  match js_order it.2 with OrderNull => true | _ => false end.

(** [sub_template.get("order", 999)] where it is a number. *)
Definition json_item_order (it : text * json_sub) : Z :=
  match js_order it.2 with OrderInt z => z | _ => 999%Z end.

(** [get_template] (lines 16-55).  The sort raises [TypeError] when two or
    more keys are compared and one is [None]; with a single sub-template
    nothing is compared. *)
Definition get_template (dir : template_dir) (template_id : text) : option json_template :=
  match py_dict_get template_id dir with
  | None => None
  | Some jt =>
      match jt_sub_templates jt with
      | Some ((_ :: _) as subs) =>
          if bool_decide (2 <= length subs) && existsb is_null_order subs then None
          else Some (mkJsonTemplate (jt_description jt) (Some (sort_by_order json_item_order subs)))
      | _ => Some jt
      end
  end.

(** [list(keys).index(name) + 1]. *)
Definition key_index (name : text) (keys : list text) : Z :=
  Z.of_nat (default 0 (fst <$> list_find (fun k => k = name) keys)) + 1.

(** [if "order" not in sub_template: sub_template["order"] = ...] over
    every sub-template (lines 90-94 and 119-123). *)
Definition default_orders (jt : json_template) : json_template :=
  match jt_sub_templates jt with
  | None => jt
  | Some subs =>
      let keys := fst <$> subs in
      mkJsonTemplate (jt_description jt)
        (Some ((fun '(name, s) =>
                  (name, match js_order s with
                         | OrderAbsent => mkJsonSub (js_template s) (js_description s)
                                            (js_parameters s) (OrderInt (key_index name keys))
                         | _ => s
                         end)) <$> subs))
  end.

(** [add_template] (lines 57-101). *)
Definition add_template (template_id : text) (jt : json_template) (dir : template_dir)
  : bool * template_dir :=
  match py_dict_get template_id dir with
  | Some _ => (false, dir)
  | None => (true, dir ++ [(template_id, default_orders jt)])
  end.

(** [update_template] (lines 103-130). *)
Definition update_template (template_id : text) (jt : json_template) (dir : template_dir)
  : bool * template_dir :=
  match py_dict_get template_id dir with
  | None => (false, dir)
  | Some _ => (true, py_dict_set template_id (default_orders jt) dir)
  end.

(** [delete_template] (lines 132-150). *)
Definition delete_template (template_id : text) (dir : template_dir) : bool * template_dir :=
  match py_dict_get template_id dir with
  | None => (false, dir)
  | Some _ => (true, filter (fun p => p.1 <> template_id) dir)
  end.

(** [list_templates] (lines 152-162). *)
Definition list_templates (dir : template_dir) : list text := fst <$> dir.

(** The file as [Prompt]'s [get_template] and [format_selected_templates]
    take it: unreadable when the sort of [get_template] raises. *)
Definition to_prompt_sub (s : json_sub) : sub_template :=
  mkSubTemplate (js_template s) (match js_order s with OrderInt z => Some z | _ => None end).

Definition to_prompt_item (it : text * json_sub) : text * sub_template := (it.1, to_prompt_sub it.2).

Definition to_prompt_data (jt : json_template) : template_data :=
  mkTemplateData (fmap (M := list) to_prompt_item <$> jt_sub_templates jt).

Definition sort_raises (jt : json_template) : bool :=
  match jt_sub_templates jt with
  | Some subs => bool_decide (2 <= length subs) && existsb is_null_order subs
  | None => false
  end.

Definition prompt_file (dir : template_dir) (template_id : text) : option template_data :=
  match py_dict_get template_id dir with
  | Some jt => if sort_raises jt then None else Some (to_prompt_data jt)
  | None => None
  end.

(** ** The router *)

(** [SubTemplateModel] and [TemplateData] (prompt_router.py:9-19). *)
Record sub_template_model := mkSubTemplateModel {
  stm_template : text; stm_description : option text;
  stm_parameters : option (list text); stm_order : option Z }.

Record template_data_model := mkTemplateDataModel {
  tdm_description : text; tdm_sub_templates : list (text * sub_template_model) }.

(** [.dict()]: every field is a key, [None] included. *)
Definition sub_model_dict (m : sub_template_model) : json_sub :=
  mkJsonSub (Some (stm_template m)) (stm_description m) (stm_parameters m)
    (match stm_order m with Some z => OrderInt z | None => OrderNull end).

Definition template_model_dict (m : template_data_model) : json_template :=
  mkJsonTemplate (Some (tdm_description m))
    (Some ((fun it => (it.1, sub_model_dict it.2)) <$> tdm_sub_templates m)).

Inductive template_body :=
| TBodyId (template_id : text)
| TBodyNone
| TBodyTemplate (jt : json_template)
| TBodyList (templates : list text).

Definition template_response := http_response text template_body.

Definition already_exists_msg : text := txt "Template ID already exists".
Definition not_found_msg : text := txt "Template not found".

(** [add_template] (lines 27-46). *)
Definition add_template_handler (template_id : text) (m : template_data_model) (dir : template_dir)
  : template_response * template_dir :=
  let '(success, dir') := add_template template_id (template_model_dict m) dir in
  (catch_all_500 (if success then HttpOk (TBodyId template_id) else HttpError 400 already_exists_msg),
   dir').

(** [update_template] (lines 48-67). *)
Definition update_template_handler (template_id : text) (m : template_data_model)
    (dir : template_dir) : template_response * template_dir :=
  let '(success, dir') := update_template template_id (template_model_dict m) dir in
  (catch_all_500 (if success then HttpOk (TBodyId template_id) else HttpError 404 not_found_msg),
   dir').

(** [delete_template] (lines 69-86). *)
Definition delete_template_handler (template_id : text) (dir : template_dir)
  : template_response * template_dir :=
  let '(success, dir') := delete_template template_id dir in
  (catch_all_500 (if success then HttpOk TBodyNone else HttpError 404 not_found_msg), dir').

(** [if not template] of a dict: empty means no key. *)
Definition template_truthy (jt : json_template) : bool :=
  match jt with mkJsonTemplate None None => false | _ => true end.

(** [get_template] (lines 88-106). *)
Definition get_template_handler (template_id : text) (dir : template_dir) : template_response :=
  catch_all_500
    (match get_template dir template_id with
     | Some jt => if template_truthy jt then HttpOk (TBodyTemplate jt) else HttpError 404 not_found_msg
     | None => HttpError 404 not_found_msg
     end).

(** [list_templates] (lines 108-121). *)
Definition list_templates_handler (dir : template_dir) : template_response :=
  catch_all_500 (HttpOk (TBodyList (list_templates dir))).

(** ** Concrete directories and requests *)

(** A file whose first and third sub-templates have no "order". *)
Definition ex_file : json_template :=
  mkJsonTemplate (Some (txt "general"))
    (Some [(txt "a", mkJsonSub (Some (txt "A")) None None OrderAbsent);
           (txt "b", mkJsonSub (Some (txt "B")) None None (OrderInt 7));
           (txt "c", mkJsonSub (Some (txt "C")) None None OrderAbsent)]).

Definition ex_dir : template_dir := [(txt "general", ex_file)].

(** The shape of the template test_chat.py posts: sub-templates with a
    template, a description and parameters, none with an "order". *)
Definition test_chat_request : template_data_model :=
  mkTemplateDataModel (txt "medical")
    [(txt "reference", mkSubTemplateModel (txt "{vector_content} {precise_content}") (Some (txt "reference"))
                         (Some [txt "vector_content"; txt "precise_content"]) None);
     (txt "answer_format", mkSubTemplateModel (txt "Answer plainly.") (Some (txt "format")) (Some []) None)].

(** A response of a router is a success, or a 500 whose detail is
    [str()] of the 400 or 404 the handler raised. *)
Definition refused_as_500 {A} (r : http_response text A) : Prop :=
  match r with
  | HttpOk _ => True
  | HttpError s d => s = 500%Z /\ exists c msg, (c = 400%Z \/ c = 404%Z) /\ d = http_exception_str c msg
  end.

(** ** Lemmas *)

Section SortMap.
Context {A B : Type} (key : B -> Z * Z) (key' : A -> Z * Z) (f : A -> B).
Hypothesis Hkey : forall x, key (f x) = key' x.

Lemma insert_desc_fmap x l :
  insert_desc key (f x) (f <$> l) = f <$> insert_desc key' x l.
Proof.
  induction l as [|y l IH]; [done|]. rewrite fmap_cons. cbn [insert_desc]. rewrite !Hkey.
  destruct (key_lt (key' y) (key' x)); [done|]. by rewrite IH.
Qed.

Lemma sort_desc_fmap l : sort_desc key (f <$> l) = f <$> sort_desc key' l.
Proof.
  unfold sort_desc. cut (forall acc, fold_left (fun acc x => insert_desc key x acc) (f <$> l) (f <$> acc)
                                 = f <$> fold_left (fun acc x => insert_desc key' x acc) l acc).
  { intros Hc. apply (Hc []). }
  induction l as [|x l IH]; intros acc; [done|]. rewrite fmap_cons. cbn [fold_left].
  by rewrite insert_desc_fmap, IH.
Qed.

End SortMap.

Lemma sort_by_order_fmap {A B} (order : B -> Z) (order' : A -> Z) (f : A -> B) l :
  (forall x, order (f x) = order' x) ->
  sort_by_order order (f <$> l) = f <$> sort_by_order order' l.
Proof. intros Ho. unfold sort_by_order. apply sort_desc_fmap. intros x. by rewrite Ho. Qed.

Lemma item_order_prompt it : item_order (to_prompt_item it) = json_item_order it.
Proof. destruct it as [n [t d p []]]; reflexivity. Qed.

Lemma py_dict_get_app_fresh {V} k (v : V) m :
  py_dict_get k m = None -> py_dict_get k (m ++ [(k, v)]) = Some v.
Proof. induction m as [|[k' v'] m IH]; simpl; [by rewrite decide_True|]. case_decide; [done|auto]. Qed.


Lemma py_dict_get_None_iff {V} k (m : list (text * V)) : py_dict_get k m = None <-> k ∉ m.*1.
Proof. rewrite <- py_dict_get_is_Some. split; [intros -> []; discriminate|apply eq_None_not_Some]. Qed.

(** [list(keys).index(name)] of a key at position [i] of distinct keys. *)
Lemma key_index_at (keys : list text) i name :
  NoDup keys -> keys !! i = Some name -> key_index name keys = (Z.of_nat i + 1)%Z.
Proof.
  intros Hnd Hi. unfold key_index.
  destruct (list_find (fun k => k = name) keys) as [[j k]|] eqn:Hf.
  - apply list_find_Some in Hf as (Hj & Hk & _). subst k. simpl. do 2 f_equal.
    by eapply NoDup_lookup.
  - apply list_find_None in Hf. by destruct (Forall_lookup_1 _ _ _ _ Hf Hi).
Qed.

(** The sub-templates of a request never lack "order" after [.dict()]. *)
Lemma default_orders_dict m : default_orders (template_model_dict m) = template_model_dict m.
Proof.
  unfold default_orders, template_model_dict. simpl. f_equal. f_equal.
  rewrite <- list_fmap_compose. apply list_fmap_ext. intros _ [n s] _. simpl.
  unfold sub_model_dict. by destruct (stm_order s).
Qed.

Lemma get_template_raises dir template_id jt :
  py_dict_get template_id dir = Some jt -> sort_raises jt = true -> get_template dir template_id = None.
Proof.
  intros Hd. unfold get_template, sort_raises. rewrite Hd.
  destruct (jt_sub_templates jt) as [[|it subs]|]; [|intros Hr; by rewrite Hr|done].
  simpl. intros Hr. rewrite ?andb_false_r in Hr. discriminate.
Qed.

Lemma catch_all_500_shape {A} (r : http_response text A) s d :
  catch_all_500 r = HttpError s d -> s = 500%Z /\ exists s0 d0, r = HttpError s0 d0 /\ d = http_exception_str s0 d0.
Proof. destruct r; simpl; [done|]. intros [= <- <-]. eauto. Qed.

Lemma sort_raises_dict m :
  2 <= length (tdm_sub_templates m) ->
  Exists (fun it => stm_order it.2 = None) (tdm_sub_templates m) ->
  sort_raises (template_model_dict m) = true.
Proof.
  intros Hlen Hex. unfold sort_raises. simpl. rewrite length_fmap, bool_decide_true by lia. simpl.
  apply existsb_exists. apply Exists_exists in Hex as ([n sm] & Hin & Hnone).
  exists (n, sub_model_dict sm). split.
  - apply list_elem_of_In, list_elem_of_fmap. by exists (n, sm).
  - unfold is_null_order. simpl in *. by rewrite Hnone.
Qed.

Lemma vs_respond_refused {A} (b : A -> vector_body) r : refused_as_500 (catch_all_500 (vs_respond b r)).
Proof. destruct r; simpl; eauto 10. Qed.

Lemma status_refused {A} (ok : bool) (a : A) c msg :
  c = 400%Z \/ c = 404%Z ->
  refused_as_500 (catch_all_500 (if ok then HttpOk a else HttpError c msg)).
Proof. destruct ok; simpl; eauto 10. Qed.

#[export] Hint Resolve vs_respond_refused status_refused : pydb.

(** ** Theorems *)

(** The prompt manager of [Prompt] is the file operation seen through
    the file's reading: for every directory and id, [get_template] on the
    JSON file (with its [TypeError] on a [null] order) followed by the
    projection to [Prompt]'s data is [Prompt]'s [PromptManager.get_template]
    of [prompt_file]; so every theorem of [Prompt] about the formatting
    holds of the files the router writes. *)
Theorem get_template_refines dir template_id :
  option_map to_prompt_data (get_template dir template_id) =
  PromptManager.get_template (prompt_file dir template_id).
Proof.
  unfold prompt_file. destruct (py_dict_get template_id dir) as [jt|] eqn:Hd;
    [|by unfold get_template; rewrite Hd].
  destruct (sort_raises jt) eqn:Hr; [by rewrite (get_template_raises _ _ _ Hd Hr)|].
  unfold get_template. rewrite Hd. unfold sort_raises in Hr.
  destruct jt as [desc [[|it subs]|]]; cbn [jt_sub_templates jt_description] in *; try done.
  rewrite Hr. simpl. unfold to_prompt_data. simpl. do 3 f_equal.
  symmetry. rewrite <- (fmap_cons to_prompt_item). apply sort_by_order_fmap, item_order_prompt.
Qed.


(** [add_template] and [update_template] give every sub-template
    without "order" the order [list(keys).index(name) + 1], its position
    counted from 1, and leave the others, the names and their order as they
    are. *)
Theorem default_orders_spec jt subs :
  jt_sub_templates jt = Some subs -> NoDup subs.*1 ->
  exists subs',
    default_orders jt = mkJsonTemplate (jt_description jt) (Some subs') /\ subs'.*1 = subs.*1 /\
    forall i name s, subs !! i = Some (name, s) ->
      subs' !! i = Some (name, match js_order s with
                               | OrderAbsent => mkJsonSub (js_template s) (js_description s)
                                                  (js_parameters s) (OrderInt (Z.of_nat i + 1))
                               | _ => s
                               end).
Proof.
  intros Hs Hnd. unfold default_orders. rewrite Hs. eexists. split; [reflexivity|]. split.
  - rewrite <- list_fmap_compose. apply list_fmap_ext. by intros _ [n s] _.
  - intros i name s Hi. rewrite list_lookup_fmap, Hi. simpl.
    rewrite (key_index_at (subs.*1) i name Hnd) by (rewrite list_lookup_fmap, Hi; done). done.
Qed.

(** C28: Code bug: test_chat.py, test_history.py and test_all.py post
    templates whose sub-templates have no "order" and then read them back
    and chat with them; the code cannot serve them.  A template posted
    without an "order" for one of two or more sub-templates is stored (the
    router answers 200), since [.dict()] writes ["order": null] and
    [add_template] only fills in absent keys; but it can never be read
    back: sorting the orders compares [None] and raises [TypeError], so
    [GET /templates/{id}] answers 500 with detail "404: Template not found"
    and the chat's [format_selected_templates] finds no template
    (prompt_router.py:14 and 37, prompt_manager.py:43). *)
Theorem router_template_unreadable `{PyFormat} template_id m dir :
  template_id ∉ list_templates dir ->
  2 <= length (tdm_sub_templates m) ->
  Exists (fun it => stm_order it.2 = None) (tdm_sub_templates m) ->
  exists dir',
    add_template_handler template_id m dir = (HttpOk (TBodyId template_id), dir') /\
    template_id ∈ list_templates dir' /\
    get_template_handler template_id dir' = HttpError 500 (http_exception_str 404 not_found_msg) /\
    forall ids params,
      PromptManager.format_selected_templates (prompt_file dir' template_id) ids params = None.
Proof.
  intros Hfresh%py_dict_get_None_iff Hlen Hex.
  pose proof (sort_raises_dict m Hlen Hex) as Hr.
  exists (dir ++ [(template_id, template_model_dict m)]).
  assert (Hget : py_dict_get template_id (dir ++ [(template_id, template_model_dict m)]) =
                 Some (template_model_dict m)) by by apply py_dict_get_app_fresh.
  unfold add_template_handler, add_template. rewrite Hfresh, default_orders_dict.
  split; [done|]. split; [unfold list_templates; rewrite fmap_app, elem_of_app; right; by left|].
  split; [unfold get_template_handler; by rewrite (get_template_raises _ _ _ Hget Hr)|].
  intros ids params. unfold prompt_file. by rewrite Hget, Hr.
Qed.

(** C27: No endpoint of the prompt or the vector router ever answers 400
    or 404: each handler raises its [HTTPException] inside its own
    [try ... except Exception], so every refusal becomes a 500 whose detail
    is ["400: ..."] or ["404: ..."] (prompt_router.py:39-46, 60-67, 80-86,
    99-106; vector_router.py:45-54 and the five other handlers). *)
Theorem routers_refusals_500 `{ChromaBackend} `{TextExtractor} :
  (forall template_id m dir,
     refused_as_500 (add_template_handler template_id m dir).1 /\
     refused_as_500 (update_template_handler template_id m dir).1) /\
  (forall template_id dir,
     refused_as_500 (delete_template_handler template_id dir).1 /\
     refused_as_500 (get_template_handler template_id dir) /\
     refused_as_500 (list_templates_handler dir)) /\
  (forall content fn ns cs co doc_id uuid st,
     match upload_document content fn ns cs co doc_id uuid st with
     | Some (r, _) => refused_as_500 r
     | None => True
     end) /\
  (forall ns doc_id st,
     refused_as_500 (delete_document_handler ns doc_id st).1 /\
     refused_as_500 (delete_namespace_handler ns st).1 /\
     refused_as_500 (create_namespace_handler ns st).1 /\
     refused_as_500 (list_namespaces_handler st) /\
     refused_as_500 (list_documents_handler ns st)).
Proof.
  split; [|split; [|split]].
  - intros id m dir. unfold add_template_handler, update_template_handler.
    destruct (add_template _ _ _), (update_template _ _ _).
    split; apply status_refused; [by left|by right].
  - intros id dir. unfold delete_template_handler, get_template_handler, list_templates_handler.
    destruct (delete_template _ _). split; [apply status_refused; by right|split; [|done]].
    destruct (get_template dir id) as [jt|]; [destruct (template_truthy jt)|]; simpl; eauto 10.
  - intros. unfold upload_document. destruct (add_document _ _ _ _ _ _ _ _) as [[r st']|];
      [apply vs_respond_refused|done].
  - intros ns doc_id st. unfold delete_document_handler, delete_namespace_handler, create_namespace_handler.
    destruct (delete_document _ _ _), (delete_namespace _ _), (create_namespace _ _).
    repeat split; apply vs_respond_refused.
Qed.

(** ** Witnesses *)


Lemma default_orders_spec_witness :
  (exists subs',
    default_orders ex_file = mkJsonTemplate (jt_description ex_file) (Some subs') /\
    subs'.*1 = (default [] (jt_sub_templates ex_file)).*1 /\
    forall i name s, default [] (jt_sub_templates ex_file) !! i = Some (name, s) ->
      subs' !! i = Some (name, match js_order s with
                               | OrderAbsent => mkJsonSub (js_template s) (js_description s)
                                                  (js_parameters s) (OrderInt (Z.of_nat i + 1))
                               | _ => s
                               end)) /\
  (js_order <$> (snd <$> default [] (jt_sub_templates (default_orders ex_file)))) =
    [OrderInt 1; OrderInt 7; OrderInt 3].
Proof.
  split; [|reflexivity].
  apply (default_orders_spec ex_file (default [] (jt_sub_templates ex_file))); [reflexivity|decide_goal].
Defined.

Lemma router_template_unreadable_witness :
  exists dir',
    add_template_handler (txt "medical_template") test_chat_request ex_dir =
      (HttpOk (TBodyId (txt "medical_template")), dir') /\
    txt "medical_template" ∈ list_templates dir' /\
    get_template_handler (txt "medical_template") dir' = HttpError 500 (http_exception_str 404 not_found_msg) /\
    forall ids params,
      @PromptManager.format_selected_templates literal_format (prompt_file dir' (txt "medical_template"))
        ids params = None.
Proof.
  apply (@router_template_unreadable literal_format); [decide_goal|simpl; lia|decide_goal].
Defined.
