(* ===== verification/App.v ===== *)
(** * The application: routing and middleware of main.py

    Models src/llm/main.py: the [FastAPI] application with its built-in
    documentation routes, the four routers it includes under the prefix
    ["/api/v1"] (lines 104-114; the precise router adds its own prefix
    ["/precise"], precise_router.py:44-48), the health check (lines
    119-122), the request middleware [log_requests] (lines 46-64) and the
    handler of validation errors (lines 67-73).

    A route is its methods, its path pattern and the endpoint it calls.  A
    pattern is a list of tokens: a literal character, or a path parameter
    [{name}], which Starlette compiles to the regular expression [[^/]+].
    [tmatch] is that regular expression's matcher: a parameter takes the
    longest run of characters other than ['/'] (at least one), which is the
    only way to match since in every pattern a parameter is followed by
    ['/'] or by the end.  [dispatch] is Starlette's [Router.__call__]: the
    first route whose path and method match; else, when some route's path
    matches, 405; else the [redirect_slashes] retry with the trailing slash
    added or removed (307); else 404.

    Theorems: no two routes of the application match the same request
    ([app_routes_unambiguous]), so their order does not matter, and every
    request of the precise router, sent to its path, reaches its handler
    ([precise_requests_routed]). *)

From stdpp Require Import base list decidable strings.
From Stdlib Require Import ZArith Lia.
From S2P Require Import Prelude Preprocess Store Rank Search Rag Chat Router Stream.

(** ** Routes *)

Inductive http_method := GET | POST | PUT | DELETE | HEAD.

#[global] Instance http_method_eq_dec : EqDecision http_method.
Proof. solve_decision. Defined.

Inductive path_token := TChar (c : N) | TParam.

#[global] Instance path_token_eq_dec : EqDecision path_token.
Proof. solve_decision. Defined.

(** The literal part of a route path. *)
Definition lit (s : string) : list path_token := TChar <$> txt s.

Definition slash : N := 47.

(** The length of the longest prefix without ['/']. *)
Fixpoint seg_len (p : text) : nat :=
  match p with
  | c :: p' => if decide (c = slash) then 0 else S (seg_len p')
  | [] => 0
  end.

(** [route.path_regex.match(path)]: the literal characters in order, a
    parameter [[^/]+], then the end of the path. *)
Fixpoint tmatch (pat : list path_token) (path : text) : bool :=
  match pat with
  | [] => bool_decide (path = [])
  | TChar c :: pat' =>
      match path with
      | c' :: path' => bool_decide (c = c') && tmatch pat' path'
      | [] => false
      end
  | TParam :: pat' =>
      let n := seg_len path in bool_decide (1 <= n) && tmatch pat' (drop n path)
  end.

Inductive endpoint :=
| EpOpenapi | EpDocs | EpDocsRedirect | EpRedoc
| EpAsk | EpStream
| EpAddTemplate | EpUpdateTemplate | EpDeleteTemplate | EpGetTemplate | EpListTemplates
| EpUpload | EpDeleteDocument | EpDeleteNamespace | EpCreateNamespace | EpListNamespaces
| EpListDocuments
| EpCreateCategory | EpCreateEntry | EpDeleteCategory | EpUpdateCategory | EpUpdateEntry
| EpListCategories | EpListEntries | EpSearch
| EpHealth.

#[global] Instance endpoint_eq_dec : EqDecision endpoint.
Proof. solve_decision. Defined.

Record route := mkRoute {
  route_methods : list http_method; route_path : list path_token; route_endpoint : endpoint }.

#[global] Instance route_eq_dec : EqDecision route.
Proof. solve_decision. Defined.

(** [app.include_router(router, prefix=...)] and [APIRouter(prefix=...)]:
    the prefix is put before each path. *)
Definition include_router (prefix : string) (rs : list route) : list route :=
  (fun r => mkRoute (route_methods r) (lit prefix ++ route_path r) (route_endpoint r)) <$> rs.

(** [FastAPI.setup()]: the documentation routes, Starlette routes that also
    answer [HEAD]. *)
Definition docs_routes : list route :=
  [mkRoute [GET; HEAD] (lit "/openapi.json") EpOpenapi;
   mkRoute [GET; HEAD] (lit "/docs") EpDocs;
   mkRoute [GET; HEAD] (lit "/docs/oauth2-redirect") EpDocsRedirect;
   mkRoute [GET; HEAD] (lit "/redoc") EpRedoc].

(** chat_router.py:51 and 69. *)
Definition chat_routes : list route :=
  [mkRoute [POST] (lit "/ask") EpAsk; mkRoute [POST] (lit "/stream") EpStream].

(** prompt_router.py:27-108. *)
Definition prompt_routes : list route :=
  [mkRoute [POST] (lit "/templates/" ++ [TParam]) EpAddTemplate;
   mkRoute [PUT] (lit "/templates/" ++ [TParam]) EpUpdateTemplate;
   mkRoute [DELETE] (lit "/templates/" ++ [TParam]) EpDeleteTemplate;
   mkRoute [GET] (lit "/templates/" ++ [TParam]) EpGetTemplate;
   mkRoute [GET] (lit "/templates") EpListTemplates].

(** vector_router.py:16-142. *)
Definition vector_routes : list route :=
  [mkRoute [POST] (lit "/vectors/upload") EpUpload;
   mkRoute [DELETE] (lit "/vectors/document") EpDeleteDocument;
   mkRoute [DELETE] (lit "/vectors/namespace/" ++ [TParam]) EpDeleteNamespace;
   mkRoute [POST] (lit "/vectors/namespace") EpCreateNamespace;
   mkRoute [GET] (lit "/vectors/namespaces") EpListNamespaces;
   mkRoute [GET] (lit "/vectors/documents/" ++ [TParam]) EpListDocuments].

(** precise_router.py:44-225, under its own prefix "/precise". *)
Definition precise_routes : list route :=
  include_router "/precise"
    [mkRoute [POST] (lit "/category") EpCreateCategory;
     mkRoute [POST] (lit "/entry/" ++ [TParam]) EpCreateEntry;
     mkRoute [DELETE] (lit "/category/" ++ [TParam]) EpDeleteCategory;
     mkRoute [PUT] (lit "/category/" ++ [TParam]) EpUpdateCategory;
     mkRoute [PUT] (lit "/entry/" ++ [TParam]) EpUpdateEntry;
     mkRoute [GET] (lit "/categories") EpListCategories;
     mkRoute [GET] (lit "/entries/" ++ [TParam]) EpListEntries;
     mkRoute [POST] (lit "/search") EpSearch].

(** [app.routes] in registration order (main.py:30-122). *)
Definition app_routes : list route :=
  docs_routes ++
  include_router "/api/v1" chat_routes ++
  include_router "/api/v1" prompt_routes ++
  include_router "/api/v1" vector_routes ++
  include_router "/api/v1" precise_routes ++
  [mkRoute [GET] (lit "/health") EpHealth].

(** ** Dispatch *)

Definition full_match (m : http_method) (path : text) (r : route) : bool :=
  tmatch (route_path r) path && bool_decide (m ∈ route_methods r).

Fixpoint strip_leading_slashes (p : text) : text :=
  match p with
  | c :: p' => if decide (c = slash) then strip_leading_slashes p' else p
  | [] => []
  end.

(** [redirect_scope["path"]]: [path.rstrip("/")] when the path ends with
    ['/'], [path + "/"] otherwise. *)
Definition toggle_slash (path : text) : text :=
  if bool_decide (last path = Some slash) then reverse (strip_leading_slashes (reverse path))
  else path ++ [slash].

Inductive dispatch_result :=
| Dispatched (e : endpoint)
| MethodNotAllowed               (* 405 *)
| RedirectSlash (path : text)    (* 307 to the toggled path *)
| NotFound.                      (* 404 {"detail": "Not Found"} *)

(** Starlette's [Router.__call__]: the first [Match.FULL], else the first
    [Match.PARTIAL] (405), else [redirect_slashes] for a path other than
    ["/"] when some route's path matches the toggled one, else 404. *)
Definition dispatch (m : http_method) (path : text) : dispatch_result :=
  match List.find (full_match m path) app_routes with
  | Some r => Dispatched (route_endpoint r)
  | None =>
      if existsb (fun r => tmatch (route_path r) path) app_routes then MethodNotAllowed
      else if bool_decide (path <> [slash]) &&
              existsb (fun r => tmatch (route_path r) (toggle_slash path)) app_routes
      then RedirectSlash (toggle_slash path)
      else NotFound
  end.

(** ** Middleware and the application's own handlers *)

(** [log_requests] (lines 46-64): the response of [call_next], or for an
    exception escaping the application [JSONResponse(status_code=500,
    content={"detail": str(e)})]. *)
Definition log_requests {A} (r : outcome py_exception (http_response text A)) : http_response text A :=
  match r with Returned resp => resp | Raised e => HttpError 500 (str_exc e) end.

(** [validation_exception_handler] (lines 67-73): 422 with [str(exc)]. *)
Definition validation_exception_handler {A} (exc : text) : http_response text A := HttpError 422 exc.

(** [health_check] (lines 119-122). *)
Definition health_check : list (text * text) := [(txt "status", txt "ok")].

(** ** The precise router's requests on the wire *)

Definition precise_method (r : precise_request) : http_method :=
  match r with
  | PostCategory _ _ | PostEntry _ _ _ | PostSearch _ => POST
  | DeleteCategory _ => DELETE
  | PutCategory _ _ | PutEntry _ _ => PUT
  | GetCategories | GetEntries _ => GET
  end.

(** The URL path of a request; path parameters are put in as they are. *)
Definition precise_path (r : precise_request) : text :=
  match r with
  | PostCategory _ _ => txt "/api/v1/precise/category"
  | PostEntry c _ _ => txt "/api/v1/precise/entry/" ++ c
  | DeleteCategory u => txt "/api/v1/precise/category/" ++ u
  | PutCategory u _ => txt "/api/v1/precise/category/" ++ u
  | PutEntry u _ => txt "/api/v1/precise/entry/" ++ u
  | GetCategories => txt "/api/v1/precise/categories"
  | GetEntries c => txt "/api/v1/precise/entries/" ++ c
  | PostSearch _ => txt "/api/v1/precise/search"
  end.

Definition precise_endpoint (r : precise_request) : endpoint :=
  match r with
  | PostCategory _ _ => EpCreateCategory
  | PostEntry _ _ _ => EpCreateEntry
  | DeleteCategory _ => EpDeleteCategory
  | PutCategory _ _ => EpUpdateCategory
  | PutEntry _ _ => EpUpdateEntry
  | GetCategories => EpListCategories
  | GetEntries _ => EpListEntries
  | PostSearch _ => EpSearch
  end.

(** A path parameter Starlette can match: non-empty, without ['/']. *)
Definition path_param_ok (u : text) : bool := bool_decide (u <> []) && bool_decide (slash ∉ u).

Definition precise_params_ok (r : precise_request) : bool :=
  match r with
  | PostEntry u _ _ | DeleteCategory u | PutCategory u _ | PutEntry u _ | GetEntries u =>
      path_param_ok u
  | _ => true
  end.

(** ** The chat router's request models *)

(** [TemplateConfig] (chat_router.py:16-20). *)
Record template_config := mkTemplateConfig {
  tc_template_id : text; tc_sub_template_ids : list text; tc_params : list (text * text) }.

(** [VectorSearchConfig] and [PreciseSearchConfig] as received (lines
    22-34): [None] for a field the JSON body leaves out. *)
Record vector_search_body := mkVectorSearchBody {
  vsb_namespaces : option (list text); vsb_n_results : option Z;
  vsb_metadata_filter : option (list (text * text)); vsb_rag_history_count : option Z }.

Record precise_search_body := mkPreciseSearchBody {
  psb_categories : option (list text); psb_max_results : option Z;
  psb_search_depth : option Z; psb_rag_history_count : option Z }.

(** [ChatRequest] (lines 36-43). *)
Record chat_request_body := mkChatRequestBody {
  crb_message : text; crb_model_settings : model_config; crb_template_config : template_config;
  crb_vector_search_config : option vector_search_body;
  crb_precise_search_config : option precise_search_body;
  crb_history : option (list chat_msg) }.

(** The validated models with their field defaults ([n_results: int = 5],
    [rag_history_count: int = 1], [max_results: int = 5],
    [search_depth: int = 2]); [categories=None] reaches the search as a
    falsy value, as [[]] does. *)
Definition vector_search_model (b : vector_search_body) : vector_search_config :=
  mkVectorConfig (vsb_namespaces b) (default 5%Z (vsb_n_results b)) (vsb_metadata_filter b)
    (default 1%Z (vsb_rag_history_count b)).

Definition precise_search_model (b : precise_search_body) : precise_search_config :=
  mkPreciseConfig (default [] (psb_categories b)) (default 5%Z (psb_max_results b))
    (default 2%Z (psb_search_depth b)) (default 1%Z (psb_rag_history_count b)).

(** The arguments [ask_question] and [stream_chat] pass to the service
    (lines 55-64 and 74-82); a [None] history is falsy like [[]]. *)
Definition chat_request_of (b : chat_request_body) : chat_request :=
  mkChatRequest (crb_message b) (default [] (crb_history b))
    (tc_template_id (crb_template_config b)) (tc_sub_template_ids (crb_template_config b))
    (tc_params (crb_template_config b))
    (vector_search_model <$> crb_vector_search_config b)
    (precise_search_model <$> crb_precise_search_config b).

(** The same body with both search configurations sent as [{}]. *)
Definition with_empty_configs (b : chat_request_body) : chat_request_body :=
  mkChatRequestBody (crb_message b) (crb_model_settings b) (crb_template_config b)
    (Some (mkVectorSearchBody None None None None))
    (Some (mkPreciseSearchBody None None None None)) (crb_history b).

(** A chat request without search configurations. *)
Definition ex_chat_body : chat_request_body :=
  mkChatRequestBody ex_query ex_config (mkTemplateConfig (txt "T") [] []) None None
    (Some [mkMsg (Some (txt "assistant")) (Some (txt "Hello"))]).

(** ** Checking routes pairwise *)

(** A sound test that no path matches both patterns. *)
Fixpoint patterns_disjoint (p q : list path_token) : bool :=
  match p, q with
  | [], [] => false
  | [], _ :: _ | _ :: _, [] => true
  | TChar a :: p', TChar b :: q' => if decide (a = b) then patterns_disjoint p' q' else true
  | TParam :: p', TParam :: q' => patterns_disjoint p' q'
  | TParam :: _, TChar b :: _ | TChar b :: _, TParam :: _ => bool_decide (b = slash)
  end.

(** Two routes that no request matches both. *)
Definition routes_compatible (r r' : route) : bool :=
  forallb (fun m => bool_decide (m ∉ route_methods r')) (route_methods r) ||
  patterns_disjoint (route_path r) (route_path r').

Fixpoint pairwise_compatible (rs : list route) : bool :=
  match rs with
  | [] => true
  | r :: rs' => forallb (routes_compatible r) rs' && pairwise_compatible rs'
  end.

(** The route table holds a route of this endpoint, method and pattern. *)
Definition has_route (e : endpoint) (m : http_method) (pat : list path_token) : bool :=
  existsb (fun r => bool_decide (route_endpoint r = e /\ m ∈ route_methods r /\ route_path r = pat))
    app_routes.

(** ** Lemmas *)

Lemma seg_len_pos path : 1 <= seg_len path -> exists c rest, path = c :: rest /\ c <> slash.
Proof. destruct path as [|c rest]; simpl; [lia|]. case_decide; [lia|]. eauto. Qed.

Lemma seg_len_no_slash u : slash ∉ u -> seg_len u = length u.
Proof.
  induction u as [|c u IH]; simpl; [done|]. rewrite not_elem_of_cons. intros [Hc Hu].
  rewrite decide_False by congruence. by rewrite IH.
Qed.

Lemma tmatch_nil_inv path : tmatch [] path = true -> path = [].
Proof. simpl. by intros ?%bool_decide_eq_true. Qed.

Lemma tmatch_char_inv a p path :
  tmatch (TChar a :: p) path = true -> exists rest, path = a :: rest /\ tmatch p rest = true.
Proof.
  destruct path as [|c rest]; simpl; [done|]. intros [Hc Hr]%andb_prop.
  apply bool_decide_eq_true in Hc. subst. eauto.
Qed.

Lemma tmatch_param_inv p path :
  tmatch (TParam :: p) path = true ->
  exists c rest, path = c :: rest /\ c <> slash /\ tmatch p (drop (seg_len path) path) = true.
Proof.
  simpl. intros [Hn Hr]%andb_prop. apply bool_decide_eq_true in Hn.
  destruct (seg_len_pos path Hn) as (c & rest & -> & Hc). eauto.
Qed.

(** A [true] answer of [patterns_disjoint] is right. *)
Lemma patterns_disjoint_sound p q path :
  patterns_disjoint p q = true -> tmatch p path = true -> tmatch q path = true -> False.
Proof.
  revert q path. induction p as [|[a|] p IH]; intros [|[b|] q] path Hd Hp Hq; simpl in Hd.
  - discriminate.
  - apply tmatch_nil_inv in Hp as ->. by destruct (tmatch_char_inv _ _ _ Hq) as (? & ? & _).
  - apply tmatch_nil_inv in Hp as ->. by destruct (tmatch_param_inv _ _ Hq) as (? & ? & ? & _).
  - apply tmatch_nil_inv in Hq as ->. by destruct (tmatch_char_inv _ _ _ Hp) as (? & ? & _).
  - destruct (tmatch_char_inv _ _ _ Hp) as (rest & -> & Hp').
    destruct (tmatch_char_inv _ _ _ Hq) as (rest' & [= <- <-] & Hq').
    rewrite decide_True in Hd by done. eauto.
  - apply bool_decide_eq_true in Hd as ->.
    destruct (tmatch_char_inv _ _ _ Hp) as (rest & -> & _).
    by destruct (tmatch_param_inv _ _ Hq) as (c & ? & [= <- _] & Hc & _).
  - apply tmatch_nil_inv in Hq as ->. by destruct (tmatch_param_inv _ _ Hp) as (? & ? & ? & _).
  - apply bool_decide_eq_true in Hd as ->.
    destruct (tmatch_char_inv _ _ _ Hq) as (rest & -> & _).
    by destruct (tmatch_param_inv _ _ Hp) as (c & ? & [= <- _] & Hc & _).
  - simpl in Hp, Hq. apply andb_prop in Hp as [_ Hp], Hq as [_ Hq]. eauto.
Qed.

Lemma routes_compatible_sound r r' m path :
  routes_compatible r r' = true -> full_match m path r = true -> full_match m path r' = true -> False.
Proof.
  unfold routes_compatible, full_match. intros [Hm|Hd]%orb_prop [Hp Hmr]%andb_prop [Hq Hmr']%andb_prop.
  - apply bool_decide_eq_true in Hmr, Hmr'. rewrite forallb_forall in Hm.
    specialize (Hm m (proj1 (list_elem_of_In _ _) Hmr)). by apply bool_decide_eq_true in Hm.
  - exact (patterns_disjoint_sound _ _ _ Hd Hp Hq).
Qed.

(** Routes checked pairwise compatible: at most one matches a request. *)
Lemma pairwise_compatible_unique rs r1 r2 m path :
  pairwise_compatible rs = true -> r1 ∈ rs -> r2 ∈ rs ->
  full_match m path r1 = true -> full_match m path r2 = true -> r1 = r2.
Proof.
  induction rs as [|r rs IH]; simpl; [by intros _ ?%elem_of_nil|].
  intros [Hall Hrs]%andb_prop Hr1 Hr2 H1 H2. rewrite forallb_forall in Hall.
  apply elem_of_cons in Hr1 as [->|Hr1], Hr2 as [->|Hr2]; [done| | |auto].
  - destruct (routes_compatible_sound r r2 m path); [apply Hall; by apply list_elem_of_In|done..].
  - destruct (routes_compatible_sound r r1 m path); [apply Hall; by apply list_elem_of_In|done..].
Qed.

Lemma app_routes_compatible : pairwise_compatible app_routes = true.
Proof. vm_compute. reflexivity. Qed.

(** A request that a route of the table matches reaches that route. *)
Lemma dispatch_full_match r m path :
  r ∈ app_routes -> full_match m path r = true -> dispatch m path = Dispatched (route_endpoint r).
Proof.
  intros Hr Hm. unfold dispatch. destruct (List.find (full_match m path) app_routes) as [r'|] eqn:Hf.
  - apply List.find_some in Hf as [Hr' Hm']. apply list_elem_of_In in Hr'.
    by rewrite (pairwise_compatible_unique app_routes r' r m path app_routes_compatible Hr' Hr Hm' Hm).
  - rewrite (List.find_none _ _ Hf r) in Hm; [discriminate|]. by apply list_elem_of_In.
Qed.

Lemma has_route_spec e m pat :
  has_route e m pat = true ->
  exists r, r ∈ app_routes /\ route_endpoint r = e /\ m ∈ route_methods r /\ route_path r = pat.
Proof.
  unfold has_route. intros (r & Hr & Hp)%existsb_exists. apply bool_decide_eq_true in Hp.
  exists r. split; [by apply list_elem_of_In|done].
Qed.

Lemma dispatch_at e m pat path :
  has_route e m pat = true -> tmatch pat path = true -> dispatch m path = Dispatched e.
Proof.
  intros (r & Hr & <- & Hm & <-)%has_route_spec Hp. apply dispatch_full_match; [done|].
  unfold full_match. rewrite Hp. simpl. by apply bool_decide_eq_true.
Qed.

Lemma tmatch_lit_app (l : text) pat path : tmatch ((TChar <$> l) ++ pat) (l ++ path) = tmatch pat path.
Proof. induction l as [|c l IH]; [done|]. simpl. rewrite bool_decide_true by done. apply IH. Qed.

Lemma tmatch_param_ok u : path_param_ok u = true -> tmatch [TParam] u = true.
Proof.
  unfold path_param_ok. intros [Hne Hs]%andb_prop.
  apply bool_decide_eq_true in Hne, Hs. simpl. rewrite seg_len_no_slash, drop_all by done.
  apply andb_true_intro. split; apply bool_decide_eq_true; [|done].
  destruct u; [done|]. simpl. lia.
Qed.

(** The route of a literal path, and of a literal prefix and one parameter. *)
Lemma dispatch_lit e m (s : text) : has_route e m (TChar <$> s) = true -> dispatch m s = Dispatched e.
Proof. intros Hr. apply (dispatch_at e m _ _ Hr). rewrite <- (app_nil_r s) at 2. rewrite <- (app_nil_r (TChar <$> s)). rewrite tmatch_lit_app. done. Qed.

Lemma dispatch_param e m (s u : text) :
  has_route e m ((TChar <$> s) ++ [TParam]) = true -> path_param_ok u = true ->
  dispatch m (s ++ u) = Dispatched e.
Proof. intros Hr Hu. apply (dispatch_at e m _ _ Hr). rewrite tmatch_lit_app. by apply tmatch_param_ok. Qed.

(** ** Theorems *)

(** C30: The route table of the application is unambiguous: no request
    (method and path) is matched by two different routes of [app.routes],
    the documentation routes, the four included routers and the health
    check together; so the order in which main.py includes the routers does
    not decide which handler serves a request. *)
Theorem app_routes_unambiguous m path r1 r2 :
  r1 ∈ app_routes -> r2 ∈ app_routes ->
  full_match m path r1 = true -> full_match m path r2 = true -> r1 = r2.
Proof. apply pairwise_compatible_unique, app_routes_compatible. Qed.

(** Every request of the precise router whose path parameters are
    non-empty and hold no ['/'], sent with its method to its URL under
    ["/api/v1/precise"], is dispatched by the application to the endpoint
    of that request ([handle] of [Router]). *)
Theorem precise_requests_routed r :
  precise_params_ok r = true ->
  dispatch (precise_method r) (precise_path r) = Dispatched (precise_endpoint r).
Proof.
  destruct r; cbn [precise_method precise_path precise_endpoint precise_params_ok]; intros Hok;
    first [ apply dispatch_lit; vm_compute; reflexivity
          | apply dispatch_param; [vm_compute; reflexivity | exact Hok] ].
Qed.

Section ChatBodies.
Context `{PyUnicode} `{VectorChannel} `{PromptFormatter} `{ModelClient}.

(** C32: Leaving out [vector_search_config] and [precise_search_config]
    from a chat request and sending them as [{}] give the same answer: the
    defaults of the Pydantic models (chat_router.py:25-34) are the ones
    [_prepare_chat] uses for a missing configuration
    (chat_service.py:41-79). *)
Theorem omitted_configs_equiv d b :
  crb_vector_search_config b = None -> crb_precise_search_config b = None ->
  ask_question d (crb_model_settings b) (chat_request_of (with_empty_configs b)) =
  ask_question d (crb_model_settings b) (chat_request_of b).
Proof.
  intros Hv Hp. destruct b as [msg cfg tc vc pc hist]; cbn in Hv, Hp; subst.
  reflexivity.
Qed.

End ChatBodies.

(** ** Witnesses *)

Lemma app_routes_unambiguous_witness :
  mkRoute [GET] (lit "/api/v1/templates/" ++ [TParam]) EpGetTemplate =
  mkRoute [GET] (lit "/api/v1/templates/" ++ [TParam]) EpGetTemplate.
Proof.
  apply (app_routes_unambiguous GET (txt "/api/v1/templates/triage"));
    first [decide_goal | vm_compute; reflexivity].
Defined.

Lemma precise_requests_routed_witness :
  dispatch DELETE (txt "/api/v1/precise/category/" ++ txt "cat1") = Dispatched EpDeleteCategory /\
  dispatch GET (txt "/api/v1/precise/entries/" ++ txt "cat1") = Dispatched EpListEntries.
Proof.
  split.
  - apply (precise_requests_routed (DeleteCategory (txt "cat1"))). vm_compute. reflexivity.
  - apply (precise_requests_routed (GetEntries (txt "cat1"))). vm_compute. reflexivity.
Defined.

Lemma omitted_configs_equiv_witness :
  @ask_question cjk_unicode empty_vector append_precise echo_client ex_db ex_config
    (chat_request_of (with_empty_configs ex_chat_body)) =
  @ask_question cjk_unicode empty_vector append_precise echo_client ex_db ex_config
    (chat_request_of ex_chat_body).
Proof. apply (@omitted_configs_equiv cjk_unicode empty_vector append_precise echo_client); reflexivity. Defined.
