(* ===== verification/Embedder.v ===== *)
(** * The embedding function: [SentenceTransformerEmbedder]

    Models [SentenceTransformerEmbedder.__call__]
    (src/llm/rag/vector_rag.py:34-97), the function chromadb calls to embed
    the documents and queries of [VectorRAG].  The sentence-transformers
    model is the interface [SentenceModel]: [model.encode(batch).tolist()]
    (its vectors, or [None] when it raises), the dimension
    [get_sentence_embedding_dimension()] and the float [0.0]; floats are an
    abstract type [F].

    A blank text ([not text.strip()]) is replaced by the placeholder
    "空文本"; the texts are encoded in batches of 32, and a batch whose
    encoding raises gets one zero vector of the model's dimension per text.
    The outer [except] of lines 92-97 catches nothing the loop lets out (the
    batch's exception is caught inside it), so it is not modelled. *)

From stdpp Require Import base list decidable strings.
From Stdlib Require Import ZArith Lia.
From S2P Require Import Prelude Preprocess Store Rank Search Rag Vector.

Class SentenceModel (F : Type) := {
  model_encode : list text -> option (list (list F));
  model_dim : nat;
  float_zero : F }.

(** ["空文本"] (line 64). *)
Definition placeholder_text : text := [0x7A7A; 0x6587; 0x672C]%N.

(** Lines 58-64: a blank text is replaced by the placeholder. *)
Definition replace_blank (t : text) : text :=
  if bool_decide (py_strip t = []) then placeholder_text else t.

(** [batch_size = 32] (line 67). *)
Definition embed_batch_size : nat := 32.

Section Embedder.
Context {F : Type} `{SentenceModel F}.

(** [[0.0] * dim]. *)
Definition zero_vector : list F := replicate model_dim float_zero.

(** One batch (lines 74-83): its vectors, or a zero vector per text. *)
Definition embed_batch (batch : list text) : list (list F) :=
  match model_encode batch with
  | Some es => es
  | None => replicate (length batch) zero_vector
  end.

(** [__call__(input)] (lines 34-91). *)
Definition embed (input : list text) : list (list F) :=
  if bool_decide (input = []) then []
  else concat (embed_batch <$> py_batches embed_batch_size (replace_blank <$> input)).

End Embedder.

(** ** Concrete models *)

(** A model whose "vector" of a text is its length. *)
Definition length_model : SentenceModel nat := {|
  model_encode b := Some ((fun t => [length t]) <$> b);
  model_dim := 1; float_zero := 0 |}.

(** A model that fails on every batch holding the text "bad". *)
Definition failing_model : SentenceModel nat := {|
  model_encode b := if bool_decide (txt "bad" ∈ b) then None else Some ((fun t => [length t]) <$> b);
  model_dim := 1; float_zero := 0 |}.

(** Forty texts, two batches: a blank one in the first, "bad" in the second. *)
Definition ex_texts : list text :=
  txt "  " :: replicate 34 (txt "headache") ++ [txt "bad"] ++ replicate 4 (txt "fever").

(** ** Lemmas *)

Lemma length_replace_blank input : length (replace_blank <$> input) = length input.
Proof. apply length_fmap. Qed.

Section EmbedderFacts.
Context {F : Type} `{SentenceModel F}.

Lemma embed_concat input :
  input <> [] -> embed input = concat (embed_batch <$> py_batches embed_batch_size (replace_blank <$> input)).
Proof. intros Hne. unfold embed. by rewrite bool_decide_false. Qed.

End EmbedderFacts.

Section EmbedderBatches.
Context {F : Type} `{SentenceModel F}.

Lemma length_embed_batch b :
  (forall es, model_encode b = Some es -> length es = length b) -> length (embed_batch b) = length b.
Proof. unfold embed_batch. destruct (model_encode b); [auto|]. intros _. apply length_replicate. Qed.

Lemma embed_batch_dims b :
  (forall es, model_encode b = Some es -> Forall (fun v => length v = model_dim) es) ->
  Forall (fun v => length v = model_dim) (embed_batch b).
Proof.
  unfold embed_batch. destruct (model_encode b); [auto|]. intros _.
  apply Forall_replicate, length_replicate.
Qed.

End EmbedderBatches.

(** ** Theorems *)

Section EmbedderTheorems.
Context {F : Type} `{SentenceModel F}.

(** C35: Batching is transparent: when the model encodes each text on its
    own ([encode] of a batch is the list of the texts' vectors), the
    embedding of the input is the vector of each text, with a blank text
    replaced by "空文本", in the input's order, whatever the number of
    texts and of batches of 32. *)
Theorem embed_batching_transparent (f : text -> list F) input :
  (forall b, model_encode b = Some (f <$> b)) ->
  embed input = (fun t => f (replace_blank t)) <$> input.
Proof.
  intros Hf. destruct (decide (input = [])) as [->|Hne]; [reflexivity|].
  rewrite embed_concat by done.
  rewrite (list_fmap_ext embed_batch (fmap f) _ (fun _ b _ => ltac:(unfold embed_batch; by rewrite Hf))).
  rewrite concat_fmap_fmap, py_batches_concat by (unfold embed_batch_size; lia).
  by rewrite <- list_fmap_compose.
Qed.

(** C34: The shape chromadb requires: when every successful [encode]
    returns one vector of the model's dimension per text of its batch, the
    embedding has one vector per input text, each of the model's dimension,
    also when some batches fail (their texts get zero vectors) and for an
    empty input. *)
Theorem embed_shape input :
  (forall b es, model_encode b = Some es ->
     length es = length b /\ Forall (fun v => length v = model_dim) es) ->
  length (embed input) = length input /\ Forall (fun v => length v = model_dim) (embed input).
Proof.
  intros Hm. destruct (decide (input = [])) as [->|Hne]; [split; [done|constructor]|].
  rewrite embed_concat by done. split.
  - rewrite length_concat_fmap, py_batches_concat by
      (unfold embed_batch_size; lia || (intros b _; apply length_embed_batch; intros es Hes; apply (Hm b es Hes))).
    apply length_replace_blank.
  - apply Forall_concat, Forall_fmap, Forall_forall. intros b _. apply embed_batch_dims.
    intros es Hes. apply (Hm b es Hes).
Qed.

End EmbedderTheorems.

(** ** Witnesses *)

Lemma embed_batching_transparent_witness :
  @embed nat length_model ex_texts = (fun t => [length (replace_blank t)]) <$> ex_texts.
Proof. apply (@embed_batching_transparent nat length_model (fun t => [length t])). reflexivity. Defined.

Lemma embed_shape_witness :
  (length (@embed nat failing_model ex_texts) = length ex_texts /\
   Forall (fun v => length v = 1) (@embed nat failing_model ex_texts)) /\
  @embed nat failing_model ex_texts !! 0 = Some [3] /\
  @embed nat failing_model ex_texts !! 10 = Some [8] /\
  @embed nat failing_model ex_texts !! 36 = Some [0].
Proof.
  split; [|vm_compute; auto].
  apply (@embed_shape nat failing_model). intros b es Hb. simpl in Hb.
  destruct (bool_decide _); [discriminate|]. injection Hb as <-.
  split; [apply length_fmap|]. apply Forall_fmap, Forall_forall. reflexivity.
Defined.
